(** * felte core: the form action (packages/core/src/create-form-action.ts)

    A shallow embedding of [createFormAction]: the submit handler returned by
    [createSubmitHandler] and the change and mutation handlers that [form]
    installs on the bound node.

    The handlers are effectful: they write the six stores, call back into
    code supplied by the user (validators, the submit action, [onError],
    extenders) and read the live DOM.  They are embedded in a small monad
    over an explicit [World], with exceptions and with a trace of what the
    handler itself did, so that statements such as "the submit action is
    never invoked" are statements about that trace. *)

From Stdlib Require Import List Ascii String ZArith Bool Arith Lia.
From Stdlib Require Import DecimalString.
Import ListNotations.
Local Open Scope string_scope.
Local Open Scope list_scope.

Set Implicit Arguments.
Set Warnings "-register-all".

(** ** JavaScript values held by the stores *)

Inductive JsValue : Type :=
| VUndefined
| VNull
| VBool (b : bool)
| VNum (n : Z)
| VStr (s : string)
| VArr (items : list JsValue)
| VObj (props : list (string * JsValue)).

(** [!!v]: the falsy values are undefined, null, false, 0 and the empty
    string; arrays and objects are always truthy. *)
Definition truthy (v : JsValue) : bool :=
  match v with
  | VUndefined | VNull => false
  | VBool b => b
  | VNum n => negb (Z.eqb n 0)
  | VStr s => negb (String.eqb s EmptyString)
  | VArr _ | VObj _ => true
  end.

(** A thrown value (or the reason of a rejected promise). *)
Definition Exn := JsValue.

(** An object property read with [o.k ?? ...] or copied by [{...o}]: the
    two operators differ on a key that is present and holds [undefined]. *)
Inductive Property (A : Type) : Type :=
| Absent
| Undefined
| Present (a : A).
Arguments Absent {A}.
Arguments Undefined {A}.

(** [o.k] as seen by [??]: absent and undefined are both nullish. *)
Definition read {A} (p : Property A) : option A :=
  match p with Present a => Some a | _ => None end.

(** [a ?? b] *)
Definition nullish {A} (a b : option A) : option A :=
  match a with Some _ => a | None => b end.
Infix "??" := nullish (at level 61, left associativity).

(** One key of [{ ...c, ...a }]: an own key of [a] wins, whatever it holds. *)
Definition spread {A} (c a : Property A) : Property A :=
  match a with Absent => c | _ => a end.

(** ** The DOM, as far as the handlers look at it *)

Record Element : Type := mkElement {
  nodeName : string;
  type : string;
  name : string;
  value : string;
  checked : bool;
  multiple : bool;
  files : option (list JsValue);
  attributes : list (string * string)
}.

Inductive Node : Type :=
| TextNode (text : string)
| ElementNode (el : Element) (childNodes : list Node).

Fixpoint getAttribute (k : string) (attrs : list (string * string))
  : option string :=
  match attrs with
  | [] => None
  | (k', v) :: rest => if String.eqb k k' then Some v else getAttribute k rest
  end.

Definition hasAttribute (el : Element) (k : string) : bool :=
  match getAttribute k (attributes el) with Some _ => true | None => false end.

(** [el.dataset.felteIndex] and [el.dataset.felteKeepOnRemove] *)
Definition dataset_felteIndex (el : Element) : option string :=
  getAttribute "data-felte-index" (attributes el).
Definition dataset_felteKeepOnRemove (el : Element) : option string :=
  getAttribute "data-felte-keep-on-remove" (attributes el).

(** Elements below a list of nodes, in document order. *)
Fixpoint descendants (n : Node) : list Element :=
  match n with
  | TextNode _ => []
  | ElementNode el kids => el :: flat_map descendants kids
  end.

(** The bound form is a handle; what it contains is read from the world
    each time, because [form.elements] and [querySelectorAll] are live. *)
Definition FormNode := nat.

Record FormDom : Type := mkFormDom {
  elements : list Element;
  children : list Node
}.

(** [node.querySelectorAll(`[name="${n}"]`)] for a name without quotes. *)
Definition querySelectorAll_name (d : FormDom) (n : string) : list Element :=
  filter (fun el => String.eqb (name el) n) (flat_map descendants (children d)).

(** ** Stores and the world *)

Record Stores : Type := mkStores {
  data : JsValue;
  errors : JsValue;
  warnings : JsValue;
  touched : JsValue;
  isSubmitting : bool;
  isDirty : bool
}.

(** An extender instance is a reference; its optional hooks are looked up
    in the host. *)
Definition ExtenderHandler := nat.

Record World : Type := mkWorld {
  stores : Stores;
  currentExtenders : list ExtenderHandler;
  formNode : option FormNode;
  dom : FormNode -> FormDom
}.

Definition with_stores (f : Stores -> Stores) (w : World) : World :=
  mkWorld (f (stores w)) (currentExtenders w) (formNode w) (dom w).

Definition put_data v (s : Stores) :=
  mkStores v (errors s) (warnings s) (touched s) (isSubmitting s) (isDirty s).
Definition put_errors v (s : Stores) :=
  mkStores (data s) v (warnings s) (touched s) (isSubmitting s) (isDirty s).
Definition put_warnings v (s : Stores) :=
  mkStores (data s) (errors s) v (touched s) (isSubmitting s) (isDirty s).
Definition put_touched v (s : Stores) :=
  mkStores (data s) (errors s) (warnings s) v (isSubmitting s) (isDirty s).
Definition put_isSubmitting b (s : Stores) :=
  mkStores (data s) (errors s) (warnings s) (touched s) b (isDirty s).
Definition put_isDirty b (s : Stores) :=
  mkStores (data s) (errors s) (warnings s) (touched s) (isSubmitting s) b.

(** ** Outcomes and user code *)

Inductive Outcome (A : Type) : Type :=
| Returned (a : A)
| Raised (e : Exn).
Arguments Raised {A} e.

(** Code the handlers call but do not own.  It may do anything to the
    world: an awaited call also stands for whatever else ran while the
    handler was suspended (user edits, mutation callbacks). *)
Definition Ext (A : Type) : Type := World -> Outcome A * World.

(** ** Configuration

    [FormConfig] as far as this file reads it.  The per-handler overrides
    ([CreateSubmitHandlerConfig]) have the first four keys only and are
    given the same type.  Functions are references: the merged
    configuration is itself handed to the submit action. *)

Definition FnRef := nat.

Record TouchTriggerEvents : Type := mkTouchTriggers {
  input : bool;
  change : bool;
  blur : bool
}.

Record FormConfig : Type := mkConfig {
  onSubmit : Property FnRef;
  validate : Property FnRef;
  warn : Property FnRef;
  onError : Property FnRef;
  touchTriggerEvents : Property TouchTriggerEvents
}.

(** [{ ...config, ...altConfig }] *)
Definition mergeConfig (config : FormConfig) (altConfig : option FormConfig)
  : FormConfig :=
  match altConfig with
  | None => config
  | Some alt =>
      mkConfig (spread (onSubmit config) (onSubmit alt))
               (spread (validate config) (validate alt))
               (spread (warn config) (warn alt))
               (spread (onError config) (onError alt))
               (spread (touchTriggerEvents config) (touchTriggerEvents alt))
  end.

(** [altConfig?.k] *)
Definition alt {A} (altConfig : option FormConfig)
  (k : FormConfig -> Property A) : option A :=
  match altConfig with
  | None => None
  | Some a => read (k a)
  end.

(** What [onSubmit] resolves to: a configured function, or the handler
    that [createDefaultSubmitHandler] builds around the form. *)
Inductive SubmitAction : Type :=
| UserSubmit (f : FnRef)
| DefaultSubmit (form : FormNode).

Record SubmitContext : Type := mkContext {
  ctx_form : option FormNode;
  ctx_controls : option (list Element);
  ctx_config : FormConfig
}.

Inductive Stage : Type := MOUNT | UPDATE.

Definition Extender := nat.

Record ExtenderContext : Type := mkExtenderContext {
  ec_form : FormNode;
  ec_stage : Stage;
  ec_controls : list Element;
  ec_config : FormConfig
}.

(** A path handed to [_set], [_unset] and [setTouched]. *)
Definition Path := list string.

(** A JavaScript number as [getIndex] and [Number(...)] produce it;
    [NaN] is not equal to itself. *)
Inductive JsNumber : Type :=
| NaN
| Num (n : Z).

Definition strict_eq_number (a b : JsNumber) : bool :=
  match a, b with
  | Num x, Num y => Z.eqb x y
  | _, _ => false
  end.

(** ** The helpers imported from [@felte/common]

    Their code is not part of this file; the handlers are embedded over
    any implementation of them.  [Number_] is the built-in [Number],
    applied to a dataset entry. *)
Class Common : Type := {
  isFormControl : Element -> bool;
  isInputElement : Element -> bool;
  isSelectElement : Element -> bool;
  shouldIgnore : Element -> bool;
  isElement : Node -> bool;
  getPath : Element -> Path;
  getIndex : Element -> option JsNumber;
  getPathFromDataset : Element -> Path;
  getFormControls : Node -> list Element;
  getFormDefaultValues : FormDom -> JsValue;
  _set : JsValue -> Path -> JsValue -> JsValue;
  _unset : JsValue -> Path -> JsValue;
  _merge : JsValue -> JsValue -> JsValue;
  _defaultsDeep : JsValue -> JsValue -> JsValue;
  deepSet : JsValue -> JsValue -> JsValue;
  deepSome : JsValue -> (JsValue -> bool) -> bool;
  executeValidation : JsValue -> option FnRef -> Ext JsValue;
  Number_ : option string -> JsNumber
}.

(** ** The code supplied by the application

    User functions are called through their reference.  The handler of
    [createDefaultSubmitHandler] posts the form with [fetch] and throws a
    [FelteSubmitError] on a response that is not ok; here it is one more
    call that may raise.  An extender receives the form, the stage, the
    controls and the configuration; the stores and helpers it is also
    given are part of the world it runs in. *)
Class Host : Type := {
  call_onSubmit : FnRef -> JsValue -> SubmitContext -> Ext unit;
  defaultSubmitHandler : FormNode -> Ext unit;
  call_onError : FnRef -> Exn -> Ext JsValue;
  hook_onSubmitError :
    ExtenderHandler -> option (JsValue -> JsValue -> Ext unit);
  hook_destroy : ExtenderHandler -> option (Ext unit);
  call_extender : Extender -> ExtenderContext -> Ext ExtenderHandler;
  helpers_setTouched : Path -> bool -> Ext unit
}.

(** ** What a handler does, in order *)

Inductive Site : Type := Validate | Warn.

Inductive Event : Type :=
| EPreventDefault
| ESetIsSubmitting (b : bool)
| ESetIsDirty (b : bool)
| EExecuteValidation (site : Site) (d : JsValue) (fns : option FnRef)
    (r : Outcome JsValue)
| ESetWarnings (v : JsValue)
| ESetErrors (v : JsValue)
| EUpdateData (old new : JsValue)
| EUpdateTouched (old new : JsValue)
| EUpdateErrors (old new : JsValue)
| EUpdateWarnings (old new : JsValue)
| EGetCurrentExtenders (hs : list ExtenderHandler)
| ESetCurrentExtenders (hs : list ExtenderHandler)
| EOnSubmitError (h : ExtenderHandler) (d errs : JsValue) (r : Outcome unit)
| EDestroy (h : ExtenderHandler) (r : Outcome unit)
| EExtender (x : Extender) (c : ExtenderContext) (r : Outcome ExtenderHandler)
| EOnSubmit (f : SubmitAction) (d : JsValue) (c : SubmitContext)
    (r : Outcome unit)
| EOnError (g : FnRef) (e : Exn) (r : Outcome JsValue)
| EHelperSetTouched (p : Path) (b : bool) (r : Outcome unit).

Definition Trace := list Event.

(** ** The handler monad: world, exceptions, trace *)

Definition M (A : Type) : Type := World -> Outcome A * World * Trace.

Definition ret {A} (a : A) : M A := fun w => (Returned a, w, []).

Definition bind {A B} (m : M A) (k : A -> M B) : M B :=
  fun w =>
    match m w with
    | (Returned a, w1, t1) =>
        let '(r, w2, t2) := k a w1 in (r, w2, t1 ++ t2)
    | (Raised e, w1, t1) => (Raised e, w1, t1)
    end.

Declare Scope handler_scope.
Delimit Scope handler_scope with handler.
Notation "x <- m ;; k" := (bind m (fun x => k))
  (at level 100, m at next level, right associativity) : handler_scope.
Notation "m ;; k" := (bind m (fun _ => k))
  (at level 100, right associativity) : handler_scope.
Local Open Scope handler_scope.

Definition throw {A} (e : Exn) : M A := fun w => (Raised e, w, []).

(** [try { m } catch (e) { h e }] *)
Definition try_catch {A} (m : M A) (h : Exn -> M A) : M A :=
  fun w =>
    match m w with
    | (Raised e, w1, t1) =>
        let '(r, w2, t2) := h e w1 in (r, w2, t1 ++ t2)
    | done => done
    end.

(** [try { m } finally { f }]: [f] runs however [m] ends and, unless it
    raises itself, leaves the outcome of [m] in place. *)
Definition try_finally {A} (m : M A) (f : M unit) : M A :=
  fun w =>
    let '(r, w1, t1) := m w in
    match f w1 with
    | (Returned _, w2, t2) => (r, w2, t1 ++ t2)
    | (Raised e, w2, t2) => (Raised e, w2, t1 ++ t2)
    end.

(** A call into outside code, recorded with its outcome. *)
Definition call {A} (ev : Outcome A -> Event) (f : Ext A) : M A :=
  fun w => let '(r, w1) := f w in (r, w1, [ev r]).

Definition emit (e : Event) : M unit := fun w => (Returned tt, w, [e]).

Definition when (b : bool) (m : M unit) : M unit := if b then m else ret tt.

(** [xs.forEach(f)] *)
Fixpoint forEach {A} (f : A -> M unit) (xs : list A) : M unit :=
  match xs with
  | [] => ret tt
  | x :: rest => f x ;; forEach f rest
  end.

(** [xs.map(f)] for an [f] with effects *)
Fixpoint mapM {A B} (f : A -> M B) (xs : list A) : M (list B) :=
  match xs with
  | [] => ret []
  | x :: rest => y <- f x ;; ys <- mapM f rest ;; ret (y :: ys)
  end.

(** *** Store primitives: [get(store)], [store.set], [store.update] *)

Definition get {A} (store : Stores -> A) : M A :=
  fun w => (Returned (store (stores w)), w, []).

Definition isSubmitting_set (b : bool) : M unit :=
  fun w =>
    (Returned tt, with_stores (put_isSubmitting b) w, [ESetIsSubmitting b]).

Definition isDirty_set (b : bool) : M unit :=
  fun w => (Returned tt, with_stores (put_isDirty b) w, [ESetIsDirty b]).

Definition warnings_set (v : JsValue) : M unit :=
  fun w => (Returned tt, with_stores (put_warnings v) w, [ESetWarnings v]).

Definition errors_set (v : JsValue) : M unit :=
  fun w => (Returned tt, with_stores (put_errors v) w, [ESetErrors v]).

Definition data_update (f : JsValue -> JsValue) : M unit :=
  fun w => let old := data (stores w) in
    (Returned tt, with_stores (put_data (f old)) w, [EUpdateData old (f old)]).

Definition touched_update (f : JsValue -> JsValue) : M unit :=
  fun w => let old := touched (stores w) in
    (Returned tt, with_stores (put_touched (f old)) w,
     [EUpdateTouched old (f old)]).

Definition errors_update (f : JsValue -> JsValue) : M unit :=
  fun w => let old := errors (stores w) in
    (Returned tt, with_stores (put_errors (f old)) w,
     [EUpdateErrors old (f old)]).

Definition warnings_update (f : JsValue -> JsValue) : M unit :=
  fun w => let old := warnings (stores w) in
    (Returned tt, with_stores (put_warnings (f old)) w,
     [EUpdateWarnings old (f old)]).

Definition _getFormNode : M (option FormNode) :=
  fun w => (Returned (formNode w), w, []).

Definition _getCurrentExtenders : M (list ExtenderHandler) :=
  fun w => (Returned (currentExtenders w), w,
            [EGetCurrentExtenders (currentExtenders w)]).

Definition _setCurrentExtenders (hs : list ExtenderHandler) : M unit :=
  fun w => (Returned tt, mkWorld (stores w) hs (formNode w) (dom w),
            [ESetCurrentExtenders hs]).

(** [Array.from(form.elements)], read when it is evaluated *)
Definition form_elements (form : FormNode) : M (list Element) :=
  fun w => (Returned (elements (dom w form)), w, []).

Definition querySelectorAll (form : FormNode) (n : string) : M (list Element) :=
  fun w => (Returned (querySelectorAll_name (dom w form) n), w, []).

Record DomEvent : Type := mkEvent {
  target : option Element
}.

(** ** [createFormAction] *)

Section CreateFormAction.

Context {common : Common} {host : Host}.

(** The closure of [createFormAction]: its configuration and extenders. *)
Variable config : FormConfig.
Variable extender : list Extender.

(** [createDefaultSubmitHandler(form)]: nothing without a form. *)
Definition createDefaultSubmitHandler (form : option FormNode)
  : option SubmitAction :=
  match form with
  | None => None
  | Some node => Some (DefaultSubmit node)
  end.

(** What calling the resolved [onSubmit] runs.  The default handler takes
    no argument: it posts the form. *)
Definition actionOf (f : SubmitAction) (d : JsValue) (c : SubmitContext)
  : Ext unit :=
  match f with
  | UserSubmit g => call_onSubmit g d c
  | DefaultSubmit node => defaultSubmitHandler node
  end.

(** [await onSubmit(data, context)] *)
Definition invoke (f : SubmitAction) (d : JsValue) (c : SubmitContext)
  : M unit :=
  call (EOnSubmit f d c) (actionOf f d c).

(** [(extender) => extender.onSubmitError?.({ data, errors })] *)
Definition notifyHook (d errs : JsValue) (h : ExtenderHandler) : M unit :=
  match hook_onSubmitError h with
  | None => ret tt
  | Some hook => call (EOnSubmitError h d errs) (hook d errs)
  end.

(** [_getCurrentExtenders().forEach(...)] at lines 149 and 171 *)
Definition notifySubmitError (d errs : JsValue) : M unit :=
  hs <- _getCurrentExtenders ;;
  forEach (notifyHook d errs) hs.

(** The second argument of [onSubmit] at lines 160-165, as evaluated in
    the world [w]. *)
Definition contextAt (w : World) (formNode : option FormNode)
  (altConfig : option FormConfig) : SubmitContext :=
  mkContext formNode
    (option_map (fun n => filter isFormControl (elements (dom w n))) formNode)
    (mergeConfig config altConfig).

(** Lines 159-180: the submit action under [try]/[catch]/[finally]. *)
Definition submit (formNode : option FormNode) (altConfig : option FormConfig)
  (onSubmit : SubmitAction) (onError : option FnRef) (currentData : JsValue)
  : M unit :=
  try_finally
    (try_catch
       (controls <- match formNode with
                    | None => ret None
                    | Some node =>
                        els <- form_elements node ;;
                        ret (Some (filter isFormControl els))
                    end ;;
        invoke onSubmit currentData
          (mkContext formNode controls (mergeConfig config altConfig)))
       (fun e =>
          match onError with
          | None => throw e
          | Some g =>
              serverErrors <- call (EOnError g e) (call_onError g e) ;;
              when (truthy serverErrors)
                (errors_set serverErrors ;;
                 notifySubmitError currentData serverErrors)
          end))
    (isSubmitting_set false).

(** [altConfig?.k ?? config.k], lines 131-133 *)
Definition resolve {A} (altConfig : option FormConfig)
  (k : FormConfig -> Property A) : option A :=
  alt altConfig k ?? read (k config).

(** [altConfig?.onSubmit ?? config.onSubmit ??
     createDefaultSubmitHandler(formNode)], lines 127-130 *)
Definition resolveOnSubmit (altConfig : option FormConfig)
  (formNode : option FormNode) : option SubmitAction :=
  option_map UserSubmit (resolve altConfig onSubmit)
  ?? createDefaultSubmitHandler formNode.

(** The handler returned by [createSubmitHandler(altConfig)]. *)
Definition handleSubmit (altConfig : option FormConfig)
  (event : option DomEvent) : M unit :=
  formNode <- _getFormNode ;;
  let onSubmit := resolveOnSubmit altConfig formNode in
  let validate := resolve altConfig validate in
  let warn := resolve altConfig warn in
  let onError := resolve altConfig onError in
  match onSubmit with
  | None => ret tt
  | Some onSubmit =>
      when (match event with Some _ => true | None => false end)
        (emit EPreventDefault) ;;
      isSubmitting_set true ;;
      currentData <- get data ;;
      currentErrors <-
        call (EExecuteValidation Validate currentData validate)
          (executeValidation currentData validate) ;;
      currentWarnings <-
        call (EExecuteValidation Warn currentData warn)
          (executeValidation currentData warn) ;;
      when (truthy currentWarnings)
        (warnings_set (_merge (deepSet currentData VNull) currentWarnings)) ;;
      touched_update (fun t => deepSet t (VBool true)) ;;
      if truthy currentErrors then
        errors_set currentErrors ;;
        let hasErrors := deepSome currentErrors truthy in
        if hasErrors then
          notifySubmitError currentData currentErrors ;;
          isSubmitting_set false
        else submit formNode altConfig onSubmit onError currentData
      else submit formNode altConfig onSubmit onError currentData
  end.

(** *** [form(node)]: the handlers installed on the bound node *)

Variable node : FormNode.

Definition callExtender (stage : Stage) (x : Extender) : M ExtenderHandler :=
  els <- form_elements node ;;
  let c := mkExtenderContext node stage (filter isFormControl els) config in
  call (EExtender x c) (call_extender x c).

(** [elPath === getPath(checkbox)] *)
Fixpoint path_eqb (p q : Path) : bool :=
  match p, q with
  | [], [] => true
  | a :: p', b :: q' => String.eqb a b && path_eqb p' q'
  | _, _ => false
  end.

(** The group of [target]: the elements of the form named like it that are
    form controls and carry its index, or its path when it has no index. *)
Definition checkboxGroup (target : Element) (named : list Element)
  : list Element :=
  let index := getIndex target in
  let elPath := getPath target in
  filter (fun checkbox =>
    if negb (isFormControl checkbox) then false
    else match index with
         | Some i =>
             let felteIndex := Number_ (dataset_felteIndex checkbox) in
             strict_eq_number felteIndex i
         | None => path_eqb elPath (getPath checkbox)
         end) named.

Definition setCheckboxValues (target : Element) : M unit :=
  named <- querySelectorAll node (name target) ;;
  let checkboxes := checkboxGroup target named in
  match List.length checkboxes with
  | 0 => ret tt
  | 1 =>
      data_update (fun d => _set d (getPath target) (VBool (checked target)))
  | _ =>
      data_update (fun d =>
        _set d (getPath target)
          (VArr (map (fun el => VStr (value el))
                   (filter (fun el => checked el)
                      (filter isInputElement checkboxes)))))
  end.

Definition setRadioValues (target : Element) : M unit :=
  radios <- querySelectorAll node (name target) ;;
  let checkedRadio :=
    find (fun el => isInputElement el && checked el) radios in
  data_update (fun d =>
    _set d (getPath target)
      match checkedRadio with
      | Some el => VStr (value el)
      | None => VUndefined
      end).

Definition setFileValue (target : Element) : M unit :=
  let files := files target in
  data_update (fun d =>
    _set d (getPath target)
      (if multiple target
       then VArr (match files with Some fs => fs | None => [] end)
       else match files with
            | Some (f :: _) => f
            | _ => VUndefined
            end)).

Definition is_checkbox_radio_file (t : string) : bool :=
  existsb (String.eqb t) ["checkbox"; "radio"; "file"].

Definition handleChange (e : DomEvent) : M unit :=
  match target e with
  | None => ret tt
  | Some target =>
      if negb (isFormControl target) || shouldIgnore target then ret tt
      else if String.eqb (name target) EmptyString then ret tt
      else
        when (match read (touchTriggerEvents config) with
              | Some t => change t
              | None => false
              end)
          (call (EHelperSetTouched (getPath target) true)
             (helpers_setTouched (getPath target) true)) ;;
        when (isSelectElement target || is_checkbox_radio_file (type target))
          (isDirty_set true) ;;
        when (isSelectElement target)
          (data_update (fun d =>
             _set d (getPath target) (VStr (value target)))) ;;
        if negb (isInputElement target) then ret tt
        else
          when (String.eqb (type target) "checkbox")
            (setCheckboxValues target) ;;
          when (String.eqb (type target) "radio") (setRadioValues target) ;;
          when (String.eqb (type target) "file") (setFileValue target)
  end.

(** The test at lines 322-325 that makes the loop skip a control. *)
Definition keepOnRemove (control : Element) : bool :=
  hasAttribute control "data-felte-keep-on-remove"
  && negb (match dataset_felteKeepOnRemove control with
           | Some v => String.eqb v "false"
           | None => false
           end).

(** The four stores with the path unset. *)
Definition unsetAll (p : Path) (s : Stores) : Stores :=
  mkStores (_unset (data s) p) (_unset (errors s) p) (_unset (warnings s) p)
    (_unset (touched s) p) (isSubmitting s) (isDirty s).

(** One turn of the loop of [unsetTaggedForRemove]. *)
Definition unsetControl (control : Element) : M unit :=
  if keepOnRemove control then ret tt
  else
    errors_update (fun v => _unset v (getPathFromDataset control)) ;;
    warnings_update (fun v => _unset v (getPathFromDataset control)) ;;
    touched_update (fun v => _unset v (getPathFromDataset control)) ;;
    data_update (fun v => _unset v (getPathFromDataset control)).

Definition unsetTaggedForRemove (formControls : list Element) : M unit :=
  forEach unsetControl (rev formControls).

Record MutationRecord : Type := mkMutation {
  mutation_type : string;
  addedNodes : list Node;
  removedNodes : list Node
}.

(** [_getCurrentExtenders().forEach((extender) => extender.destroy?.())] *)
Definition destroyHook (h : ExtenderHandler) : M unit :=
  match hook_destroy h with
  | None => ret tt
  | Some hook => call (EDestroy h) hook
  end.

Definition destroyExtenders : M unit :=
  hs <- _getCurrentExtenders ;;
  forEach destroyHook hs.

(** [_setCurrentExtenders(extender.map(callExtender('UPDATE')))] *)
Definition remountExtenders : M unit :=
  hs <- mapM (callExtender UPDATE) extender ;;
  _setCurrentExtenders hs.

(** The callback of [some] at lines 346-351. *)
Definition addsControl (n : Node) : bool :=
  if negb (isElement n) then false
  else if match n with
          | ElementNode el _ => isFormControl el
          | TextNode _ => false
          end then true
  else Nat.ltb 0 (List.length (getFormControls n)).

(** Lines 364-373. *)
Definition processRemoved (mutation : MutationRecord) : M unit :=
  when (Nat.ltb 0 (List.length (removedNodes mutation)))
    (forEach (fun removedNode =>
       if negb (isElement removedNode) then ret tt
       else
         let formControls := getFormControls removedNode in
         if Nat.eqb (List.length formControls) 0 then ret tt
         else
           destroyExtenders ;;
           remountExtenders ;;
           unsetTaggedForRemove formControls)
       (removedNodes mutation)).

(** The body of the loop of [mutationCallback]; [continue] ends it. *)
Definition processMutation (mutation : MutationRecord) : M unit :=
  if negb (String.eqb (mutation_type mutation) "childList") then ret tt
  else if Nat.ltb 0 (List.length (addedNodes mutation)) then
    let shouldUpdate := existsb addsControl (addedNodes mutation) in
    if negb shouldUpdate then ret tt
    else
      destroyExtenders ;;
      remountExtenders ;;
      newDefaultData <-
        (fun w => (Returned (getFormDefaultValues (dom w node)), w, [])) ;;
      let newDefaultTouched := deepSet newDefaultData (VBool false) in
      data_update (fun d => _defaultsDeep d newDefaultData) ;;
      touched_update (fun t => _defaultsDeep t newDefaultTouched) ;;
      processRemoved mutation
  else processRemoved mutation.

Definition mutationCallback (mutationList : list MutationRecord) : M unit :=
  forEach processMutation mutationList.

End CreateFormAction.

(** ** [@felte/common], from its description

    The package is a sibling of this one; the definitions below follow what
    the specification says of each helper.  They give the class [Common] an
    instance on which the handlers can be run. *)

Module FelteCommon.

(** Modelled from the spec: [isInputElement] of [@felte/common] (the
    control kinds are text, select, checkbox, radio, file: all but select
    are inputs). *)
Definition isInputElement (el : Element) : bool :=
  String.eqb (nodeName el) "INPUT".

(** Modelled from the spec: [isSelectElement] of [@felte/common]. *)
Definition isSelectElement (el : Element) : bool :=
  String.eqb (nodeName el) "SELECT".

(** Modelled from the spec: [isFormControl] of [@felte/common] ("a way to
    detect: is this a form control"). *)
Definition isFormControl (el : Element) : bool :=
  isInputElement el || isSelectElement el
  || String.eqb (nodeName el) "TEXTAREA".

(** Modelled from the spec: [shouldIgnore] of [@felte/common] ("any control
    flagged with an explicit ignore marker"). *)
Definition shouldIgnore (el : Element) : bool :=
  hasAttribute el "data-felte-ignore".

(** Modelled from the spec: [isElement] of [@felte/common], the test that a
    DOM node is an element. *)
Definition isElement (n : Node) : bool :=
  match n with
  | ElementNode _ _ => true
  | TextNode _ => false
  end.

(** Decimal digits. *)
Definition digit (c : Ascii.ascii) : option Z :=
  let n := Z.of_nat (Ascii.nat_of_ascii c) in
  if (48 <=? n)%Z && (n <=? 57)%Z then Some (n - 48)%Z else None.

Fixpoint digits (acc : Z) (s : string) : option Z :=
  match s with
  | EmptyString => Some acc
  | String c rest =>
      match digit c with
      | Some d => digits (10 * acc + d)%Z rest
      | None => None
      end
  end.

(** The built-in [Number] on what an index attribute holds: a run of
    decimal digits is that number, the empty string is 0, anything else
    and [undefined] are [NaN]. *)
Definition Number_ (s : option string) : JsNumber :=
  match s with
  | Some (String c rest) =>
      match digits 0 (String c rest) with
      | Some n => Num n
      | None => NaN
      end
  | Some EmptyString => Num 0
  | None => NaN
  end.

(** Modelled from the spec: [getIndex] of [@felte/common] ("recovers an
    explicit array index hint", undefined without one). *)
Definition getIndex (el : Element) : option JsNumber :=
  if hasAttribute el "data-felte-index"
  then Some (Number_ (dataset_felteIndex el))
  else None.

(** The segments of a name: a dot or an opening bracket ends a segment, a
    closing bracket is dropped, so that [user.addresses[0].city] has the
    segments user, addresses, 0 and city. *)
Fixpoint segments (acc : string) (s : string) : list string :=
  match s with
  | EmptyString => [acc]
  | String c rest =>
      if Ascii.eqb c "."%char || Ascii.eqb c "["%char
      then acc :: segments EmptyString rest
      else if Ascii.eqb c "]"%char then segments acc rest
      else segments (acc ++ String c EmptyString)%string rest
  end.

(** An index as a segment: [String(index)]. *)
Definition indexSegment (i : JsNumber) : string :=
  match i with
  | Num n => NilZero.string_of_int (Z.to_int n)
  | NaN => "NaN"
  end.

(** Modelled from the spec: [getPath] of [@felte/common] ("derives a path
    from a control's declared name/index metadata"): the segments of the
    name, followed by the index hint when the control has one. *)
Definition getPath (el : Element) : Path :=
  segments EmptyString (name el)
  ++ match getIndex el with
     | Some i => [indexSegment i]
     | None => []
     end.

(** Modelled from the spec: [getPathFromDataset] of [@felte/common], the
    path under which a removed control is unset ("unset its path"). *)
Definition getPathFromDataset (el : Element) : Path := getPath el.

(** Modelled from the spec: [getFormControls] of [@felte/common] ("returns
    every form-control-capable element under root"). *)
Definition getFormControls (n : Node) : list Element :=
  filter isFormControl (descendants n).

(** *** Trees

    An object is a list of keys and values; [lookup], [update] and
    [remove] read, write and delete a key.  A sequence is a list of
    values; a segment that is a decimal numeral reads, writes and deletes
    one of its items. *)

Fixpoint lookup (k : string) (props : list (string * JsValue))
  : option JsValue :=
  match props with
  | [] => None
  | (k', v) :: rest => if String.eqb k k' then Some v else lookup k rest
  end.

Fixpoint update (k : string) (v : JsValue) (props : list (string * JsValue))
  : list (string * JsValue) :=
  match props with
  | [] => [(k, v)]
  | (k', v') :: rest =>
      if String.eqb k k' then (k', v) :: rest else (k', v') :: update k v rest
  end.

Fixpoint remove (k : string) (props : list (string * JsValue))
  : list (string * JsValue) :=
  match props with
  | [] => []
  | (k', v') :: rest =>
      if String.eqb k k' then remove k rest else (k', v') :: remove k rest
  end.

(** The position a segment names in a sequence, for a segment that is
    the decimal numeral of a natural number. *)
Definition indexOf (k : string) : option nat :=
  match k with
  | EmptyString => None
  | _ =>
      match digits 0 k with
      | Some n =>
          if String.eqb (NilZero.string_of_int (Z.to_int n)) k
          then Some (Z.to_nat n)
          else None
      | None => None
      end
  end.

(** [items] with [x] at position [i]; the positions in between, if any,
    hold [undefined]. *)
Fixpoint setNth (i : nat) (x : JsValue) (items : list JsValue)
  : list JsValue :=
  match i, items with
  | 0, [] => [x]
  | 0, _ :: rest => x :: rest
  | S j, [] => VUndefined :: setNth j x []
  | S j, y :: rest => y :: setNth j x rest
  end.

(** [items] without the item at position [i]: the later items move up. *)
Fixpoint removeNth (i : nat) (items : list JsValue) : list JsValue :=
  match i, items with
  | _, [] => []
  | 0, _ :: rest => rest
  | S j, y :: rest => y :: removeNth j rest
  end.

(** Modelled from the spec: [_get] of [@felte/common], the value a tree
    holds at a path; [None] where the tree has no such path. *)
Fixpoint _get (obj : JsValue) (path : Path) : option JsValue :=
  match path with
  | [] => Some obj
  | k :: rest =>
      match obj with
      | VObj props =>
          match lookup k props with
          | Some child => _get child rest
          | None => None
          end
      | VArr items =>
          match indexOf k with
          | Some i =>
              match nth_error items i with
              | Some child => _get child rest
              | None => None
              end
          | None => None
          end
      | _ => None
      end
  end.

(** Modelled from the spec: [_set] of [@felte/common], the "path-scoped
    update": a tree equal to [obj] but for [v] at [path].  Where the tree
    has no node to go through, a numeral makes a sequence and any other
    segment an object. *)
Fixpoint _set (obj : JsValue) (path : Path) (v : JsValue) : JsValue :=
  match path with
  | [] => v
  | k :: rest =>
      match obj, indexOf k with
      | VArr items, Some i =>
          let child := match nth_error items i with
                       | Some c => c
                       | None => VUndefined
                       end in
          VArr (setNth i (_set child rest v) items)
      | VObj props, _ =>
          let child := match lookup k props with
                       | Some c => c
                       | None => VUndefined
                       end in
          VObj (update k (_set child rest v) props)
      | _, Some i => VArr (setNth i (_set VUndefined rest v) [])
      | _, None => VObj [(k, _set VUndefined rest v)]
      end
  end.

(** Modelled from the spec: [_unset] of [@felte/common] ("paths are removed
    (unset) when their owning controls are permanently removed"; "array
    index shift semantics when list rows are removed"). *)
Fixpoint _unset (obj : JsValue) (path : Path) : JsValue :=
  match path, obj with
  | [k], VObj props => VObj (remove k props)
  | [k], VArr items =>
      match indexOf k with
      | Some i => VArr (removeNth i items)
      | None => obj
      end
  | k :: rest, VObj props =>
      match lookup k props with
      | Some child => VObj (update k (_unset child rest) props)
      | None => obj
      end
  | k :: rest, VArr items =>
      match indexOf k with
      | Some i =>
          match nth_error items i with
          | Some child => VArr (setNth i (_unset child rest) items)
          | None => obj
          end
      | None => obj
      end
  | _, _ => obj
  end.

(** Modelled from the spec: [deepSet] of [@felte/common] ("marks every path
    in Touched as true"; "a false-initialized version"): the same shape,
    every leaf replaced. *)
Fixpoint deepSet (obj v : JsValue) : JsValue :=
  match obj with
  | VObj props => VObj (map (fun '(k, x) => (k, deepSet x v)) props)
  | VArr items => VArr (map (fun x => deepSet x v) items)
  | _ => v
  end.

(** Modelled from the spec: [deepSome] of [@felte/common] ("any non-empty
    error at any path"): the predicate holds of some leaf. *)
Fixpoint deepSome (obj : JsValue) (pred : JsValue -> bool) : bool :=
  match obj with
  | VObj props => existsb (fun '(_, x) => deepSome x pred) props
  | VArr items => existsb (fun x => deepSome x pred) items
  | leaf => pred leaf
  end.

(** Two sequences merged item by item; the longer one gives the rest. *)
Fixpoint mergeItems (f : JsValue -> JsValue -> JsValue)
  (xs ds : list JsValue) : list JsValue :=
  match xs, ds with
  | [], _ => ds
  | _, [] => xs
  | x :: xs', d :: ds' => f x d :: mergeItems f xs' ds'
  end.

(** Modelled from the spec: [_defaultsDeep] of [@felte/common]
    ("deep-merge (store wins on conflicts, defaults only fill gaps)"):
    objects are merged key by key and sequences item by item, anything
    else the store holds stays, and a default is taken only where the
    store holds nothing. *)
Fixpoint _defaultsDeep (store defaults : JsValue) : JsValue :=
  match store with
  | VObj props =>
      match defaults with
      | VObj dprops =>
          VObj (map (fun '(k, x) =>
                       (k, match lookup k dprops with
                           | Some d => _defaultsDeep x d
                           | None => x
                           end)) props
                ++ filter (fun '(k, _) =>
                             match lookup k props with
                             | Some _ => false
                             | None => true
                             end) dprops)
      | _ => store
      end
  | VArr items =>
      match defaults with
      | VArr ditems =>
          VArr (mergeItems (fun x d => _defaultsDeep x d) items ditems)
      | _ => store
      end
  | VUndefined => defaults
  | _ => store
  end.

(** Modelled from the spec: [_merge] of [@felte/common] ("merge of declared
    defaults and externally supplied initial values"): as [_defaultsDeep]
    with the second tree winning. *)
Definition _merge (a b : JsValue) : JsValue := _defaultsDeep b a.

(** The number a numeric input declares: a decimal integer, [undefined]
    for an empty or any other text. *)
Definition parseNumber (s : string) : JsValue :=
  match s with
  | EmptyString => VUndefined
  | String c rest =>
      if Ascii.eqb c "-"%char then
        match rest with
        | EmptyString => VUndefined
        | _ => match digits 0 rest with
               | Some n => VNum (- n)
               | None => VUndefined
               end
        end
      else match digits 0 s with
           | Some n => VNum n
           | None => VUndefined
           end
  end.

(** The elements under a node, each with its child nodes (for a select,
    its options). *)
Fixpoint withChildNodes (n : Node) : list (Element * list Node) :=
  match n with
  | TextNode _ => []
  | ElementNode el kids => (el, kids) :: flat_map withChildNodes kids
  end.

(** The values of the options of a select that are declared selected. *)
Definition selectedOptions (kids : list Node) : list JsValue :=
  map (fun o => VStr (value o))
    (filter (fun o => String.eqb (nodeName o) "OPTION"
                      && hasAttribute o "selected")
       (flat_map descendants kids)).

(** The declared default of a control: a lone checkbox gives its checked
    state, a checkbox group the values of its checked members, a radio the
    value of the checked one, a file input its file list placeholder, a
    select-multiple its selected options, a numeric input a number, any
    other control its text. *)
Definition defaultOf (controls : list Element) (el : Element)
  (kids : list Node) : JsValue :=
  let same := filter (fun c => path_eqb (getPath c) (getPath el)) controls in
  if String.eqb (type el) "checkbox" then
    match same with
    | [_] => VBool (checked el)
    | _ =>
        VArr (map (fun c => VStr (value c)) (filter (fun c => checked c) same))
    end
  else if String.eqb (type el) "radio" then
    match find (fun c => checked c) same with
    | Some c => VStr (value c)
    | None => VUndefined
    end
  else if String.eqb (type el) "file" then
    if multiple el
    then VArr (match files el with Some fs => fs | None => [] end)
    else match files el with
         | Some (f :: _) => f
         | _ => VUndefined
         end
  else if isSelectElement el && multiple el then VArr (selectedOptions kids)
  else if String.eqb (type el) "number" || String.eqb (type el) "range"
  then parseNumber (value el)
  else VStr (value el).

(** Modelled from the spec: [getFormDefaultValues] of [@felte/common]
    ("builds a tree of initial values from each control's declared
    default": "checkbox groups aggregate into arrays; single controls
    keep scalar defaults; select-multiple aggregates selected options"),
    over the named controls under the form. *)
Definition getFormDefaultValues (d : FormDom) : JsValue :=
  let controls :=
    filter
      (fun c => isFormControl (fst c)
                && negb (String.eqb (name (fst c)) EmptyString))
      (flat_map withChildNodes (children d)) in
  fold_left
    (fun acc c =>
       _set acc (getPath (fst c))
         (defaultOf (map fst controls) (fst c) (snd c)))
    controls (VObj []).

(** Modelled from the spec: [executeValidation] of [@felte/common] ("runs
    the validation function set (if any) against the snapshot"): nothing
    without one. *)
Definition executeValidation (validators : FnRef -> JsValue -> Ext JsValue)
  (d : JsValue) (fns : option FnRef) : Ext JsValue :=
  match fns with
  | None => fun w => (Returned VUndefined, w)
  | Some f => validators f d
  end.

Definition common (validators : FnRef -> JsValue -> Ext JsValue) : Common :=
  Build_Common isFormControl isInputElement isSelectElement shouldIgnore
    isElement getPath getIndex getPathFromDataset getFormControls
    getFormDefaultValues _set _unset _merge _defaultsDeep deepSet deepSome
    (executeValidation validators) Number_.

End FelteCommon.


(** ** A small form to run the handlers on

    A sign-up form with a text input, a lone checkbox, a group of three
    checkboxes, two radios and an e-mail input in a wrapper of its own,
    with a few validators, submit actions and extenders. *)

Module Demo.

Definition control (ty nm v : string) (chk : bool)
  (attrs : list (string * string)) : Element :=
  mkElement "INPUT" ty nm v chk false None attrs.

Definition wrapper : Element :=
  mkElement "DIV" EmptyString EmptyString EmptyString false false None [].

Definition nameInput := control "text" "name" EmptyString false [].
Definition subscribe := control "checkbox" "subscribe" "on" true [].
Definition red := control "checkbox" "colour" "red" true [].
Definition green := control "checkbox" "colour" "green" false [].
Definition blue := control "checkbox" "colour" "blue" true [].
Definition small := control "radio" "size" "small" false [].
Definition large := control "radio" "size" "large" false [].
Definition email := control "email" "email" "ada@example.org" false [].
Definition nickname :=
  control "text" "nickname" "ada" false
    [("data-felte-keep-on-remove", EmptyString)].

Definition emailRow : Node := ElementNode wrapper [ElementNode email []].
Definition nicknameRow : Node := ElementNode wrapper [ElementNode nickname []].

Definition signup : FormDom :=
  mkFormDom
    [nameInput; subscribe; red; green; blue; small; large; email]
    [ElementNode nameInput [];
     ElementNode subscribe [];
     ElementNode wrapper
       [ElementNode red []; ElementNode green []; ElementNode blue []];
     ElementNode wrapper [ElementNode small []; ElementNode large []];
     emailRow].

(** Validator 1 requires a name; 2 throws; 3 returns a tree without a
    truthy entry while the user goes on typing; any other finds nothing. *)
Definition validators (f : FnRef) (d : JsValue) : Ext JsValue :=
  match f with
  | 1 => fun w =>
      (Returned
         match FelteCommon._get d ["name"] with
         | Some v => if truthy v then VUndefined
                     else VObj [("name", VStr "required")]
         | None => VObj [("name", VStr "required")]
         end, w)
  | 2 => fun w => (Raised (VStr "validator failed"), w)
  | 3 => fun w =>
      (Returned (VObj [("name", VUndefined)]),
       with_stores (put_data (VObj [("name", VStr "Ada L.")])) w)
  | _ => fun w => (Returned VUndefined, w)
  end.

Definition common : Common := FelteCommon.common validators.

(** Submit action 11 fails, any other succeeds; [onError] 20 turns a
    failure into an error tree; extenders 30 and 31 have an
    [onSubmitError] hook, 32 has none. *)
Definition host : Host :=
  Build_Host
    (fun f d c w =>
       match f with
       | 11 => (Raised (VStr "network down"), w)
       | _ => (Returned tt, w)
       end)
    (fun form w => (Returned tt, w))
    (fun g e w =>
       match g with
       | 20 => (Returned (VObj [("name", VStr "rejected")]), w)
       | _ => (Returned VUndefined, w)
       end)
    (fun h =>
       match h with
       | 30 | 31 => Some (fun d errs w => (Returned tt, w))
       | _ => None
       end)
    (fun h => None)
    (fun x c w => (Returned x, w))
    (fun p b w =>
       (Returned tt,
        with_stores
          (fun s => put_touched (FelteCommon._set (touched s) p (VBool b)) s)
          w)).

Definition cfgRequired :=
  mkConfig (Present 10) (Present 1) Absent Absent Absent.
Definition cfgThrowing :=
  mkConfig (Present 10) (Present 2) Absent Absent Absent.
Definition cfgLenient :=
  mkConfig (Present 10) (Present 3) Absent Absent Absent.
Definition cfgFailing :=
  mkConfig (Present 11) Absent Absent Absent Absent.
Definition cfgRecovering :=
  mkConfig (Present 11) Absent Absent (Present 20) Absent.
Definition cfgEmpty : FormConfig := mkConfig Absent Absent Absent Absent Absent.

Definition blank : JsValue := VObj [("name", VStr EmptyString)].

Definition filled : JsValue :=
  VObj [("name", VStr "Ada"); ("size", VStr "small");
        ("email", VStr "ada@example.org"); ("nickname", VStr "ada")].

Definition initial (d : JsValue) : Stores :=
  mkStores d
    (VObj [("name", VStr "stale"); ("email", VStr "taken")])
    (VObj [("email", VStr "unusual domain")])
    (VObj [("name", VBool false); ("email", VBool true)])
    false false.

Definition world (d : JsValue) : World :=
  mkWorld (initial d) [30; 32; 31] (Some 0) (fun _ => signup).

Definition unbound : World :=
  mkWorld (initial blank) [] None (fun _ => signup).

Definition submitEvent : DomEvent := mkEvent None.

(** One record of a mutation batch: the e-mail row replaced by text, as
    [row.replaceWith("...")] reports it; and the row simply removed. *)
Definition rowReplaced : MutationRecord :=
  mkMutation "childList" [TextNode "no e-mail needed"] [emailRow].

Definition rowRemoved : MutationRecord :=
  mkMutation "childList" [] [emailRow].

Definition rowAdded : MutationRecord :=
  mkMutation "childList" [emailRow] [].

End Demo.

(** ** Reading a merge

    What "a path holds a value" and "defaults only fill gaps" mean on the
    trees of [FelteCommon]. *)





(** One step down a tree. *)
Definition child (obj : JsValue) (k : string) : option JsValue :=
  match obj with
  | VObj props => FelteCommon.lookup k props
  | VArr items =>
      match FelteCommon.indexOf k with
      | Some i => nth_error items i
      | None => None
      end
  | _ => None
  end.






(** ** Kinds of events

    Which part of a handler an event can come from. *)

Definition notifyEvent (ev : Event) : bool :=
  match ev with
  | EGetCurrentExtenders _ | EOnSubmitError _ _ _ _ => true
  | _ => false
  end.

(** What the [catch] block of the submit handler can do. *)
Definition catchEvent (ev : Event) : bool :=
  match ev with
  | EOnError _ _ _ | ESetErrors _ => true
  | other => notifyEvent other
  end.

Definition isOnSubmit (ev : Event) : bool :=
  match ev with
  | EOnSubmit _ _ _ _ => true
  | _ => false
  end.

(** What the submit handler can do once validation has been awaited and
    the warnings, touched and errors stores have been written. *)
Definition afterValidation (ev : Event) : bool :=
  match ev with
  | EOnSubmit _ _ _ _ | ESetIsSubmitting false => true
  | other => catchEvent other
  end.



(** ** The other handlers of [form(node)]

    [handleInput] and [handleBlur], lines 270-287 and 311-316.
    [getInputTextOrNumber] is one more helper of [@felte/common]; the
    handlers are embedded over any implementation of it. *)

Section InputHandlers.

Context {common : Common} {host : Host}.
Variable config : FormConfig.
Variable getInputTextOrNumber : Element -> JsValue.

Definition handleInput (e : DomEvent) : M unit :=
  match target e with
  | None => ret tt
  | Some target =>
      if negb (isFormControl target) || isSelectElement target
         || shouldIgnore target
      then ret tt
      else if is_checkbox_radio_file (type target) then ret tt
      else if String.eqb (name target) EmptyString then ret tt
      else
        when (match read (touchTriggerEvents config) with
              | Some t => input t
              | None => false
              end)
          (call (EHelperSetTouched (getPath target) true)
             (helpers_setTouched (getPath target) true)) ;;
        isDirty_set true ;;
        let inputValue := getInputTextOrNumber target in
        data_update (fun d => _set d (getPath target) inputValue)
  end.

Definition handleBlur (e : DomEvent) : M unit :=
  match target e with
  | None => ret tt
  | Some target =>
      if negb (isFormControl target) || shouldIgnore target then ret tt
      else if String.eqb (name target) EmptyString then ret tt
      else
        when (match read (touchTriggerEvents config) with
              | Some t => blur t
              | None => false
              end)
          (call (EHelperSetTouched (getPath target) true)
             (helpers_setTouched (getPath target) true))
  end.

(** [extender.onSubmitError] and [extender.destroy] are defined. *)
Definition hasSubmitErrorHook (h : ExtenderHandler) : bool :=
  match hook_onSubmitError h with Some _ => true | None => false end.

Definition hasDestroyHook (h : ExtenderHandler) : bool :=
  match hook_destroy h with Some _ => true | None => false end.

End InputHandlers.

(** ** Errors shown on the controls

    The subscriber of the errors store, lines 384-402, as what it does to
    one element and to [node.elements].  [_get] is the helper of
    [@felte/common]; it gives [undefined] where the tree has no such
    path. *)

Fixpoint setAttribute (k v : string) (attrs : list (string * string))
  : list (string * string) :=
  match attrs with
  | [] => [(k, v)]
  | (k', v') :: rest =>
      if String.eqb k k' then (k', v) :: rest
      else (k', v') :: setAttribute k v rest
  end.

Definition removeAttribute (k : string) (attrs : list (string * string))
  : list (string * string) :=
  filter (fun kv => negb (String.eqb k (fst kv))) attrs.

Definition withAttributes (el : Element) (attrs : list (string * string))
  : Element :=
  mkElement (nodeName el) (type el) (name el) (value el) (checked el)
    (multiple el) (files el) attrs.

(** [String(v)], as [join] applies it to the items of an array. *)
Fixpoint ToString (v : JsValue) : string :=
  match v with
  | VUndefined => "undefined"
  | VNull => "null"
  | VBool true => "true"
  | VBool false => "false"
  | VNum n => NilZero.string_of_int (Z.to_int n)
  | VStr s => s
  | VArr items =>
      String.concat ","
        (map (fun x => match x with
                       | VUndefined | VNull => EmptyString
                       | _ => ToString x
                       end) items)
  | VObj _ => "[object Object]"
  end.

(** [items.join(sep)]: [undefined] and [null] give the empty string. *)
Definition join (sep : string) (items : list JsValue) : string :=
  String.concat sep
    (map (fun x => match x with
                   | VUndefined | VNull => EmptyString
                   | _ => ToString x
                   end) items).

Definition newline : string := String (ascii_of_nat 10) EmptyString.

(** Lines 388-392: the message of a field, [undefined] for anything but a
    string or an array. *)
Definition validationMessage (fieldErrors : JsValue) : option string :=
  match fieldErrors with
  | VArr items => Some (join newline items)
  | VStr s => Some s
  | _ => None
  end.

(** [message === el.dataset.felteValidationMessage] *)
Definition sameMessage (a b : option string) : bool :=
  match a, b with
  | Some x, Some y => String.eqb x y
  | None, None => true
  | _, _ => false
  end.

Definition dataset_felteValidationMessage (el : Element) : option string :=
  getAttribute "data-felte-validation-message" (attributes el).

Section ErrorReflection.

Context {common : Common}.
Variable _get : JsValue -> Path -> JsValue.

(** The body of the loop, lines 386-400. *)
Definition reflectError (errs : JsValue) (el : Element) : Element :=
  if negb (isFormControl el) || String.eqb (name el) EmptyString then el
  else
    let fieldErrors := _get errs (getPath el) in
    let message := validationMessage fieldErrors in
    if sameMessage message (dataset_felteValidationMessage el) then el
    else
      match message with
      | Some (String c rest) =>
          withAttributes el
            (setAttribute "aria-invalid" "true"
               (setAttribute "data-felte-validation-message" (String c rest)
                  (attributes el)))
      | _ =>
          withAttributes el
            (removeAttribute "aria-invalid"
               (removeAttribute "data-felte-validation-message"
                  (attributes el)))
      end.

(** The subscriber over [node.elements]. *)
Definition reflectErrors (errs : JsValue) (els : list Element)
  : list Element :=
  map (reflectError errs) els.

End ErrorReflection.

(** ** The default submit handler

    The function that [createDefaultSubmitHandler] returns, lines 50-77.
    The form is taken as it is when the handler runs.  [fetch] and the
    lookup [new URLSearchParams(query).get(name)] belong to the platform;
    a response is an object and [FormData] and [URLSearchParams] bodies are
    named by the form they are made from. *)

Record HTMLFormElement : Type := mkForm {
  action : string;
  method : string;
  enctype : string;
  form_dom : FormDom
}.

Inductive RequestBody : Type :=
| FormDataBody (form : HTMLFormElement)
| URLSearchParamsBody (form : HTMLFormElement).

Record Request : Type := mkRequest {
  url : string;
  body : RequestBody;
  request_method : string;
  contentType : string
}.

(** [s.split(sep)] for a separator of one character. *)
Fixpoint split (sep : ascii) (acc : string) (s : string) : list string :=
  match s with
  | EmptyString => [acc]
  | String c rest =>
      if Ascii.eqb c sep then acc :: split sep EmptyString rest
      else split sep (acc ++ String c EmptyString)%string rest
  end.

(** [new FelteSubmitError(message, response)] *)
Definition FelteSubmitError (message : string) (response : JsValue) : Exn :=
  VObj [("name", VStr "FelteSubmitError"); ("message", VStr message);
        ("response", response)].

(** [response.ok], as a condition *)
Definition response_ok (response : JsValue) : bool :=
  match response with
  | VObj props =>
      match FelteCommon.lookup "ok" props with
      | Some v => truthy v
      | None => false
      end
  | _ => false
  end.

(** [form.querySelector('input[type="file"]')], as a condition *)
Definition hasFileInput (form : HTMLFormElement) : bool :=
  existsb (fun el => String.eqb (nodeName el) "INPUT"
                     && String.eqb (type el) "file")
    (flat_map descendants (children (form_dom form))).

Section DefaultSubmit.

Variable fetch : Request -> Ext JsValue.
Variable searchParam : option string -> string -> option string.

(** Lines 51-70: the request handed to [fetch]. *)
Definition requestOf (form : HTMLFormElement) : Request :=
  let action := action form in
  let query := nth_error (split "?"%char EmptyString action) 1 in
  let method :=
    match searchParam query "_method" with
    | Some (String c rest) => String c rest
    | _ => method form
    end in
  let enctype :=
    if hasFileInput form then "multipart/form-data" else enctype form in
  let body :=
    if String.eqb enctype "application/x-www-form-urlencoded"
    then URLSearchParamsBody form
    else FormDataBody form in
  mkRequest action body method enctype.

Definition defaultOnSubmit (form : HTMLFormElement) : Ext unit :=
  fun w =>
    match fetch (requestOf form) w with
    | (Returned response, w1) =>
        if response_ok response then (Returned tt, w1)
        else
          (Raised
             (FelteSubmitError "An error occurred while submitting the form"
                response), w1)
    | (Raised e, w1) => (Raised e, w1)
    end.

End DefaultSubmit.

(** A host whose default handler is the one above, for forms read from
    the world. *)
Definition withDefaultSubmit (host : Host)
  (fetch : Request -> Ext JsValue)
  (searchParam : option string -> string -> option string)
  (formOf : World -> FormNode -> HTMLFormElement) : Host :=
  Build_Host call_onSubmit
    (fun node w => defaultOnSubmit fetch searchParam (formOf w node) w)
    call_onError hook_onSubmitError hook_destroy call_extender
    helpers_setTouched.

(** What the submit handler does before it decides at line 145. *)
Definition beforeDecision (ev : Event) : bool :=
  match ev with
  | EPreventDefault | ESetIsSubmitting true | EExecuteValidation _ _ _ _
  | ESetWarnings _ | EUpdateTouched _ _ | ESetErrors _ => true
  | _ => false
  end.

(** The targets [handleInput] writes: named form controls that are not
    ignored, not selects and not of type checkbox, radio or file. *)
Definition textTarget {common : Common} (t : Element) : bool :=
  isFormControl t && negb (isSelectElement t) && negb (shouldIgnore t)
  && negb (is_checkbox_radio_file (type t))
  && negb (String.eqb (name t) EmptyString).

(** The targets [handleChange] and [handleBlur] look at. *)
Definition boundTarget {common : Common} (t : Element) : bool :=
  isFormControl t && negb (shouldIgnore t)
  && negb (String.eqb (name t) EmptyString).

(** What the change handler itself can do. *)
Definition changeEvent (ev : Event) : bool :=
  match ev with
  | EHelperSetTouched _ true _ | ESetIsDirty true | EUpdateData _ _ => true
  | _ => false
  end.

(** A computation that returns, having done nothing but update the data
    store. *)
Definition dataOnly (m : M unit) : Prop :=
  forall w r w' tr,
    m w = (r, w', tr) ->
    r = Returned tt
    /\ isDirty (stores w') = isDirty (stores w)
    /\ forall ev, In ev tr -> exists o n, ev = EUpdateData o n.

(** A record of a mutation batch that the callback passes over: not a
    child-list change; or one that adds nodes, none of them being or
    containing a form control; or one that adds nothing and removes only
    nodes that are no elements or hold no form control. *)
Definition inert {common : Common} (mutation : MutationRecord) : bool :=
  negb (String.eqb (mutation_type mutation) "childList")
  || (Nat.ltb 0 (List.length (addedNodes mutation))
      && negb (existsb addsControl (addedNodes mutation)))
  || (Nat.eqb (List.length (addedNodes mutation)) 0
      && forallb (fun n => negb (isElement n)
                           || Nat.eqb (List.length (getFormControls n)) 0)
           (removedNodes mutation)).

(** Two attribute lists that differ at most in the validation message
    and in [aria-invalid]. *)
Definition sameOtherAttributes (a b : list (string * string)) : Prop :=
  forall k,
    k <> "data-felte-validation-message" -> k <> "aria-invalid" ->
    getAttribute k a = getAttribute k b.

Definition aria_invalid (el : Element) : option string :=
  getAttribute "aria-invalid" (attributes el).

(** ** More runs on the sign-up form

    A validator that warns, an [onError] that fails, extenders with a
    [destroy] hook, a factory that fails, a few more controls and
    mutation records, and a server for the default submit action. *)

Module Scenes.

(** Validator 4 finds the name rather short; the others are those of the
    sign-up form. *)
Definition validators (f : FnRef) (d : JsValue) : Ext JsValue :=
  match f with
  | 4 => fun w => (Returned (VObj [("name", VStr "rather short")]), w)
  | _ => Demo.validators f d
  end.

Definition common : Common := FelteCommon.common validators.

(** [onError] 22 fails itself; the instances 30 and 31 have a [destroy]
    hook; factory 41 fails; the rest is as in the sign-up form. *)
Definition host : Host :=
  Build_Host
    (@call_onSubmit Demo.host)
    (@defaultSubmitHandler Demo.host)
    (fun g e w =>
       match g with
       | 22 => (Raised (VStr "handler failed"), w)
       | _ => @call_onError Demo.host g e w
       end)
    (@hook_onSubmitError Demo.host)
    (fun h =>
       match h with
       | 30 | 31 => Some (fun w => (Returned tt, w))
       | _ => None
       end)
    (fun x c w =>
       match x with
       | 41 => (Raised (VStr "extender failed"), w)
       | _ => (Returned x, w)
       end)
    (@helpers_setTouched Demo.host).

Definition cfgPlain :=
  mkConfig (Present 10) Absent Absent Absent Absent.
Definition cfgWarned :=
  mkConfig (Present 10) Absent (Present 4) Absent Absent.
Definition cfgSwallowed :=
  mkConfig (Present 11) Absent Absent (Present 21) Absent.
Definition cfgBroken :=
  mkConfig (Present 11) Absent Absent (Present 22) Absent.
Definition cfgTouching :=
  mkConfig Absent Absent Absent Absent
    (Present (mkTouchTriggers false true true)).
Definition cfgOverride :=
  mkConfig Undefined Absent (Present 4) Absent Absent.

Definition typed := Demo.control "text" "name" "Ada" false [].

Definition misindexed :=
  Demo.control "checkbox" "colour" "red" true
    [("data-felte-index", "first")].

Definition upload : Element :=
  mkElement "INPUT" "file" "avatar" EmptyString false true None [].

Definition flagged :=
  Demo.control "text" "name" EmptyString false
    [("id", "name"); ("data-felte-validation-message", "required");
     ("aria-invalid", "true")].

Definition getInputTextOrNumber (el : Element) : JsValue := VStr (value el).

Definition get (obj : JsValue) (path : Path) : JsValue :=
  match FelteCommon._get obj path with
  | Some v => v
  | None => VUndefined
  end.

Definition typing : DomEvent := mkEvent (Some typed).
Definition ticking : DomEvent := mkEvent (Some Demo.subscribe).

Definition attributeChanged : MutationRecord :=
  mkMutation "attributes" [] [].

Definition hintAdded : MutationRecord :=
  mkMutation "childList" [TextNode "no e-mail needed"] [Demo.emailRow].

(** The sign-up form as the default action posts it, and a server that
    answers 500. *)
Definition signupForm : HTMLFormElement :=
  mkForm "/signup?_method=PUT" "post" "application/x-www-form-urlencoded"
    Demo.signup.

Definition uploadForm : HTMLFormElement :=
  mkForm "/avatar" "post" "application/x-www-form-urlencoded"
    (mkFormDom [upload] [ElementNode upload []]).

Definition serverError : JsValue :=
  VObj [("ok", VBool false); ("status", VNum 500)].

Definition fetch (request : Request) : Ext JsValue :=
  fun w => (Returned serverError, w).

Definition searchParam (query : option string) (key : string)
  : option string :=
  match query with
  | Some "_method=PUT" =>
      if String.eqb key "_method" then Some "PUT" else None
  | _ => None
  end.

Definition posting : Host :=
  withDefaultSubmit Demo.host fetch searchParam (fun _ _ => signupForm).

(** Here the [destroy] hook of instance 32 fails. *)
Definition stubborn : Host :=
  Build_Host
    (@call_onSubmit host)
    (@defaultSubmitHandler host)
    (@call_onError host)
    (@hook_onSubmitError host)
    (fun h =>
       match h with
       | 32 => Some (fun w => (Raised (VStr "still busy"), w))
       | _ => @hook_destroy host h
       end)
    (@call_extender host)
    (@helpers_setTouched host).

(** The warning set 2 throws: after a validation that finds the name
    missing, after none at all, and after one that returns a tree without
    a truthy entry. *)
Definition cfgRequiredWarnThrows :=
  mkConfig (Present 10) (Present 1) (Present 2) Absent Absent.
Definition cfgWarnThrows :=
  mkConfig (Present 10) Absent (Present 2) Absent Absent.

(** Overrides for one handler: another submit action; and an [onSubmit]
    key that is there but holds [undefined]. *)
Definition otherAction : FormConfig :=
  mkConfig (Present 12) Absent Absent Absent Absent.
Definition undefinedAction : FormConfig :=
  mkConfig Undefined Absent Absent Absent Absent.

(** Here the [onSubmitError] hook of instance 30 fails; 31 has one that
    would return. *)
Definition hasty : Host :=
  Build_Host
    (@call_onSubmit Demo.host)
    (@defaultSubmitHandler Demo.host)
    (@call_onError Demo.host)
    (fun h =>
       match h with
       | 30 => Some (fun d errs w => (Raised (VStr "hook failed"), w))
       | _ => @hook_onSubmitError Demo.host h
       end)
    (@hook_destroy Demo.host)
    (@call_extender Demo.host)
    (@helpers_setTouched Demo.host).






End Scenes.

(** ** The worlds a submission goes through *)

(** The two awaited validations, run from [w] on its data store: the
    validation set returned [errs], the warning set returned [ws], and
    they left the world [w2]. *)
Definition validations {common : Common} (config : FormConfig)
  (altConfig : option FormConfig) (w : World) (errs ws : JsValue)
  (w2 : World) : Prop :=
  exists w1,
    executeValidation (data (stores w)) (resolve config altConfig validate)
      (with_stores (put_isSubmitting true) w)
    = (Returned errs, w1)
    /\ executeValidation (data (stores w)) (resolve config altConfig warn) w1
       = (Returned ws, w2).

(** The world at the decision of line 147: [w2] with the warnings stored
    if there are any, every entry of the touched store set to [true], and
    the errors stored if validation returned something truthy. *)
Definition decided {common : Common} (d errs ws : JsValue) (w2 : World)
  : World :=
  let w3 := if truthy ws
            then with_stores (put_warnings (_merge (deepSet d VNull) ws)) w2
            else w2 in
  let w4 := with_stores
              (put_touched (deepSet (touched (stores w3)) (VBool true))) w3 in
  if truthy errs then with_stores (put_errors errs) w4 else w4.

(** What running the [onSubmitError] hooks of [hs] on [(d, errs)] does to
    the world: each extender that has the hook is called, in order, in the
    world the one before left; a hook that raises ends the loop. *)
Fixpoint notified {host : Host} (d errs : JsValue)
  (hs : list ExtenderHandler) (w : World) : Outcome unit * World :=
  match hs with
  | [] => (Returned tt, w)
  | h :: rest =>
      match hook_onSubmitError h with
      | None => notified d errs rest w
      | Some hook =>
          match hook d errs w with
          | (Returned _, w1) => notified d errs rest w1
          | (Raised e, w1) => (Raised e, w1)
          end
      end
  end.

(** The overrides hold the key [k] with the value [undefined]: the key is
    their own, so the spread copies it, while [??] passes over it. *)
Definition overriddenByUndefined {A} (altConfig : option FormConfig)
  (k : FormConfig -> Property A) : Prop :=
  exists a, altConfig = Some a /\ k a = Undefined.

(** The key [k] of [{ ...config, ...altConfig }]: the overrides' own
    entry, whatever it holds, else the configuration's. *)
Definition merged {A} (config : FormConfig) (altConfig : option FormConfig)
  (k : FormConfig -> Property A) : Property A :=
  match altConfig with
  | None => k config
  | Some a =>
      match k a with
      | Absent => k config
      | own => own
      end
  end.



(** * Properties *)

Unset Implicit Arguments.

(** Membership in a trace that is known piece by piece. *)
Ltac in_cases H :=
  repeat match type of H with
    | In _ (_ ++ _) => apply in_app_or in H; destruct H as [H | H]
    | In _ (_ :: _) => destruct H as [H | H]
    | In _ [] => destruct H
    | In _ (match ?x with _ => _ end) => destruct x eqn:?
    end.

Ltac in_goal :=
  repeat first [ rewrite in_app_iff | progress simpl ]; tauto.

(** ** Running the monad *)

Lemma bind_run {A B} (m : M A) (k : A -> M B) w r w' tr :
  bind m k w = (r, w', tr) ->
  (exists a w1 t1 t2,
      m w = (Returned a, w1, t1) /\ k a w1 = (r, w', t2) /\ tr = t1 ++ t2)
  \/ (exists e, m w = (Raised e, w', tr) /\ r = Raised e).
Proof.
  unfold bind. destruct (m w) as [[[a | e] w1] t1].
  - destruct (k a w1) as [[r2 w2] t2] eqn:Hk. intros [= <- <- <-].
    left. exists a, w1, t1, t2. auto.
  - intros [= <- <- <-]. right. exists e. auto.
Qed.

Lemma call_run {A} (ev : Outcome A -> Event) (f : Ext A) w r w' tr :
  call ev f w = (r, w', tr) -> f w = (r, w') /\ tr = [ev r].
Proof.
  unfold call. destruct (f w) as [r0 w0]. intros [= <- <- <-]. auto.
Qed.

Lemma when_run (b : bool) (m : M unit) w r w' tr :
  when b m w = (r, w', tr) ->
  (b = true /\ m w = (r, w', tr))
  \/ (b = false /\ r = Returned tt /\ w' = w /\ tr = []).
Proof.
  destruct b; simpl.
  - auto.
  - unfold ret. intros [= <- <- <-]. auto.
Qed.

Lemma try_finally_run {A} (m : M A) (f : M unit) w r w' tr :
  try_finally m f w = (r, w', tr) ->
  exists r1 w1 t1 r2 t2,
    m w = (r1, w1, t1) /\ f w1 = (r2, w', t2) /\ tr = t1 ++ t2
    /\ r = match r2 with Returned _ => r1 | Raised e => Raised e end.
Proof.
  unfold try_finally. destruct (m w) as [[r1 w1] t1].
  destruct (f w1) as [[[u | e] w2] t2] eqn:Hf; intros [= <- <- <-];
    exists r1, w1, t1; eexists; exists t2; rewrite Hf; auto.
Qed.

Lemma try_catch_run {A} (m : M A) (h : Exn -> M A) w r w' tr :
  try_catch m h w = (r, w', tr) ->
  (exists a, m w = (Returned a, w', tr) /\ r = Returned a)
  \/ (exists e w1 t1 t2,
        m w = (Raised e, w1, t1) /\ h e w1 = (r, w', t2) /\ tr = t1 ++ t2).
Proof.
  unfold try_catch. destruct (m w) as [[[a | e] w1] t1].
  - intros [= <- <- <-]. left. exists a. auto.
  - destruct (h e w1) as [[r2 w2] t2] eqn:Hh. intros [= <- <- <-].
    right. exists e, w1, t1, t2. auto.
Qed.

(** ** Runs of the submit handler *)

Section SubmitRuns.

Context {common : Common} {host : Host}.
Variable config : FormConfig.

(** The hooks are notified in order, up to the first one that raises. *)
Lemma forEach_hooks d errs hs : forall w r w' tr,
  forEach (notifyHook d errs) hs w = (r, w', tr) ->
  (forall ev, In ev tr ->
     exists h r0, In h hs /\ ev = EOnSubmitError h d errs r0)
  /\ match r with
     | Returned _ =>
         forall h f, In h hs -> hook_onSubmitError h = Some f ->
                     In (EOnSubmitError h d errs (Returned tt)) tr
     | Raised e => exists h, In (EOnSubmitError h d errs (Raised e)) tr
     end.
Proof.
  induction hs as [| h0 hs IH]; simpl; intros w r w' tr H.
  - unfold ret in H. injection H as <- <- <-. split.
    + intros ev [].
    + intros h f [].
  - apply bind_run in H.
    destruct H as [(a & w1 & t1 & t2 & H1 & H2 & ->) | (e & H1 & ->)].
    + apply IH in H2. destruct H2 as [Hev Hr].
      unfold notifyHook in H1.
      destruct (hook_onSubmitError h0) as [hook |] eqn:Hh.
      * apply call_run in H1. destruct H1 as [H1 ->]. split.
        -- intros ev [<- | Hin].
           ++ exists h0. eexists. split; [now left | reflexivity].
           ++ destruct (Hev ev Hin) as (h & r0 & Hh' & ->).
              exists h, r0. split; [now right | reflexivity].
        -- destruct r as [u | e].
           ++ intros h f [<- | Hin] Hf.
              ** left. destruct a. reflexivity.
              ** right. eapply Hr; eauto.
           ++ destruct Hr as [h Hr]. exists h. now right.
      * unfold ret in H1. injection H1 as <- <- <-. simpl. split.
        -- intros ev Hin. destruct (Hev ev Hin) as (h & r0 & Hh' & ->).
           exists h, r0. split; [now right | reflexivity].
        -- destruct r as [u | e].
           ++ intros h f [<- | Hin] Hf.
              ** congruence.
              ** eapply Hr; eauto.
           ++ exact Hr.
    + unfold notifyHook in H1.
      destruct (hook_onSubmitError h0) as [hook |] eqn:Hh.
      * apply call_run in H1. destruct H1 as [H1 ->]. split.
        -- intros ev [<- | []].
           exists h0. eexists. split; [now left | reflexivity].
        -- exists h0. now left.
      * discriminate.
Qed.

Lemma notify_run d errs w r w' tr :
  notifySubmitError d errs w = (r, w', tr) ->
  exists rest,
    tr = EGetCurrentExtenders (currentExtenders w) :: rest
    /\ (forall ev, In ev rest ->
          exists h r0, In h (currentExtenders w)
                       /\ ev = EOnSubmitError h d errs r0)
    /\ match r with
       | Returned _ =>
           forall h f, In h (currentExtenders w) ->
                       hook_onSubmitError h = Some f ->
                       In (EOnSubmitError h d errs (Returned tt)) rest
       | Raised e => exists h, In (EOnSubmitError h d errs (Raised e)) rest
       end.
Proof.
  unfold notifySubmitError. intros H. apply bind_run in H.
  destruct H as [(a & w1 & t1 & t2 & H1 & H2 & ->) | (e & H1 & ->)].
  - unfold _getCurrentExtenders in H1. injection H1 as <- <- <-.
    exists t2. split; [reflexivity |].
    apply forEach_hooks in H2. exact H2.
  - discriminate.
Qed.

Lemma notify_events d errs w r w' tr :
  notifySubmitError d errs w = (r, w', tr) ->
  forall ev, In ev tr -> notifyEvent ev = true.
Proof.
  intros H ev Hin. apply notify_run in H.
  destruct H as (rest & -> & Hev & _).
  destruct Hin as [<- | Hin]; [reflexivity |].
  destruct (Hev ev Hin) as (h & r0 & _ & ->). reflexivity.
Qed.

Lemma notifyEvent_catch ev : notifyEvent ev = true -> catchEvent ev = true.
Proof. destruct ev; simpl; congruence. Qed.

Lemma catchEvent_after ev : catchEvent ev = true -> afterValidation ev = true.
Proof.
  destruct ev as [| [] | | | | | | | | | | | | | | | | ]; simpl; congruence.
Qed.

Lemma catchEvent_not_submit ev : catchEvent ev = true -> isOnSubmit ev = false.
Proof. destruct ev; simpl; congruence. Qed.

(** The argument list of [onSubmit] is evaluated without effect. *)
Lemma controls_run (formNode : option FormNode) w r w' tr :
  match formNode with
  | None => ret None
  | Some n => els <- form_elements n ;; ret (Some (filter isFormControl els))
  end w = (r, w', tr) ->
  r = Returned
        (option_map (fun n => filter isFormControl (elements (dom w n)))
           formNode)
  /\ w' = w /\ tr = [].
Proof.
  destruct formNode as [n |]; cbv [bind form_elements ret];
    intros [= <- <- <-]; auto.
Qed.

(** Every run of the [catch] block, lines 166-177. *)
Lemma catch_run (onError : option FnRef) d e w r w' tr :
  match onError with
  | None => throw e
  | Some g =>
      serverErrors <- call (EOnError g e) (call_onError g e) ;;
      when (truthy serverErrors)
        (errors_set serverErrors ;; notifySubmitError d serverErrors)
  end w = (r, w', tr) ->
  (forall ev, In ev tr -> catchEvent ev = true)
  /\ match onError with
     | None => r = Raised e /\ tr = []
     | Some g =>
         exists rs w2, call_onError g e w = (rs, w2)
         /\ match rs with
            | Raised e2 => r = Raised e2 /\ tr = [EOnError g e rs]
            | Returned se =>
                if truthy se then
                  exists wn tn,
                    notifySubmitError d se (with_stores (put_errors se) w2)
                    = (r, wn, tn)
                    /\ tr = EOnError g e rs :: ESetErrors se :: tn
                else r = Returned tt /\ tr = [EOnError g e rs]
            end
     end.
Proof.
  destruct onError as [g |]; intros H.
  - apply bind_run in H.
    destruct H as [(se & w2 & t3 & t4 & He & Hw & ->) | (e2 & He & ->)];
      apply call_run in He; destruct He as [He ->].
    + apply when_run in Hw.
      destruct Hw as [[Ht Hw] | (Ht & -> & -> & ->)].
      * apply bind_run in Hw.
        destruct Hw as [(u & w3 & t5 & t6 & Hs & Hn & ->) | (e3 & Hs & _)];
          [| discriminate].
        unfold errors_set in Hs. injection Hs as <- <- <-. split.
        -- intros ev [<- | [<- | Hin]]; try reflexivity.
           apply notifyEvent_catch. eapply notify_events; eauto.
        -- exists (Returned se), w2. rewrite Ht. split; [exact He |].
           exists w', t6. auto.
      * split.
        -- intros ev [<- | []]. reflexivity.
        -- exists (Returned se), w2. rewrite Ht. auto.
    + split.
      * intros ev [<- | []]. reflexivity.
      * exists (Raised e2), w'. auto.
  - unfold throw in H. injection H as <- <- <-. split; [intros ev [] | auto].
Qed.

(** Every run of lines 159-180: the action is called once, on the context
    of the world it starts in; [catch] and [finally] do the rest. *)
Lemma submit_run formNode altConfig act onError d w r w' tr :
  submit config formNode altConfig act onError d w = (r, w', tr) ->
  isSubmitting (stores w') = false
  /\ exists ro w1 body,
      actionOf act d (contextAt config w formNode altConfig) w = (ro, w1)
      /\ tr = EOnSubmit act d (contextAt config w formNode altConfig) ro
              :: body ++ [ESetIsSubmitting false]
      /\ (forall ev, In ev body -> catchEvent ev = true)
      /\ match ro with
         | Returned _ => r = Returned tt /\ body = []
         | Raised e =>
             match onError with
             | None => r = Raised e /\ body = []
             | Some g =>
                 exists rs w2, call_onError g e w1 = (rs, w2)
                 /\ match rs with
                    | Raised e2 => r = Raised e2 /\ body = [EOnError g e rs]
                    | Returned se =>
                        if truthy se then
                          exists wn tn,
                            notifySubmitError d se
                              (with_stores (put_errors se) w2) = (r, wn, tn)
                            /\ body = EOnError g e rs :: ESetErrors se :: tn
                        else r = Returned tt /\ body = [EOnError g e rs]
                    end
             end
         end.
Proof.
  unfold submit. intros H. apply try_finally_run in H.
  destruct H as (r1 & w1 & t1 & r2 & t2 & Hm & Hf & -> & ->).
  unfold isSubmitting_set in Hf. injection Hf as <- <- <-.
  split; [reflexivity |].
  apply try_catch_run in Hm.
  destruct Hm as [(a & Hm & ->) | (e & wa & ta & tb & Hm & Hh & ->)];
    apply bind_run in Hm;
    destruct Hm as [(c & wc & tc & td & Hc & Hi & ->) | (e' & Hc & _)];
    apply controls_run in Hc; destruct Hc as (Hc & -> & ->);
    try discriminate; injection Hc as ->;
    unfold invoke in Hi; apply call_run in Hi; destruct Hi as [Hi ->];
    fold (contextAt config w formNode altConfig) in Hi |- *.
  - exists (Returned a), w1, []. destruct a.
    repeat split; auto; intros ev [].
  - exists (Raised e), wa, tb.
    split; [exact Hi |]. split; [reflexivity |].
    apply catch_run in Hh. exact Hh.
Qed.

Lemma submit_events formNode altConfig act onError d w r w' tr :
  submit config formNode altConfig act onError d w = (r, w', tr) ->
  forall ev, In ev tr -> afterValidation ev = true.
Proof.
  intros H ev Hin. apply submit_run in H.
  destruct H as (_ & ro & w1 & body & _ & -> & Hb & _).
  destruct Hin as [<- | Hin]; [reflexivity |].
  apply in_app_or in Hin. destruct Hin as [Hin | [<- | []]]; [| reflexivity].
  apply catchEvent_after, Hb, Hin.
Qed.

(** What the handler has done when validation has been awaited. *)
Lemma handleSubmit_run altConfig event w r w' tr act :
  handleSubmit config altConfig event w = (r, w', tr) ->
  resolveOnSubmit config altConfig (formNode w) = Some act ->
  let d := data (stores w) in
  let vf := resolve config altConfig validate in
  let wf := resolve config altConfig warn in
  let pre := (match event with Some _ => [EPreventDefault] | None => [] end)
             ++ [ESetIsSubmitting true] in
  exists rv w1,
    executeValidation d vf (with_stores (put_isSubmitting true) w) = (rv, w1)
    /\ match rv with
       | Raised e =>
           r = Raised e /\ w' = w1
           /\ tr = pre ++ [EExecuteValidation Validate d vf rv]
       | Returned errs =>
           exists rw w2,
             executeValidation d wf w1 = (rw, w2)
             /\ match rw with
                | Raised e =>
                    r = Raised e /\ w' = w2
                    /\ tr = pre ++ [EExecuteValidation Validate d vf rv;
                                    EExecuteValidation Warn d wf rw]
                | Returned ws =>
                    let t := touched (stores w2) in
                    let marks :=
                      (if truthy ws
                       then [ESetWarnings (_merge (deepSet d VNull) ws)]
                       else [])
                      ++ [EUpdateTouched t (deepSet t (VBool true))]
                      ++ (if truthy errs then [ESetErrors errs] else []) in
                    exists w3 rest,
                      tr = pre ++ [EExecuteValidation Validate d vf rv;
                                   EExecuteValidation Warn d wf rw]
                               ++ marks ++ rest
                      /\ currentExtenders w3 = currentExtenders w2
                      /\ dom w3 = dom w2
                      /\ (forall ev, In ev rest -> afterValidation ev = true)
                      /\ if truthy errs && deepSome errs truthy then
                           exists rn wn tn,
                             notifySubmitError d errs w3 = (rn, wn, tn)
                             /\ match rn with
                                | Returned _ =>
                                    r = Returned tt
                                    /\ w' = with_stores
                                              (put_isSubmitting false) wn
                                    /\ rest = tn ++ [ESetIsSubmitting false]
                                | Raised e =>
                                    r = Raised e /\ w' = wn /\ rest = tn
                                end
                         else
                           submit config (formNode w) altConfig act
                             (resolve config altConfig onError) d w3
                           = (r, w', rest)
                end
       end.
Proof.
  intros H Hact. unfold handleSubmit in H.
  apply bind_run in H.
  destruct H as [(fn & w0 & t0 & t0' & Hfn & H & ->) | (e & Hfn & _)];
    [| discriminate].
  unfold _getFormNode in Hfn. injection Hfn as <- <- <-.
  rewrite Hact in H. simpl.
  (* prologue *)
  apply bind_run in H.
  destruct H as [(u & wa & ta & ta' & Hpd & H & ->) | (e & Hpd & _)].
  2:{ destruct event; discriminate. }
  assert (Hpre : wa = w /\
            ta = match event with Some _ => [EPreventDefault] | None => [] end).
  { destruct event; cbv in Hpd; injection Hpd as <- <- <-; auto. }
  destruct Hpre as [-> ->]. clear Hpd.
  apply bind_run in H.
  destruct H as [(u' & wb & tb & tb' & Hset & H & ->) | (e & Hset & _)];
    [| discriminate].
  unfold isSubmitting_set in Hset. injection Hset as <- <- <-.
  apply bind_run in H.
  destruct H as [(d & wc & tc & tc' & Hget & H & ->) | (e & Hget & _)];
    [| discriminate].
  unfold get in Hget. injection Hget as <- <- <-. simpl stores in H.
  simpl data in H.
  (* validation *)
  apply bind_run in H.
  destruct H as [(errs & w1 & t1 & t1' & Hv & H & ->) | (e & Hv & ->)];
    apply call_run in Hv; destruct Hv as [Hv ->].
  2:{ exists (Raised e), w'. split; [exact Hv |]. repeat split.
      now rewrite <- !app_assoc. }
  exists (Returned errs), w1. split; [exact Hv |].
  apply bind_run in H.
  destruct H as [(ws & w2 & t2 & t2' & Hw & H & ->) | (e & Hw & ->)];
    apply call_run in Hw; destruct Hw as [Hw ->].
  2:{ exists (Raised e), w'. split; [exact Hw |]. repeat split.
      now rewrite <- !app_assoc. }
  exists (Returned ws), w2. split; [exact Hw |].
  (* warnings and touched *)
  apply bind_run in H.
  destruct H as [(u2 & w3 & t3 & t3' & Hws & H & ->) | (e & Hws & _)].
  2:{ destruct (truthy ws); discriminate. }
  assert (Hmark : t3 = (if truthy ws
                        then [ESetWarnings
                                (_merge (deepSet (data (stores w)) VNull) ws)]
                        else [])
                  /\ touched (stores w3) = touched (stores w2)
                  /\ currentExtenders w3 = currentExtenders w2
                  /\ dom w3 = dom w2).
  { destruct (truthy ws); cbv in Hws; injection Hws as <- <- <-; auto. }
  destruct Hmark as (-> & Ht & Hx & Hd). clear Hws.
  apply bind_run in H.
  destruct H as [(u3 & w4 & t4 & t4' & Htu & H & ->) | (e & Htu & _)];
    [| discriminate].
  unfold touched_update in Htu. injection Htu as <- <- <-.
  rewrite Ht.
  destruct (truthy errs) eqn:Terr; simpl andb.
  - apply bind_run in H.
    destruct H as [(u5 & w5 & t5 & t5' & Hes & H & ->) | (e & Hes & _)];
      [| discriminate].
    unfold errors_set in Hes. injection Hes as <- <- <-.
    exists (with_stores (put_errors errs)
              (with_stores
                 (put_touched (deepSet (touched (stores w3)) (VBool true)))
                 w3)), t5'.
    split.
    { simpl. rewrite <- !app_assoc. simpl. reflexivity. }
    split; [exact Hx |]. split; [exact Hd |].
    split.
    { destruct (deepSome errs truthy).
      - apply bind_run in H.
        destruct H as [(u6 & w6 & t6 & t6' & Hn & H & ->) | (e & Hn & ->)].
        + unfold isSubmitting_set in H. injection H as <- <- <-.
          intros ev Hin. apply in_app_or in Hin.
          destruct Hin as [Hin | [<- | []]]; [| reflexivity].
          apply catchEvent_after, notifyEvent_catch.
          eapply notify_events; eauto.
        + intros ev Hin. apply catchEvent_after, notifyEvent_catch.
          eapply notify_events; eauto.
      - eapply submit_events; eauto. }
    destruct (deepSome errs truthy) eqn:Hsome.
    + apply bind_run in H.
      destruct H as [(u6 & w6 & t6 & t6' & Hn & H & ->) | (e & Hn & ->)].
      * exists (Returned u6), w6, t6. split; [exact Hn |].
        unfold isSubmitting_set in H. injection H as <- <- <-. auto.
      * exists (Raised e), w', t5'. auto.
    + exact H.
  - exists (with_stores
              (put_touched (deepSet (touched (stores w3)) (VBool true))) w3),
      t4'.
    split.
    { simpl. rewrite <- !app_assoc. simpl. reflexivity. }
    split; [exact Hx |]. split; [exact Hd |].
    split; [eapply submit_events; eauto | exact H].
Qed.

Lemma handleSubmit_unresolved altConfig event w :
  resolveOnSubmit config altConfig (formNode w) = None ->
  handleSubmit config altConfig event w = (Returned tt, w, []).
Proof.
  intros Hnone. unfold handleSubmit, bind, _getFormNode.
  rewrite Hnone. reflexivity.
Qed.

Lemma filter_none {A} (f : A -> bool) (l : list A) :
  (forall x, In x l -> f x = false) -> filter f l = [].
Proof.
  induction l as [| a l IH]; simpl; intros H; [reflexivity |].
  rewrite (H a (or_introl eq_refl)). apply IH. intros x Hx. apply H. now right.
Qed.


(** A validation that raises ends the handler there: the exception goes
    to the caller and [isSubmitting.set(false)] is not reached. *)
Lemma validation_raise_skips_release altConfig event w r w' tr site d f e :
  handleSubmit config altConfig event w = (r, w', tr) ->
  In (EExecuteValidation site d f (Raised e)) tr ->
  r = Raised e /\ ~ In (ESetIsSubmitting false) tr.
Proof.
  intros H Hin.
  destruct (resolveOnSubmit config altConfig (formNode w)) as [act |] eqn:Hact.
  2:{ rewrite (handleSubmit_unresolved _ event _ Hact) in H.
      injection H as <- <- <-. destruct Hin. }
  destruct (handleSubmit_run _ _ _ _ _ _ _ H Hact) as (rv & w1 & Hv & Hrun).
  destruct rv as [errs | e0].
  2:{ destruct Hrun as (-> & _ & ->). split.
      - in_cases Hin; try discriminate. now injection Hin as _ _ _ ->.
      - intros Hf. in_cases Hf; discriminate. }
  destruct Hrun as (rw & w2 & Hw & Hrun).
  destruct rw as [ws | e0].
  2:{ destruct Hrun as (-> & _ & ->). split.
      - in_cases Hin; try discriminate. now injection Hin as _ _ _ ->.
      - intros Hf. in_cases Hf; discriminate. }
  cbv zeta in Hrun.
  destruct Hrun as (w3 & rest & -> & _ & _ & Hrest & _).
  exfalso. in_cases Hin; try discriminate.
  apply Hrest in Hin. discriminate.
Qed.

(** The world the hooks leave is the one [notified] computes. *)
Lemma forEach_notified d errs hs : forall w r w' tr,
  forEach (notifyHook d errs) hs w = (r, w', tr) ->
  notified d errs hs w = (r, w').
Proof.
  induction hs as [| h hs IH]; simpl; intros w r w' tr H.
  - unfold ret in H. now injection H as <- <- _.
  - apply bind_run in H.
    destruct H as [(a & w1 & t1 & t2 & H1 & H2 & ->) | (e & H1 & ->)];
      unfold notifyHook in H1;
      destruct (hook_onSubmitError h) as [hook |].
    + apply call_run in H1. destruct H1 as [H1 _]. rewrite H1.
      eapply IH. exact H2.
    + unfold ret in H1. injection H1 as _ <- _. eapply IH. exact H2.
    + apply call_run in H1. destruct H1 as [H1 _]. rewrite H1. reflexivity.
    + discriminate.
Qed.

Lemma notifySubmitError_notified d errs w r w' tr :
  notifySubmitError d errs w = (r, w', tr) ->
  notified d errs (currentExtenders w) w = (r, w').
Proof.
  unfold notifySubmitError. intros H. apply bind_run in H.
  destruct H as [(a & w1 & t1 & t2 & H1 & H2 & ->) | (e & H1 & _)];
    [| discriminate].
  unfold _getCurrentExtenders in H1. injection H1 as <- <- <-.
  eapply forEach_notified. exact H2.
Qed.

(** The run of the handler up to its decision, with the world it decides
    in. *)
Lemma handleSubmit_decision altConfig event w r w' tr act errs w1 ws w2 :
  handleSubmit config altConfig event w = (r, w', tr) ->
  resolveOnSubmit config altConfig (formNode w) = Some act ->
  let d := data (stores w) in
  executeValidation d (resolve config altConfig validate)
    (with_stores (put_isSubmitting true) w) = (Returned errs, w1) ->
  executeValidation d (resolve config altConfig warn) w1
  = (Returned ws, w2) ->
  exists head rest,
    tr = head ++ rest
    /\ (forall ev, In ev head -> beforeDecision ev = true)
    /\ (truthy errs = true -> In (ESetErrors errs) head)
    /\ if truthy errs && deepSome errs truthy then
         (notifySubmitError d errs ;; isSubmitting_set false)
           (decided d errs ws w2) = (r, w', rest)
       else
         submit config (formNode w) altConfig act
           (resolve config altConfig onError) d (decided d errs ws w2)
         = (r, w', rest).
Proof.
  intros H Hact d Hv Hw. unfold handleSubmit in H.
  unfold bind at 1 in H. unfold _getFormNode in H. rewrite Hact in H.
  unfold bind at 1 in H.
  assert (Hpre : when (match event with Some _ => true | None => false end)
                   (emit EPreventDefault) w
                 = (Returned tt, w,
                    match event with
                    | Some _ => [EPreventDefault]
                    | None => []
                    end))
    by (destruct event; reflexivity).
  rewrite Hpre in H. clear Hpre.
  unfold bind at 1 in H. unfold isSubmitting_set at 1 in H.
  unfold bind at 1 in H. unfold get at 1 in H.
  change (data (stores (with_stores (put_isSubmitting true) w))) with d in H.
  unfold bind at 1 in H. unfold call at 1 in H. rewrite Hv in H.
  unfold bind at 1 in H. unfold call at 1 in H. rewrite Hw in H.
  unfold bind at 1 in H.
  assert (Hws : when (truthy ws)
                  (warnings_set (_merge (deepSet d VNull) ws)) w2
                = (Returned tt,
                   (if truthy ws
                    then with_stores
                           (put_warnings (_merge (deepSet d VNull) ws)) w2
                    else w2),
                   if truthy ws
                   then [ESetWarnings (_merge (deepSet d VNull) ws)]
                   else []))
    by (destruct (truthy ws); reflexivity).
  rewrite Hws in H. clear Hws.
  unfold bind at 1 in H. unfold touched_update at 1 in H. cbv zeta in H.
  set (w3 := if truthy ws
             then with_stores (put_warnings (_merge (deepSet d VNull) ws)) w2
             else w2) in *.
  set (w4 := with_stores
               (put_touched (deepSet (touched (stores w3)) (VBool true)))
               w3) in *.
  assert (Hdec : decided d errs ws w2
                 = if truthy errs then with_stores (put_errors errs) w4
                   else w4) by reflexivity.
  rewrite Hdec. clear Hdec.
  set (pre := match event with Some _ => [EPreventDefault] | None => [] end
              ++ [ESetIsSubmitting true;
                  EExecuteValidation Validate d
                    (resolve config altConfig validate) (Returned errs);
                  EExecuteValidation Warn d
                    (resolve config altConfig warn) (Returned ws)]
              ++ (if truthy ws
                  then [ESetWarnings (_merge (deepSet d VNull) ws)]
                  else [])
              ++ [EUpdateTouched (touched (stores w3))
                    (deepSet (touched (stores w3)) (VBool true))]).
  assert (Hpre : forall ev, In ev pre -> beforeDecision ev = true).
  { intros ev Hev. unfold pre in Hev. in_cases Hev; subst ev; reflexivity. }
  destruct (truthy errs) eqn:Terr; cbn [andb].
  - unfold bind at 1 in H. unfold errors_set at 1 in H.
    destruct (deepSome errs truthy) eqn:Hsome.
    + destruct ((notifySubmitError d errs ;; isSubmitting_set false)
                  (with_stores (put_errors errs) w4))
        as [[r0 w0] t0] eqn:Hrun.
      injection H as <- <- <-.
      exists (pre ++ [ESetErrors errs]), t0. split.
      { unfold pre. destruct event; destruct (truthy ws); reflexivity. }
      split.
      { intros ev Hev. apply in_app_or in Hev.
        destruct Hev as [Hev | [<- | []]]; [auto | reflexivity]. }
      split; [intros _; apply in_or_app; right; now left | reflexivity].
    + destruct (submit config (formNode w) altConfig act
                  (resolve config altConfig onError) d
                  (with_stores (put_errors errs) w4))
        as [[r0 w0] t0] eqn:Hrun.
      injection H as <- <- <-.
      exists (pre ++ [ESetErrors errs]), t0. split.
      { unfold pre. destruct event; destruct (truthy ws); reflexivity. }
      split.
      { intros ev Hev. apply in_app_or in Hev.
        destruct Hev as [Hev | [<- | []]]; [auto | reflexivity]. }
      split; [intros _; apply in_or_app; right; now left | reflexivity].
  - destruct (submit config (formNode w) altConfig act
                (resolve config altConfig onError) d w4)
      as [[r0 w0] t0] eqn:Hrun.
    injection H as <- <- <-.
    exists pre, t0. split.
    { unfold pre. destruct event; destruct (truthy ws); reflexivity. }
    split; [exact Hpre |].
    split; [discriminate | reflexivity].
Qed.

(** The [catch] block, with the world it leaves. *)
Lemma catch_world (onError : option FnRef) d e w r w' tr :
  match onError with
  | None => throw e
  | Some g =>
      serverErrors <- call (EOnError g e) (call_onError g e) ;;
      when (truthy serverErrors)
        (errors_set serverErrors ;; notifySubmitError d serverErrors)
  end w = (r, w', tr) ->
  match onError with
  | None => r = Raised e /\ w' = w
  | Some g =>
      exists rs w2, call_onError g e w = (rs, w2)
      /\ match rs with
         | Raised e2 => r = Raised e2 /\ w' = w2
         | Returned se =>
             if truthy se then
               notified d se (currentExtenders w2)
                 (with_stores (put_errors se) w2) = (r, w')
             else r = Returned tt /\ w' = w2
         end
  end.
Proof.
  destruct onError as [g |]; intros H.
  - apply bind_run in H.
    destruct H as [(se & w2 & t3 & t4 & He & Hw & ->) | (e2 & He & ->)];
      apply call_run in He; destruct He as [He ->].
    + exists (Returned se), w2. split; [exact He |].
      apply when_run in Hw.
      destruct Hw as [[Ht Hw] | (Ht & -> & -> & ->)]; rewrite Ht; [| auto].
      apply bind_run in Hw.
      destruct Hw as [(u & w3 & t5 & t6 & Hs & Hn & ->) | (e3 & Hs & _)];
        [| discriminate].
      unfold errors_set in Hs. injection Hs as <- <- <-.
      apply notifySubmitError_notified in Hn. exact Hn.
    + exists (Raised e2), w'. auto.
  - unfold throw in H. injection H as <- <- <-. auto.
Qed.

(** Lines 159-180, with the world they leave: the one the action, or the
    [catch] block after it, left, with [isSubmitting] false. *)
Lemma submit_world formNode altConfig act onError d w r w' tr :
  submit config formNode altConfig act onError d w = (r, w', tr) ->
  exists ro wa,
    actionOf act d (contextAt config w formNode altConfig) w = (ro, wa)
    /\ match ro with
       | Returned _ =>
           r = Returned tt /\ w' = with_stores (put_isSubmitting false) wa
       | Raised e =>
           match onError with
           | None =>
               r = Raised e /\ w' = with_stores (put_isSubmitting false) wa
           | Some g =>
               exists rs wb, call_onError g e wa = (rs, wb)
               /\ match rs with
                  | Raised e2 =>
                      r = Raised e2
                      /\ w' = with_stores (put_isSubmitting false) wb
                  | Returned se =>
                      if truthy se then
                        exists wn,
                          notified d se (currentExtenders wb)
                            (with_stores (put_errors se) wb) = (r, wn)
                          /\ w' = with_stores (put_isSubmitting false) wn
                      else
                        r = Returned tt
                        /\ w' = with_stores (put_isSubmitting false) wb
                  end
           end
       end.
Proof.
  unfold submit. intros H. apply try_finally_run in H.
  destruct H as (r1 & w1 & t1 & r2 & t2 & Hm & Hf & -> & ->).
  unfold isSubmitting_set in Hf. injection Hf as <- <- <-.
  apply try_catch_run in Hm.
  destruct Hm as [(a & Hm & ->) | (e & wa & ta & tb & Hm & Hh & ->)];
    apply bind_run in Hm;
    destruct Hm as [(c & wc & tc & td & Hc & Hi & ->) | (e' & Hc & _)];
    apply controls_run in Hc; destruct Hc as (Hc & -> & ->);
    try discriminate; injection Hc as ->;
    unfold invoke in Hi; apply call_run in Hi; destruct Hi as [Hi ->];
    fold (contextAt config w formNode altConfig) in Hi |- *.
  - exists (Returned a), w1. destruct a. auto.
  - exists (Raised e), wa. split; [exact Hi |].
    apply catch_world in Hh.
    destruct onError as [g |].
    + destruct Hh as (rs & wb & Herr & Hrs). exists rs, wb.
      split; [exact Herr |].
      destruct rs as [se | e2].
      * destruct (truthy se); [exists w1; auto |].
        destruct Hrs as [-> ->]. auto.
      * destruct Hrs as [-> ->]. auto.
    + destruct Hh as [-> ->]. auto.
Qed.

(** A run in which validation returned [errs] and the warning set did not
    raise: the worlds it went through up to the decision. *)
Lemma handleSubmit_validated_world altConfig event w r w' tr d fns errs :
  handleSubmit config altConfig event w = (r, w', tr) ->
  In (EExecuteValidation Validate d fns (Returned errs)) tr ->
  (forall d' f' e, ~ In (EExecuteValidation Warn d' f' (Raised e)) tr) ->
  d = data (stores w)
  /\ exists act ws w2 head rest,
       resolveOnSubmit config altConfig (formNode w) = Some act
       /\ validations config altConfig w errs ws w2
       /\ tr = head ++ rest
       /\ (forall ev, In ev head -> beforeDecision ev = true)
       /\ (truthy errs = true -> In (ESetErrors errs) head)
       /\ if truthy errs && deepSome errs truthy then
            (notifySubmitError d errs ;; isSubmitting_set false)
              (decided d errs ws w2) = (r, w', rest)
          else
            submit config (formNode w) altConfig act
              (resolve config altConfig onError) d (decided d errs ws w2)
            = (r, w', rest).
Proof.
  intros H Hin Hwarn.
  destruct (resolveOnSubmit config altConfig (formNode w)) as [act |] eqn:Hact.
  2:{ rewrite (handleSubmit_unresolved _ event _ Hact) in H.
      injection H as <- <- <-. destruct Hin. }
  destruct (handleSubmit_run _ _ _ _ _ _ _ H Hact) as (rv & w1 & Hv & Hrun).
  destruct rv as [errs0 | e].
  2:{ destruct Hrun as (_ & _ & ->). in_cases Hin; discriminate. }
  destruct Hrun as (rw & w2 & Hw & Hrun).
  destruct rw as [ws | e].
  2:{ destruct Hrun as (_ & _ & ->). exfalso. eapply Hwarn. in_goal. }
  cbv zeta in Hrun.
  destruct Hrun as (w3 & rest0 & Htr & _ & _ & Hrest & _).
  assert (Heq : d = data (stores w) /\ errs0 = errs).
  { rewrite Htr in Hin. in_cases Hin; try discriminate.
    - injection Hin as <- <- <-. auto.
    - apply Hrest in Hin. discriminate. }
  destruct Heq as [-> ->]. split; [reflexivity |].
  destruct (handleSubmit_decision _ _ _ _ _ _ _ _ _ _ _ H Hact Hv Hw)
    as (head & rest & -> & Hhead & He & Hrun).
  exists act, ws, w2, head, rest.
  split; [reflexivity |]. split; [exists w1; split; assumption |].
  split; [reflexivity |]. split; [exact Hhead |]. split; assumption.
Qed.

(** A run in which the submit action was called: validation found no
    truthy error, the warning set returned, and the action ran in the
    world of the decision. *)
Lemma handleSubmit_reached altConfig event w r w' tr act d ctx ro :
  handleSubmit config altConfig event w = (r, w', tr) ->
  In (EOnSubmit act d ctx ro) tr ->
  exists errs ws w2 head rest,
    resolveOnSubmit config altConfig (formNode w) = Some act
    /\ d = data (stores w)
    /\ validations config altConfig w errs ws w2
    /\ truthy errs && deepSome errs truthy = false
    /\ ctx = contextAt config (decided d errs ws w2) (formNode w) altConfig
    /\ tr = head ++ rest
    /\ (forall ev, In ev head -> beforeDecision ev = true)
    /\ submit config (formNode w) altConfig act
         (resolve config altConfig onError) d (decided d errs ws w2)
       = (r, w', rest)
    /\ exists wa, actionOf act d ctx (decided d errs ws w2) = (ro, wa).
Proof.
  intros H Hin.
  destruct (resolveOnSubmit config altConfig (formNode w)) as [act0 |] eqn:Hact.
  2:{ rewrite (handleSubmit_unresolved _ event _ Hact) in H.
      injection H as <- <- <-. destruct Hin. }
  destruct (handleSubmit_run _ _ _ _ _ _ _ H Hact) as (rv & w1 & Hv & Hrun).
  destruct rv as [errs | e0].
  2:{ destruct Hrun as (_ & _ & ->). in_cases Hin; discriminate. }
  destruct Hrun as (rw & w2 & Hw & Hrun).
  destruct rw as [ws | e0].
  2:{ destruct Hrun as (_ & _ & ->). in_cases Hin; discriminate. }
  clear Hrun.
  destruct (handleSubmit_decision _ _ _ _ _ _ _ _ _ _ _ H Hact Hv Hw)
    as (head & rest & -> & Hhead & _ & Hrun).
  assert (Hin' : In (EOnSubmit act d ctx ro) rest).
  { apply in_app_or in Hin. destruct Hin as [Hin | Hin]; [| exact Hin].
    apply Hhead in Hin. discriminate. }
  destruct (truthy errs && deepSome errs truthy) eqn:Hdec.
  { exfalso. apply bind_run in Hrun.
    destruct Hrun as [(u & wn & tn & t2 & Hn & Hs & ->) | (x & Hn & ->)];
      assert (Htn := notify_events _ _ _ _ _ _ Hn).
    - unfold isSubmitting_set in Hs. injection Hs as _ _ <-.
      apply in_app_or in Hin'. destruct Hin' as [Hin' | [Hin' | []]];
        [apply Htn in Hin' |]; discriminate.
    - apply Htn in Hin'. discriminate. }
  assert (Hrun' := Hrun). apply submit_run in Hrun'.
  destruct Hrun' as (_ & ro0 & wa & body & Hcall & Hrest & Hbody & _).
  assert (Hhd : EOnSubmit act0 (data (stores w))
                  (contextAt config
                     (decided (data (stores w)) errs ws w2)
                     (formNode w) altConfig) ro0
                = EOnSubmit act d ctx ro).
  { rewrite Hrest in Hin'. in_cases Hin'; try discriminate; [exact Hin' |].
    apply Hbody in Hin'. discriminate. }
  injection Hhd as -> <- <- ->.
  exists errs, ws, w2, head, rest.
  split; [reflexivity |]. split; [reflexivity |].
  split; [exists w1; split; assumption |].
  split; [exact Hdec |]. split; [reflexivity |]. split; [reflexivity |].
  split; [exact Hhead |]. split; [exact Hrun |].
  exists wa. exact Hcall.
Qed.

(** The writes before the decision leave the extenders, the form and the
    DOM as the validations left them. *)
Lemma decided_frame d errs ws w2 :
  currentExtenders (decided d errs ws w2) = currentExtenders w2
  /\ dom (decided d errs ws w2) = dom w2
  /\ formNode (decided d errs ws w2) = formNode w2
  /\ touched (stores (decided d errs ws w2))
     = deepSet (touched (stores w2)) (VBool true)
  /\ (truthy errs = true -> errors (stores (decided d errs ws w2)) = errs).
Proof.
  unfold decided. destruct (truthy ws), (truthy errs); repeat split;
    discriminate.
Qed.

Lemma beforeDecision_not_submit ev :
  beforeDecision ev = true -> isOnSubmit ev = false.
Proof. destruct ev; try discriminate; reflexivity. Qed.

(** C1, as amended: when validation yields a tree with a truthy error,
    the warning set returns and no [onSubmitError] hook raises, the
    handler returns.  At the decision the errors store holds the tree and
    the touched store is its [deepSet(t, true)]; from there each current
    extender that has an [onSubmitError] hook is run on the snapshot and
    the tree, in order, each in the world the one before left; the world
    at the end is the one the last hook left, with [isSubmitting] false;
    and the submit action is not called. *)
Theorem validation_errors_short_circuit
  altConfig event w r w' tr d fns errs :
  handleSubmit config altConfig event w = (r, w', tr) ->
  In (EExecuteValidation Validate d fns (Returned errs)) tr ->
  truthy errs = true ->
  deepSome errs truthy = true ->
  (forall d' f' e, ~ In (EExecuteValidation Warn d' f' (Raised e)) tr) ->
  (forall h d' e' x, ~ In (EOnSubmitError h d' e' (Raised x)) tr) ->
  d = data (stores w)
  /\ r = Returned tt
  /\ (exists ws w2 wn,
        validations config altConfig w errs ws w2
        /\ errors (stores (decided d errs ws w2)) = errs
        /\ touched (stores (decided d errs ws w2))
           = deepSet (touched (stores w2)) (VBool true)
        /\ notified d errs (currentExtenders w2) (decided d errs ws w2)
           = (Returned tt, wn)
        /\ w' = with_stores (put_isSubmitting false) wn)
  /\ isSubmitting (stores w') = false
  /\ In (ESetErrors errs) tr
  /\ (exists hs,
        In (EGetCurrentExtenders hs) tr
        /\ forall h f, In h hs -> hook_onSubmitError h = Some f ->
                       In (EOnSubmitError h d errs (Returned tt)) tr)
  /\ (forall f d' c r', ~ In (EOnSubmit f d' c r') tr).
Proof.
  intros H Hin Terr Hsome Hwarn Hhooks.
  destruct (handleSubmit_validated_world _ _ _ _ _ _ _ _ _ H Hin Hwarn)
    as (-> & act & ws & w2 & head & rest & Hact & Hval & -> & Hhead & He
        & Hrun).
  rewrite Terr, Hsome in Hrun. cbn [andb] in Hrun.
  destruct (decided_frame (data (stores w)) errs ws w2)
    as (Hx & _ & _ & Htouched & Herrors).
  apply bind_run in Hrun.
  destruct Hrun as [(u & wn & tn & t2 & Hn & Hs & ->) | (x & Hn & ->)].
  2:{ exfalso. apply notify_run in Hn.
      destruct Hn as (rest0 & -> & _ & h & Hr).
      eapply Hhooks. apply in_or_app. right. right. exact Hr. }
  unfold isSubmitting_set in Hs. injection Hs as <- <- <-.
  assert (Hworld := notifySubmitError_notified _ _ _ _ _ _ Hn).
  rewrite Hx in Hworld. destruct u.
  assert (Htn := notify_events _ _ _ _ _ _ Hn).
  apply notify_run in Hn. destruct Hn as (rest0 & -> & _ & Hr).
  split; [reflexivity |]. split; [reflexivity |].
  split.
  { exists ws, w2, wn. split; [exact Hval |].
    split; [exact (Herrors Terr) |]. split; [exact Htouched |].
    split; [exact Hworld | reflexivity]. }
  split; [reflexivity |].
  split; [apply in_or_app; left; exact (He Terr) |].
  split.
  { exists (currentExtenders (decided (data (stores w)) errs ws w2)).
    split; [apply in_or_app; right; left; reflexivity |].
    intros h f Hh Hf. specialize (Hr h f Hh Hf).
    apply in_or_app. right. right. apply in_or_app. left. exact Hr. }
  intros f d' c r' Hin'.
  apply in_app_or in Hin'. destruct Hin' as [Hin' | Hin'].
  - apply Hhead in Hin'. discriminate.
  - apply in_app_or in Hin'. destruct Hin' as [Hin' | [Hin' | []]].
    + apply Htn in Hin'. discriminate.
    + discriminate.
Qed.

(** C2, as amended: in a run that sets [isSubmitting] to true, in which
    neither awaited validation raises and, where the submit action is not
    reached, no [onSubmitError] hook raises, [isSubmitting] is false when
    the handler settles: after the validation short-circuit, after a
    successful submit, after a failure handled by [onError] and after a
    failure that is raised to the caller. *)
Theorem isSubmitting_released altConfig event w r w' tr :
  handleSubmit config altConfig event w = (r, w', tr) ->
  In (ESetIsSubmitting true) tr ->
  (forall site d f e, ~ In (EExecuteValidation site d f (Raised e)) tr) ->
  ((forall ev, In ev tr -> isOnSubmit ev = false) ->
   forall h d e x, ~ In (EOnSubmitError h d e (Raised x)) tr) ->
  isSubmitting (stores w') = false.
Proof.
  intros H Hset Hval Hhooks.
  destruct (resolveOnSubmit config altConfig (formNode w)) as [act |] eqn:Hact.
  2:{ rewrite (handleSubmit_unresolved _ event _ Hact) in H.
      injection H as <- <- <-. destruct Hset. }
  destruct (handleSubmit_run _ _ _ _ _ _ _ H Hact) as (rv & w1 & Hv & Hrun).
  destruct rv as [errs | e].
  2:{ destruct Hrun as (_ & _ & ->). exfalso. eapply Hval. in_goal. }
  destruct Hrun as (rw & w2 & Hw & Hrun).
  destruct rw as [ws | e].
  2:{ destruct Hrun as (_ & _ & ->). exfalso. eapply Hval. in_goal. }
  cbv zeta in Hrun.
  destruct Hrun as (w3 & rest & -> & _ & _ & Hrest & Hrun).
  destruct (truthy errs && deepSome errs truthy).
  - destruct Hrun as (rn & wn & tn & Hn & Hrn).
    destruct rn as [u | e].
    + destruct Hrn as (_ & -> & _). reflexivity.
    + destruct Hrn as (_ & _ & ->). exfalso.
      assert (Htn := notify_events _ _ _ _ _ _ Hn).
      apply notify_run in Hn. destruct Hn as (rest0 & -> & _ & h & Hr).
      eapply Hhooks.
      * intros ev Hev. in_cases Hev; subst; try reflexivity.
        specialize (Htn _ (or_intror Hev)). destruct ev; try discriminate;
          reflexivity.
      * apply in_or_app. right. apply in_or_app. right.
        apply in_or_app. right. right. exact Hr.
  - apply submit_run in Hrun. apply Hrun.
Qed.

(** C3, as amended: when the submit action raises [e], in the world of
    the decision: with no [onError] the handler raises [e]; with an
    [onError] that returns a truthy tree, and no [onSubmitError] hook
    raising, the tree is written to the errors store, from there each
    current extender that has an [onSubmitError] hook is run on the
    snapshot and the tree, in order, and the handler returns.  Either way
    the world at the end is the one the last call left, with
    [isSubmitting] false. *)
Theorem submit_failure_recovery altConfig event w r w' tr act d ctx e :
  handleSubmit config altConfig event w = (r, w', tr) ->
  In (EOnSubmit act d ctx (Raised e)) tr ->
  exists errs ws w2 wa,
    validations config altConfig w errs ws w2
    /\ actionOf act d ctx (decided d errs ws w2) = (Raised e, wa)
    /\ (resolve config altConfig onError = None ->
        r = Raised e /\ w' = with_stores (put_isSubmitting false) wa)
    /\ (forall g se,
          resolve config altConfig onError = Some g ->
          In (EOnError g e (Returned se)) tr ->
          truthy se = true ->
          (forall h d' e' x, ~ In (EOnSubmitError h d' e' (Raised x)) tr) ->
          exists wb wn,
            call_onError g e wa = (Returned se, wb)
            /\ errors (stores (with_stores (put_errors se) wb)) = se
            /\ notified d se (currentExtenders wb)
                 (with_stores (put_errors se) wb) = (Returned tt, wn)
            /\ r = Returned tt
            /\ w' = with_stores (put_isSubmitting false) wn
            /\ In (ESetErrors se) tr
            /\ (exists hs,
                  In (EGetCurrentExtenders hs) tr
                  /\ forall h f, In h hs -> hook_onSubmitError h = Some f ->
                                 In (EOnSubmitError h d se (Returned tt)) tr)).
Proof.
  intros H Hin.
  destruct (handleSubmit_reached _ _ _ _ _ _ _ _ _ _ H Hin)
    as (errs & ws & w2 & head & rest & Hact & -> & Hval & Hdec & -> & ->
        & Hhead & Hrun & wa & Hcall).
  exists errs, ws, w2, wa.
  split; [exact Hval |]. split; [exact Hcall |].
  assert (Hworld := Hrun). apply submit_world in Hworld.
  destruct Hworld as (ro2 & wa2 & Hcall2 & Hro).
  rewrite Hcall in Hcall2. injection Hcall2 as <- <-.
  apply submit_run in Hrun.
  destruct Hrun as (_ & ro3 & wa3 & body & Hcall3 & -> & Hbody & Hro3).
  rewrite Hcall in Hcall3. injection Hcall3 as <- <-.
  destruct (resolve config altConfig onError) as [g0 |].
  2:{ split; [intros _; exact Hro | discriminate]. }
  split; [discriminate |].
  intros g se [= ->] Hse Tse Hhooks.
  destruct Hro as (rs & wb & Herr & Hrs).
  destruct Hro3 as (rs3 & wb3 & Herr3 & Hrs3).
  rewrite Herr in Herr3. injection Herr3 as <- <-.
  assert (Hse' : In (EOnError g e (Returned se)) body).
  { apply in_app_or in Hse. destruct Hse as [Hse | Hse].
    - apply Hhead in Hse. discriminate.
    - destruct Hse as [Hse | Hse]; [discriminate |].
      apply in_app_or in Hse. destruct Hse as [Hse | [Hse | []]];
        [exact Hse | discriminate]. }
  assert (Hrs' : rs = Returned se).
  { destruct rs as [se0 | e2].
    - destruct (truthy se0).
      + destruct Hrs3 as (wn & tn & Hn & ->).
        assert (Htn := notify_events _ _ _ _ _ _ Hn).
        destruct Hse' as [Hse' | [Hse' | Hse']]; try discriminate.
        * now injection Hse' as ->.
        * apply Htn in Hse'. discriminate.
      + destruct Hrs3 as (_ & ->). destruct Hse' as [Hse' | []].
        now injection Hse' as ->.
    - destruct Hrs3 as (_ & ->). destruct Hse' as [Hse' | []].
      discriminate. }
  subst rs. rewrite Tse in Hrs, Hrs3.
  destruct Hrs as (wn & Hworld & ->).
  destruct Hrs3 as (wn3 & tn & Hn & ->).
  apply notify_run in Hn. destruct Hn as (rest0 & -> & _ & Hr).
  destruct r as [u | x].
  2:{ exfalso. destruct Hr as [h Hr]. eapply Hhooks.
      apply in_or_app. right. right. apply in_or_app. left.
      right. right. right. exact Hr. }
  destruct u. exists wb, wn.
  split; [exact Herr |]. split; [reflexivity |].
  split; [exact Hworld |]. split; [reflexivity |]. split; [reflexivity |].
  split.
  { apply in_or_app. right. right. apply in_or_app. left.
    right. left. reflexivity. }
  eexists. split.
  { apply in_or_app. right. right. apply in_or_app. left.
    right. right. left. reflexivity. }
  intros h f Hh Hf. specialize (Hr h f Hh Hf).
  apply in_or_app. right. right. apply in_or_app. left.
  right. right. right. exact Hr.
Qed.

(** The keys of the configuration in the context are those of
    [{ ...config, ...altConfig }]. *)
Lemma mergeConfig_merged altConfig :
  onSubmit (mergeConfig config altConfig) = merged config altConfig onSubmit
  /\ validate (mergeConfig config altConfig)
     = merged config altConfig validate
  /\ warn (mergeConfig config altConfig) = merged config altConfig warn
  /\ onError (mergeConfig config altConfig) = merged config altConfig onError
  /\ touchTriggerEvents (mergeConfig config altConfig)
     = merged config altConfig touchTriggerEvents.
Proof.
  destruct altConfig as [a |]; [| repeat split].
  unfold merged, mergeConfig, spread. simpl.
  repeat split;
    match goal with |- context [match ?k a with _ => _ end] =>
      destruct (k a); reflexivity
    end.
Qed.

(** C4, as amended: when validation yields no truthy error and the warning
    set returns, the submit action is called exactly once, in the world of
    the decision; its first argument is the data store as it was when the
    handler started, whatever the awaited validations did to the store
    since; its second argument holds the form node read at the start,
    that form's elements filtered by [isFormControl] (nothing without a
    form) and, key by key, [{...config, ...altConfig}].  When the action
    returns, so does the handler, in the world the action left, with
    [isSubmitting] false. *)
Theorem submit_once_on_snapshot altConfig event w r w' tr d fns errs :
  handleSubmit config altConfig event w = (r, w', tr) ->
  In (EExecuteValidation Validate d fns (Returned errs)) tr ->
  truthy errs && deepSome errs truthy = false ->
  (forall d' f' e, ~ In (EExecuteValidation Warn d' f' (Raised e)) tr) ->
  d = data (stores w)
  /\ exists act ctx ro ws w2 wo,
       resolveOnSubmit config altConfig (formNode w) = Some act
       /\ validations config altConfig w errs ws w2
       /\ filter isOnSubmit tr = [EOnSubmit act d ctx ro]
       /\ actionOf act d ctx (decided d errs ws w2) = (ro, wo)
       /\ ctx_form ctx = formNode w
       /\ ctx_controls ctx
          = option_map (fun n => filter isFormControl (elements (dom w2 n)))
              (formNode w)
       /\ onSubmit (ctx_config ctx) = merged config altConfig onSubmit
       /\ validate (ctx_config ctx) = merged config altConfig validate
       /\ warn (ctx_config ctx) = merged config altConfig warn
       /\ onError (ctx_config ctx) = merged config altConfig onError
       /\ touchTriggerEvents (ctx_config ctx)
          = merged config altConfig touchTriggerEvents
       /\ (forall u, ro = Returned u ->
           r = Returned tt /\ w' = with_stores (put_isSubmitting false) wo).
Proof.
  intros H Hin Hno Hwarn.
  destruct (handleSubmit_validated_world _ _ _ _ _ _ _ _ _ H Hin Hwarn)
    as (-> & act & ws & w2 & head & rest & Hact & Hval & -> & Hhead & _
        & Hrun).
  rewrite Hno in Hrun. split; [reflexivity |].
  assert (Hworld := Hrun). apply submit_world in Hworld.
  destruct Hworld as (ro & wo & Hcall & Hro).
  apply submit_run in Hrun.
  destruct Hrun as (_ & ro3 & wo3 & body & Hcall3 & -> & Hbody & _).
  rewrite Hcall in Hcall3. injection Hcall3 as <- <-.
  destruct (decided_frame (data (stores w)) errs ws w2)
    as (_ & Hdom & _).
  destruct (mergeConfig_merged altConfig) as (K1 & K2 & K3 & K4 & K5).
  exists act,
    (contextAt config (decided (data (stores w)) errs ws w2) (formNode w)
       altConfig), ro, ws, w2, wo.
  split; [exact Hact |]. split; [exact Hval |]. split.
  { rewrite filter_app. rewrite (filter_none isOnSubmit head).
    - simpl. rewrite filter_app. rewrite (filter_none isOnSubmit body).
      + reflexivity.
      + intros ev Hev. apply catchEvent_not_submit, Hbody, Hev.
    - intros ev Hev. apply beforeDecision_not_submit, Hhead, Hev. }
  split; [exact Hcall |]. split; [reflexivity |].
  split; [unfold contextAt; simpl; now rewrite Hdom |].
  split; [exact K1 |]. split; [exact K2 |]. split; [exact K3 |].
  split; [exact K4 |]. split; [exact K5 |].
  intros u ->. exact Hro.
Qed.

(** C8: with no override, no configured [onSubmit] and no bound form, the
    handler returns at once: nothing is raised, no store (indeed nothing
    in the world) changes, and the trace is empty, so neither
    [preventDefault] nor [isSubmitting.set(true)] happened. *)
Theorem unresolved_submit_is_noop altConfig event w :
  alt altConfig onSubmit = None ->
  read (onSubmit config) = None ->
  formNode w = None ->
  handleSubmit config altConfig event w = (Returned tt, w, []).
Proof.
  intros Halt Hcfg Hform. apply handleSubmit_unresolved.
  unfold resolveOnSubmit, resolve. rewrite Halt, Hcfg, Hform. reflexivity.
Qed.


End SubmitRuns.

(** ** Computations that do not raise by themselves *)








(** ** The handlers of the bound form *)

Section FormRuns.

Context {common : Common} {host : Host}.
Variable config : FormConfig.
Variable extender : list Extender.
Variable node : FormNode.


Lemma path_eqb_eq p : forall q, path_eqb p q = true <-> p = q.
Proof.
  induction p as [| a p IH]; intros [| b q]; simpl; split;
    try congruence; try discriminate.
  - intros H. apply andb_true_iff in H. destruct H as [Hab Hpq].
    apply String.eqb_eq in Hab. apply IH in Hpq. congruence.
  - intros [= -> ->]. rewrite String.eqb_refl. now apply IH.
Qed.

(** Without an index on the target, its group is made of the form
    controls named like it that have its path. *)
Lemma checkboxGroup_by_path target named c :
  getIndex target = None ->
  In c (checkboxGroup target named)
  <-> In c named /\ isFormControl c = true /\ getPath c = getPath target.
Proof.
  intros Hidx. unfold checkboxGroup. rewrite Hidx, filter_In.
  destruct (isFormControl c); simpl.
  - rewrite path_eqb_eq. intuition congruence.
  - intuition discriminate.
Qed.

(** With an index, of those that carry the same index. *)
Lemma checkboxGroup_by_index target named c i :
  getIndex target = Some i ->
  In c (checkboxGroup target named)
  <-> In c named /\ isFormControl c = true
      /\ strict_eq_number (Number_ (dataset_felteIndex c)) i = true.
Proof.
  intros Hidx. unfold checkboxGroup. rewrite Hidx, filter_In.
  destruct (isFormControl c); simpl; intuition discriminate.
Qed.




(** A change event on a named input that is not ignored, when touching on
    change is not configured and the helper does not take the input for a
    select: the form becomes dirty and the handler of the input's type
    runs. *)
Lemma handleChange_checkbox e el w :
  target e = Some el ->
  isFormControl el = true -> shouldIgnore el = false ->
  name el <> EmptyString ->
  isInputElement el = true -> isSelectElement el = false ->
  type el = "checkbox" ->
  read (touchTriggerEvents config) = None ->
  handleChange config node e w
  = (isDirty_set true ;; setCheckboxValues node el) w.
Proof.
  intros Ht Hfc Hig Hname Hin Hsel Hty Htouch.
  unfold handleChange. rewrite Ht, Hfc, Hig, Htouch, Hin, Hsel, Hty.
  apply String.eqb_neq in Hname. rewrite Hname.
  cbv [negb orb when is_checkbox_radio_file existsb String.eqb Ascii.eqb
       Bool.eqb bind ret isDirty_set].
  destruct (setCheckboxValues node el _) as [[[[] | x] w1] t1];
    simpl; rewrite ?app_nil_r; reflexivity.
Qed.

Lemma handleChange_radio e el w :
  target e = Some el ->
  isFormControl el = true -> shouldIgnore el = false ->
  name el <> EmptyString ->
  isInputElement el = true -> isSelectElement el = false ->
  type el = "radio" ->
  read (touchTriggerEvents config) = None ->
  handleChange config node e w
  = (isDirty_set true ;; setRadioValues node el) w.
Proof.
  intros Ht Hfc Hig Hname Hin Hsel Hty Htouch.
  unfold handleChange. rewrite Ht, Hfc, Hig, Htouch, Hin, Hsel, Hty.
  apply String.eqb_neq in Hname. rewrite Hname.
  cbv [negb orb when is_checkbox_radio_file existsb String.eqb Ascii.eqb
       Bool.eqb bind ret isDirty_set].
  destruct (setRadioValues node el _) as [[[[] | x] w1] t1];
    simpl; rewrite ?app_nil_r; reflexivity.
Qed.

(** *** Removal *)

(** One turn of the loop: a kept control changes nothing; any other has
    its path unset in the errors, warnings, touched and data stores. *)
Lemma unsetControl_run control w :
  unsetControl control w
  = if keepOnRemove control then (Returned tt, w, [])
    else
      let p := getPathFromDataset control in
      (Returned tt, with_stores (unsetAll p) w,
       [EUpdateErrors (errors (stores w)) (_unset (errors (stores w)) p);
        EUpdateWarnings (warnings (stores w)) (_unset (warnings (stores w)) p);
        EUpdateTouched (touched (stores w)) (_unset (touched (stores w)) p);
        EUpdateData (data (stores w)) (_unset (data (stores w)) p)]).
Proof.
  unfold unsetControl. destruct (keepOnRemove control); reflexivity.
Qed.

(** The marker test: present, and not the string "false". *)
Lemma keepOnRemove_spec control :
  keepOnRemove control = true
  <-> exists v, dataset_felteKeepOnRemove control = Some v /\ v <> "false".
Proof.
  unfold keepOnRemove, hasAttribute, dataset_felteKeepOnRemove.
  destruct (getAttribute "data-felte-keep-on-remove" (attributes control))
    as [v |]; simpl.
  - destruct (String.eqb_spec v "false") as [-> | Hne]; simpl; split.
    + discriminate.
    + intros (v & [= <-] & Hv). congruence.
    + intros _. eauto.
    + reflexivity.
  - split; [discriminate | intros (v & Hv & _); discriminate].
Qed.

(** The controls are taken last first. *)
Lemma unsetTaggedForRemove_app cs control w :
  unsetTaggedForRemove (cs ++ [control]) w
  = (unsetControl control ;; unsetTaggedForRemove cs) w.
Proof.
  unfold unsetTaggedForRemove. rewrite rev_app_distr. reflexivity.
Qed.


(** *** The mutation callback *)








Lemma existsb_nonempty {A} (f : A -> bool) (l : list A) :
  existsb f l = true -> Nat.ltb 0 (List.length l) = true.
Proof. destruct l; simpl; [discriminate | reflexivity]. Qed.





End FormRuns.

(** ** The trees of [FelteCommon] *)

Module FelteCommonFacts.
Import FelteCommon.


Lemma lookup_update k v props : lookup k (update k v props) = Some v.
Proof.
  induction props as [| [k' v'] rest IH]; simpl.
  - now rewrite String.eqb_refl.
  - destruct (String.eqb k k') eqn:E; simpl; rewrite E; auto.
Qed.

Lemma nth_setNth i : forall x items, nth_error (setNth i x items) i = Some x.
Proof.
  induction i as [| j IH]; intros x [| y rest]; simpl; auto.
Qed.

(** What [_set] writes is what [_get] reads. *)
Lemma _get_set p : forall obj v, _get (_set obj p v) p = Some v.
Proof.
  induction p as [| k rest IH]; intros obj v; [reflexivity |].
  cbn [_set].
  destruct (indexOf k) as [i |] eqn:Hk;
    destruct obj as [| | b | n | s | items | props]; cbn [_get];
    rewrite ?Hk, ?nth_setNth, ?lookup_update; cbn [lookup];
    rewrite ?String.eqb_refl; apply IH.
Qed.
















End FelteCommonFacts.

(** ** Additions and removals on the trees of [FelteCommon] *)

Section Reconcile.

(** Any implementation of the other helpers; [_defaultsDeep] and
    [deepSet] as described. *)
Variable base : Common.
Context {host : Host}.
Variable config : FormConfig.
Variable extender : list Extender.
Variable node : FormNode.


End Reconcile.

Section Replaced.

Context {common : Common} {host : Host}.
Variable config : FormConfig.
Variable extender : list Extender.
Variable node : FormNode.

(** A record whose added nodes hold no control ends at the [continue] of
    line 352, whatever it removes. *)
Lemma processMutation_plain_addition mutation w :
  mutation_type mutation = "childList" ->
  addedNodes mutation <> [] ->
  existsb addsControl (addedNodes mutation) = false ->
  processMutation config extender node mutation w = (Returned tt, w, []).
Proof.
  intros Hty Hne Hadd. unfold processMutation. rewrite Hty, Hadd.
  destruct (addedNodes mutation); [congruence | reflexivity].
Qed.

(** A record that adds nothing goes to lines 364-373. *)
Lemma processMutation_only_removed mutation w :
  mutation_type mutation = "childList" ->
  addedNodes mutation = [] ->
  processMutation config extender node mutation w
  = processRemoved config extender node mutation w.
Proof.
  intros Hty Hnil. unfold processMutation. rewrite Hty, Hnil. reflexivity.
Qed.

End Replaced.

(** ** Runs on the sign-up form *)

Lemma triple_eta {A B C} (x : A * B * C) :
  x = (fst (fst x), snd (fst x), snd x).
Proof. destruct x as [[a b] c]. reflexivity. Qed.

(** An empty name is refused: the hooks of extenders 30 and 31 hear of it
    and the submit action does not run. *)
Lemma validation_errors_short_circuit_witness :
  let run := handleSubmit (common := Demo.common) (host := Demo.host)
               Demo.cfgRequired None (Some Demo.submitEvent)
               (Demo.world Demo.blank) in
  let errs := VObj [("name", VStr "required")] in
  In (EExecuteValidation Validate Demo.blank (Some 1) (Returned errs))
    (snd run)
  /\ fst (fst run) = Returned tt
  /\ isSubmitting (stores (snd (fst run))) = false
  /\ (forall f d c r, ~ In (EOnSubmit f d c r) (snd run))
  /\ exists ws w2 wn,
       errors (stores (decided (common := Demo.common) Demo.blank errs ws w2))
       = errs
       /\ notified (host := Demo.host) Demo.blank errs (currentExtenders w2)
            (decided (common := Demo.common) Demo.blank errs ws w2)
          = (Returned tt, wn)
       /\ snd (fst run) = with_stores (put_isSubmitting false) wn.
Proof.
  intros run errs.
  assert (Hin : In (EExecuteValidation Validate Demo.blank (Some 1)
                      (Returned errs)) (snd run))
    by (vm_compute; tauto).
  assert (Hwarn : forall d' f' e,
             ~ In (EExecuteValidation Warn d' f' (Raised e)) (snd run))
    by (intros d' f' e H; vm_compute in H; intuition discriminate).
  assert (Hhooks : forall h d' e' x,
             ~ In (EOnSubmitError h d' e' (Raised x)) (snd run))
    by (intros h d' e' x H; vm_compute in H; intuition discriminate).
  destruct (validation_errors_short_circuit
              (common := Demo.common) (host := Demo.host)
              Demo.cfgRequired None (Some Demo.submitEvent)
              (Demo.world Demo.blank)
              (fst (fst run)) (snd (fst run)) (snd run)
              Demo.blank (Some 1) errs
              (triple_eta run) Hin eq_refl eq_refl Hwarn Hhooks)
    as (_ & Hr & (ws & w2 & wn & _ & He & _ & Hn & Hw) & Hs & _ & _ & Hno).
  split; [exact Hin |]. split; [exact Hr |]. split; [exact Hs |].
  split; [exact Hno |].
  exists ws, w2, wn. split; [exact He |]. split; [exact Hn | exact Hw].
Defined.

(** C1 as stated fails: the name is missing and the warning set throws.
    The handler ends there: the errors are not stored, no extender is
    told, [isSubmitting] stays true. *)
Lemma short_circuit_skipped_when_warn_throws :
  ~ (forall (common : Common) (host : Host) config altConfig event
            w r w' tr d fns errs,
        handleSubmit config altConfig event w = (r, w', tr) ->
        In (EExecuteValidation Validate d fns (Returned errs)) tr ->
        truthy errs = true ->
        deepSome errs truthy = true ->
        In (ESetErrors errs) tr
        /\ (exists hs, In (EGetCurrentExtenders hs) tr)
        /\ isSubmitting (stores w') = false
        /\ (exists t, In (EUpdateTouched t (deepSet t (VBool true))) tr)
        /\ (forall f d' c r', ~ In (EOnSubmit f d' c r') tr)).
Proof.
  intros H.
  destruct (H Demo.common Demo.host Scenes.cfgRequiredWarnThrows None None
              (Demo.world Demo.blank) _ _ _
              Demo.blank (Some 1) (VObj [("name", VStr "required")])
              (triple_eta _)) as (_ & _ & Hs & _).
  - vm_compute. tauto.
  - reflexivity.
  - reflexivity.
  - vm_compute in Hs. discriminate.
Qed.

(** The same when the hook of the first extender throws: the second
    extender is never told and [isSubmitting] stays true. *)
Lemma short_circuit_cut_when_hook_throws :
  let run := handleSubmit (common := Demo.common) (host := Scenes.hasty)
               Demo.cfgRequired None None (Demo.world Demo.blank) in
  let errs := VObj [("name", VStr "required")] in
  In (EExecuteValidation Validate Demo.blank (Some 1) (Returned errs))
    (snd run)
  /\ In (EGetCurrentExtenders [30; 32; 31]) (snd run)
  /\ fst (fst run) = Raised (VStr "hook failed")
  /\ isSubmitting (stores (snd (fst run))) = true
  /\ forall o, ~ In (EOnSubmitError 31 Demo.blank errs o) (snd run).
Proof.
  cbv zeta. split; [vm_compute; tauto |]. split; [vm_compute; tauto |].
  split; [reflexivity |]. split; [reflexivity |].
  intros o H. vm_compute in H. intuition discriminate.
Qed.

(** C2 as stated fails: a validator that throws leaves [isSubmitting]
    true. *)
Lemma isSubmitting_stuck_when_validator_throws :
  ~ (forall (common : Common) (host : Host) config altConfig event
            w r w' tr,
        handleSubmit config altConfig event w = (r, w', tr) ->
        In (ESetIsSubmitting true) tr ->
        isSubmitting (stores w') = false).
Proof.
  intros H.
  specialize (H Demo.common Demo.host Demo.cfgThrowing None
                (Some Demo.submitEvent) (Demo.world Demo.blank)
                _ _ _ (triple_eta _)).
  vm_compute in H. assert (Hset : true = false) by (apply H; tauto).
  discriminate.
Qed.

(** A failed submission handled by [onError] releases [isSubmitting]. *)
Lemma isSubmitting_released_witness :
  let run := handleSubmit (common := Demo.common) (host := Demo.host)
               Demo.cfgRecovering None None (Demo.world Demo.filled) in
  In (ESetIsSubmitting true) (snd run)
  /\ isSubmitting (stores (snd (fst run))) = false.
Proof.
  intros run.
  assert (Hset : In (ESetIsSubmitting true) (snd run))
    by (vm_compute; tauto).
  split; [exact Hset |].
  apply (isSubmitting_released
           (common := Demo.common) (host := Demo.host)
           Demo.cfgRecovering None None (Demo.world Demo.filled)
           (fst (fst run)) (snd (fst run)) (snd run) (triple_eta run) Hset).
  - intros site d f e H. vm_compute in H. intuition discriminate.
  - intros _ h d e x H. vm_compute in H. intuition discriminate.
Defined.

(** The network is down: without [onError] the handler raises; with
    [onError] 20 the tree it returns is stored, the hooks are told and the
    handler returns. *)
Lemma submit_failure_recovery_witness :
  let failing := handleSubmit (common := Demo.common) (host := Demo.host)
                   Demo.cfgFailing None None (Demo.world Demo.filled) in
  let recovering := handleSubmit (common := Demo.common) (host := Demo.host)
                      Demo.cfgRecovering None None (Demo.world Demo.filled) in
  let se := VObj [("name", VStr "rejected")] in
  fst (fst failing) = Raised (VStr "network down")
  /\ fst (fst recovering) = Returned tt
  /\ In (ESetErrors se) (snd recovering)
  /\ exists wb wn,
       notified (host := Demo.host) Demo.filled se (currentExtenders wb)
         (with_stores (put_errors se) wb) = (Returned tt, wn)
       /\ snd (fst recovering) = with_stores (put_isSubmitting false) wn.
Proof.
  intros failing recovering se.
  split.
  - assert (Hin : In (EOnSubmit (UserSubmit 11) Demo.filled
                        (contextAt (common := Demo.common) Demo.cfgFailing
                           (Demo.world Demo.filled) (Some 0) None)
                        (Raised (VStr "network down"))) (snd failing))
      by (vm_compute; tauto).
    destruct (submit_failure_recovery
                (common := Demo.common) (host := Demo.host)
                Demo.cfgFailing None None (Demo.world Demo.filled)
                (fst (fst failing)) (snd (fst failing)) (snd failing)
                (UserSubmit 11) Demo.filled _ (VStr "network down")
                (triple_eta failing) Hin)
      as (errs & ws & w2 & wa & _ & _ & Hnone & _).
    exact (proj1 (Hnone eq_refl)).
  - assert (Hin : In (EOnSubmit (UserSubmit 11) Demo.filled
                        (contextAt (common := Demo.common) Demo.cfgRecovering
                           (Demo.world Demo.filled) (Some 0) None)
                        (Raised (VStr "network down"))) (snd recovering))
      by (vm_compute; tauto).
    assert (Herr : In (EOnError 20 (VStr "network down") (Returned se))
                     (snd recovering))
      by (vm_compute; tauto).
    assert (Hhooks : forall h d' e' x,
               ~ In (EOnSubmitError h d' e' (Raised x)) (snd recovering))
      by (intros h d' e' x H; vm_compute in H; intuition discriminate).
    destruct (submit_failure_recovery
                (common := Demo.common) (host := Demo.host)
                Demo.cfgRecovering None None (Demo.world Demo.filled)
                (fst (fst recovering)) (snd (fst recovering))
                (snd recovering)
                (UserSubmit 11) Demo.filled _ (VStr "network down")
                (triple_eta recovering) Hin)
      as (errs & ws & w2 & wa & _ & _ & _ & Hsome).
    destruct (Hsome 20 se eq_refl Herr eq_refl Hhooks)
      as (wb & wn & _ & _ & Hn & Hr & Hw & He & _).
    split; [exact Hr |]. split; [exact He |].
    exists wb, wn. split; [exact Hn | exact Hw].
Defined.

(** The user types on while validator 3 is awaited, and this handler was
    made with another submit action: action 12 is called, once, with the
    blank name of the snapshot and a configuration that shows it. *)
Lemma submit_once_on_snapshot_witness :
  let run := handleSubmit (common := Demo.common) (host := Demo.host)
               Demo.cfgLenient (Some Scenes.otherAction) None
               (Demo.world Demo.blank) in
  data (stores (snd (fst run))) = VObj [("name", VStr "Ada L.")]
  /\ exists ctx ro ws w2 wo,
       filter isOnSubmit (snd run)
       = [EOnSubmit (UserSubmit 12) Demo.blank ctx ro]
       /\ actionOf (host := Demo.host) (UserSubmit 12) Demo.blank ctx
            (decided (common := Demo.common) Demo.blank
               (VObj [("name", VUndefined)]) ws w2)
          = (ro, wo)
       /\ ctx_form ctx = Some 0
       /\ onSubmit (ctx_config ctx) = Present 12
       /\ validate (ctx_config ctx) = Present 3.
Proof.
  intros run. split; [reflexivity |].
  assert (Hin : In (EExecuteValidation Validate Demo.blank (Some 3)
                      (Returned (VObj [("name", VUndefined)]))) (snd run))
    by (vm_compute; tauto).
  assert (Hwarn : forall d' f' e,
             ~ In (EExecuteValidation Warn d' f' (Raised e)) (snd run))
    by (intros d' f' e H; vm_compute in H; intuition discriminate).
  destruct (submit_once_on_snapshot
              (common := Demo.common) (host := Demo.host)
              Demo.cfgLenient (Some Scenes.otherAction) None
              (Demo.world Demo.blank)
              (fst (fst run)) (snd (fst run)) (snd run)
              Demo.blank (Some 3) (VObj [("name", VUndefined)])
              (triple_eta run) Hin eq_refl Hwarn)
    as (_ & act & ctx & ro & ws & w2 & wo & Hact & _ & Honce & Hcall & Hform
        & _ & Hk1 & Hk2 & _).
  injection Hact as <-.
  exists ctx, ro, ws, w2, wo.
  split; [exact Honce |]. split; [exact Hcall |]. split; [exact Hform |].
  split; [exact Hk1 | exact Hk2].
Defined.

(** C3 as stated fails: the network is down, [onError] 20 returns its
    tree, and the hook of extender 30 throws: extender 31, which has a
    hook, is never told. *)
Lemma recovery_cut_when_hook_throws :
  ~ (forall (common : Common) (host : Host) config altConfig event
            w r w' tr act d ctx e g se hs,
        handleSubmit config altConfig event w = (r, w', tr) ->
        In (EOnSubmit act d ctx (Raised e)) tr ->
        resolve config altConfig onError = Some g ->
        In (EOnError g e (Returned se)) tr ->
        truthy se = true ->
        In (EGetCurrentExtenders hs) tr ->
        r <> Raised e
        /\ In (ESetErrors se) tr
        /\ forall h f, In h hs -> hook_onSubmitError h = Some f ->
                       exists o, In (EOnSubmitError h d se o) tr).
Proof.
  intros H.
  destruct (H Demo.common Scenes.hasty Demo.cfgRecovering None None
              (Demo.world Demo.filled) _ _ _
              (UserSubmit 11) Demo.filled
              (contextAt (common := Demo.common) Demo.cfgRecovering
                 (Demo.world Demo.filled) (Some 0) None)
              (VStr "network down") 20 (VObj [("name", VStr "rejected")])
              [30; 32; 31] (triple_eta _)) as (_ & _ & Hall).
  - vm_compute. tauto.
  - reflexivity.
  - vm_compute. tauto.
  - reflexivity.
  - vm_compute. tauto.
  - destruct (Hall 31 (fun d errs w => (Returned tt, w))) as [o Ho].
    + simpl. tauto.
    + reflexivity.
    + vm_compute in Ho. intuition discriminate.
Qed.

(** C4 as stated fails: nothing is wrong with the data, the warning set
    throws, and the submit action is never called. *)
Lemma action_skipped_when_warn_throws :
  ~ (forall (common : Common) (host : Host) config altConfig event
            w r w' tr d fns errs,
        handleSubmit config altConfig event w = (r, w', tr) ->
        In (EExecuteValidation Validate d fns (Returned errs)) tr ->
        truthy errs && deepSome errs truthy = false ->
        exists act ctx ro, filter isOnSubmit tr = [EOnSubmit act d ctx ro]).
Proof.
  intros H.
  destruct (H Demo.common Demo.host Scenes.cfgWarnThrows None None
              (Demo.world Demo.filled) _ _ _
              Demo.filled None VUndefined (triple_eta _))
    as (act & ctx & ro & Hone).
  - vm_compute. tauto.
  - reflexivity.
  - vm_compute in Hone. discriminate.
Qed.





(** C6 fails on a record that both adds and removes: the e-mail row is
    replaced by text.  The removed row contains the e-mail input, which
    has no keep-on-remove marker, yet the callback returns having done
    nothing: the four stores still hold the e-mail entries. *)
Theorem replaced_row_is_not_unset :
  let w := Demo.world Demo.filled in
  FelteCommon.getFormControls Demo.emailRow = [Demo.email]
  /\ keepOnRemove Demo.email = false
  /\ mutationCallback (common := Demo.common) (host := Demo.host)
       Demo.cfgEmpty [] 0 [Demo.rowReplaced] w
     = (Returned tt, w, [])
  /\ FelteCommon._get (data (stores w)) ["email"]
     = Some (VStr "ada@example.org")
  /\ FelteCommon._get (errors (stores w)) ["email"] = Some (VStr "taken").
Proof. cbv zeta. repeat split. Qed.

(** The same row removed by a record that adds nothing is unset from the
    four stores. *)
Lemma removed_row_is_unset :
  let run := mutationCallback (common := Demo.common) (host := Demo.host)
               Demo.cfgEmpty [] 0 [Demo.rowRemoved]
               (Demo.world Demo.filled) in
  let s := stores (snd (fst run)) in
  FelteCommon._get (data s) ["email"] = None
  /\ FelteCommon._get (errors s) ["email"] = None
  /\ FelteCommon._get (warnings s) ["email"] = None
  /\ FelteCommon._get (touched s) ["email"] = None
  /\ FelteCommon._get (data s) ["name"] = Some (VStr "Ada").
Proof. cbv zeta. repeat split. Qed.

(** A row removed with its control marked to be kept leaves the stores as
    they are. *)
Lemma kept_row_is_not_unset :
  let w := Demo.world Demo.filled in
  keepOnRemove Demo.nickname = true
  /\ stores (snd (fst (mutationCallback (common := Demo.common)
                         (host := Demo.host) Demo.cfgEmpty [] 0
                         [mkMutation "childList" [] [Demo.nicknameRow]] w)))
     = stores w.
Proof. cbv zeta. split; reflexivity. Qed.



(** No handler, no form: nothing happens, not even [preventDefault]. *)
Lemma unresolved_submit_is_noop_witness :
  handleSubmit (common := Demo.common) (host := Demo.host)
    Demo.cfgEmpty None (Some Demo.submitEvent) Demo.unbound
  = (Returned tt, Demo.unbound, []).
Proof.
  apply (unresolved_submit_is_noop (common := Demo.common)
           (host := Demo.host) Demo.cfgEmpty None (Some Demo.submitEvent)
           Demo.unbound); reflexivity.
Defined.


(** ** More on the submit handler *)

Section SubmitMore.

Context {common : Common} {host : Host}.
Variable config : FormConfig.

(** A run that calls the submit action: what came before, the call, the
    [catch] block and the release. *)
Lemma handleSubmit_reaches_submit altConfig event w r w' tr act d ctx ro :
  handleSubmit config altConfig event w = (r, w', tr) ->
  In (EOnSubmit act d ctx ro) tr ->
  exists head body wi w1,
    tr = head ++ EOnSubmit act d ctx ro :: body ++ [ESetIsSubmitting false]
    /\ (forall ev, In ev head -> beforeDecision ev = true)
    /\ (forall ev, In ev body -> catchEvent ev = true)
    /\ actionOf act d ctx wi = (ro, w1)
    /\ isSubmitting (stores w') = false
    /\ match ro with
       | Returned _ => r = Returned tt /\ body = []
       | Raised e =>
           match resolve config altConfig onError with
           | None => r = Raised e /\ body = []
           | Some g =>
               exists rs w2, call_onError g e w1 = (rs, w2)
               /\ match rs with
                  | Raised e2 => r = Raised e2 /\ body = [EOnError g e rs]
                  | Returned se =>
                      if truthy se then
                        exists wn tn,
                          notifySubmitError d se
                            (with_stores (put_errors se) w2) = (r, wn, tn)
                          /\ body = EOnError g e rs :: ESetErrors se :: tn
                      else r = Returned tt /\ body = [EOnError g e rs]
                  end
           end
       end.
Proof.
  intros H Hin.
  destruct (resolveOnSubmit config altConfig (formNode w)) as [act0 |] eqn:Hact.
  2:{ rewrite (handleSubmit_unresolved _ _ event _ Hact) in H.
      injection H as <- <- <-. destruct Hin. }
  destruct (handleSubmit_run _ _ _ _ _ _ _ _ H Hact) as (rv & w1 & Hv & Hrun).
  destruct rv as [errs | e0].
  2:{ destruct Hrun as (_ & _ & ->). in_cases Hin; discriminate. }
  destruct Hrun as (rw & w2 & Hw & Hrun).
  destruct rw as [ws | e0].
  2:{ destruct Hrun as (_ & _ & ->). in_cases Hin; discriminate. }
  cbv zeta in Hrun.
  destruct Hrun as (w3 & rest & -> & _ & _ & Hrest & Hrun).
  assert (Hin' : In (EOnSubmit act d ctx ro) rest).
  { in_cases Hin; try discriminate. exact Hin. }
  clear Hin.
  destruct (truthy errs && deepSome errs truthy).
  { destruct Hrun as (rn & wn & tn & Hn & Hrn).
    assert (Htn := notify_events _ _ _ _ _ _ Hn).
    destruct rn as [u | e0]; destruct Hrn as (_ & _ & ->);
      in_cases Hin'; try discriminate; apply Htn in Hin'; discriminate. }
  apply submit_run in Hrun.
  destruct Hrun as (Hfalse & ro0 & wa & body & Hcall & -> & Hbody & Hro).
  assert (Hhead : EOnSubmit act0 (data (stores w))
                    (contextAt config w3 (formNode w) altConfig) ro0
                  = EOnSubmit act d ctx ro).
  { in_cases Hin'; try discriminate; [exact Hin' |].
    apply Hbody in Hin'. discriminate. }
  injection Hhead as -> <- <- ->.
  eexists. exists body, w3, wa.
  split; [rewrite !app_assoc; reflexivity |].
  split.
  { intros ev Hev. in_cases Hev; subst ev; reflexivity. }
  split; [exact Hbody |]. split; [exact Hcall |].
  split; [exact Hfalse | exact Hro].
Qed.

(** Every run with a resolved action begins the same way. *)
Lemma handleSubmit_prefix altConfig event w r w' tr act :
  handleSubmit config altConfig event w = (r, w', tr) ->
  resolveOnSubmit config altConfig (formNode w) = Some act ->
  exists rest,
    tr = match event with Some _ => [EPreventDefault] | None => [] end
         ++ ESetIsSubmitting true :: rest
    /\ (forall ev, In ev rest ->
          ev <> EPreventDefault /\ ev <> ESetIsSubmitting true).
Proof.
  intros H Hact.
  destruct (handleSubmit_run _ _ _ _ _ _ _ _ H Hact) as (rv & w1 & Hv & Hrun).
  destruct rv as [errs | e0].
  2:{ destruct Hrun as (_ & _ & ->). eexists. split.
      - rewrite <- app_assoc. reflexivity.
      - intros ev [<- | []]. split; discriminate. }
  destruct Hrun as (rw & w2 & Hw & Hrun).
  destruct rw as [ws | e0].
  2:{ destruct Hrun as (_ & _ & ->). eexists. split.
      - rewrite <- app_assoc. reflexivity.
      - intros ev [<- | [<- | []]]; split; discriminate. }
  cbv zeta in Hrun.
  destruct Hrun as (w3 & rest & -> & _ & _ & Hrest & _).
  eexists. split.
  - rewrite <- app_assoc. reflexivity.
  - intros ev Hev. in_cases Hev; subst; try (split; discriminate).
    apply Hrest in Hev. destruct ev as [| [] | | | | | | | | | | | | | | | | ];
      try discriminate; split; discriminate.
Qed.

(** X1: the default action of the event is prevented exactly when there is
    an event and a submit action is resolved; it is then the first thing
    the handler does, before [isSubmitting.set(true)], which happens once. *)
Theorem preventDefault_iff_resolved altConfig event w r w' tr :
  handleSubmit config altConfig event w = (r, w', tr) ->
  (In EPreventDefault tr
   <-> event <> None
       /\ resolveOnSubmit config altConfig (formNode w) <> None)
  /\ (resolveOnSubmit config altConfig (formNode w) <> None ->
      exists rest,
        tr = match event with Some _ => [EPreventDefault] | None => [] end
             ++ ESetIsSubmitting true :: rest
        /\ ~ In EPreventDefault rest /\ ~ In (ESetIsSubmitting true) rest).
Proof.
  intros H.
  destruct (resolveOnSubmit config altConfig (formNode w)) as [act |] eqn:Hact.
  - destruct (handleSubmit_prefix _ _ _ _ _ _ _ H Hact) as (rest & -> & Hrest).
    split.
    + split.
      * intros Hin. split; [| discriminate].
        destruct event; [discriminate |].
        simpl in Hin. destruct Hin as [Hin | Hin]; [discriminate |].
        apply Hrest in Hin. destruct Hin as [Hin _]. congruence.
      * intros [Hev _]. destruct event; [now left | congruence].
    + intros _. exists rest. split; [reflexivity |].
      split; intros Hin; apply Hrest in Hin; destruct Hin; congruence.
  - rewrite (handleSubmit_unresolved _ _ event _ Hact) in H.
    injection H as <- <- <-. split.
    + split; [intros [] | intros [_ Hn]; congruence].
    + congruence.
Qed.

(** X2: validation and warning both run on the data store as it was when
    the handler started, with the function sets resolved at the start;
    the warning set runs only once validation has returned. *)
Theorem validations_run_on_snapshot altConfig event w r w' tr site d f rv :
  handleSubmit config altConfig event w = (r, w', tr) ->
  In (EExecuteValidation site d f rv) tr ->
  d = data (stores w)
  /\ f = match site with
         | Validate => resolve config altConfig validate
         | Warn => resolve config altConfig warn
         end
  /\ (site = Warn ->
      exists errs,
        In (EExecuteValidation Validate d
              (resolve config altConfig validate) (Returned errs)) tr).
Proof.
  intros H Hin.
  destruct (resolveOnSubmit config altConfig (formNode w)) as [act |] eqn:Hact.
  2:{ rewrite (handleSubmit_unresolved _ _ event _ Hact) in H.
      injection H as <- <- <-. destruct Hin. }
  destruct (handleSubmit_run _ _ _ _ _ _ _ _ H Hact) as (rv0 & w1 & Hv & Hrun).
  destruct rv0 as [errs | e0].
  2:{ destruct Hrun as (_ & _ & ->). in_cases Hin; try discriminate.
      injection Hin as <- <- <- <-. repeat split. discriminate. }
  destruct Hrun as (rw & w2 & Hw & Hrun).
  destruct rw as [ws | e0].
  2:{ destruct Hrun as (_ & _ & ->). in_cases Hin; try discriminate.
      - injection Hin as <- <- <- <-. repeat split. discriminate.
      - injection Hin as <- <- <- <-. repeat split.
        intros _. exists errs. in_goal. }
  cbv zeta in Hrun.
  destruct Hrun as (w3 & rest & -> & _ & _ & Hrest & _).
  in_cases Hin; try discriminate.
  - injection Hin as <- <- <- <-. repeat split. discriminate.
  - injection Hin as <- <- <- <-. repeat split.
    intros _. exists errs. in_goal.
  - apply Hrest in Hin. discriminate.
Qed.


(** X4: when the submit action fails and [onError] returns a falsy value,
    the failure is swallowed: the handler returns normally, and after the
    call of [onError] it does nothing but release [isSubmitting]; no
    error is stored and no extender is told. *)
Theorem falsy_onError_swallows_failure
  altConfig event w r w' tr act d ctx e g se :
  handleSubmit config altConfig event w = (r, w', tr) ->
  In (EOnSubmit act d ctx (Raised e)) tr ->
  In (EOnError g e (Returned se)) tr ->
  truthy se = false ->
  r = Returned tt
  /\ isSubmitting (stores w') = false
  /\ exists head,
       tr = head ++ [EOnSubmit act d ctx (Raised e);
                     EOnError g e (Returned se); ESetIsSubmitting false]
       /\ forall ev, In ev head -> beforeDecision ev = true.
Proof.
  intros H Hin Herr Tse.
  destruct (handleSubmit_reaches_submit _ _ _ _ _ _ _ _ _ _ H Hin)
    as (head & body & wi & w1 & -> & Hhead & Hbody & _ & Hfalse & Hro).
  assert (Hb : In (EOnError g e (Returned se)) body).
  { in_cases Herr; try discriminate; [| exact Herr].
    apply Hhead in Herr. discriminate. }
  destruct (resolve config altConfig onError) as [g0 |].
  2:{ destruct Hro as [_ ->]. destruct Hb. }
  destruct Hro as (rs & w2 & _ & Hrs).
  destruct rs as [se0 | e2].
  2:{ destruct Hrs as [_ ->]. in_cases Hb. discriminate. }
  destruct (truthy se0) eqn:T0.
  - destruct Hrs as (wn & tn & Hn & ->).
    assert (Htn := notify_events _ _ _ _ _ _ Hn).
    in_cases Hb; try discriminate.
    + injection Hb as -> ->. congruence.
    + apply Htn in Hb. discriminate.
  - destruct Hrs as [-> ->]. in_cases Hb. injection Hb as -> ->.
    split; [reflexivity |]. split; [exact Hfalse |].
    exists head. split; [reflexivity | exact Hhead].
Qed.

(** X5: when [onError] itself raises, its exception is what the caller
    gets, in place of the failure of the submit action; [isSubmitting] is
    released all the same. *)
Theorem onError_raise_replaces_failure
  altConfig event w r w' tr act d ctx e g e2 :
  handleSubmit config altConfig event w = (r, w', tr) ->
  In (EOnSubmit act d ctx (Raised e)) tr ->
  In (EOnError g e (Raised e2)) tr ->
  r = Raised e2 /\ isSubmitting (stores w') = false.
Proof.
  intros H Hin Herr.
  destruct (handleSubmit_reaches_submit _ _ _ _ _ _ _ _ _ _ H Hin)
    as (head & body & wi & w1 & -> & Hhead & Hbody & _ & Hfalse & Hro).
  split; [| exact Hfalse].
  assert (Hb : In (EOnError g e (Raised e2)) body).
  { in_cases Herr; try discriminate; [| exact Herr].
    apply Hhead in Herr. discriminate. }
  destruct (resolve config altConfig onError) as [g0 |].
  2:{ destruct Hro as [_ ->]. destruct Hb. }
  destruct Hro as (rs & w2 & _ & Hrs).
  destruct rs as [se0 | e3].
  - destruct (truthy se0).
    + destruct Hrs as (wn & tn & Hn & ->).
      assert (Htn := notify_events _ _ _ _ _ _ Hn).
      in_cases Hb; try discriminate. apply Htn in Hb. discriminate.
    + destruct Hrs as [_ ->]. in_cases Hb. discriminate.
  - destruct Hrs as [-> ->]. in_cases Hb. now injection Hb as _ ->.
Qed.

(** X6: after a submit action that succeeds the handler only releases
    [isSubmitting] and returns: [onError] and the hooks are not called and
    the errors store is not written again. *)
Theorem successful_submit_only_releases altConfig event w r w' tr act d ctx u :
  handleSubmit config altConfig event w = (r, w', tr) ->
  In (EOnSubmit act d ctx (Returned u)) tr ->
  r = Returned tt
  /\ isSubmitting (stores w') = false
  /\ exists head,
       tr = head ++ [EOnSubmit act d ctx (Returned u);
                     ESetIsSubmitting false]
       /\ forall ev, In ev head -> beforeDecision ev = true.
Proof.
  intros H Hin.
  destruct (handleSubmit_reaches_submit _ _ _ _ _ _ _ _ _ _ H Hin)
    as (head & body & wi & w1 & -> & Hhead & _ & _ & Hfalse & -> & ->).
  split; [reflexivity |]. split; [exact Hfalse |].
  exists head. split; [reflexivity | exact Hhead].
Qed.

(** X7: the submit handler itself never writes the data store or the
    dirty flag, and never destroys or replaces the extenders. *)
Theorem submit_leaves_data_and_extenders altConfig event w r w' tr :
  handleSubmit config altConfig event w = (r, w', tr) ->
  forall ev, In ev tr ->
    match ev with
    | EUpdateData _ _ | ESetIsDirty _ | ESetCurrentExtenders _
    | EDestroy _ _ | EExtender _ _ _ | EUpdateErrors _ _
    | EUpdateWarnings _ _ | EHelperSetTouched _ _ _ => False
    | _ => True
    end.
Proof.
  intros H ev Hin.
  destruct (resolveOnSubmit config altConfig (formNode w)) as [act |] eqn:Hact.
  2:{ rewrite (handleSubmit_unresolved _ _ event _ Hact) in H.
      injection H as <- <- <-. destruct Hin. }
  destruct (handleSubmit_run _ _ _ _ _ _ _ _ H Hact) as (rv0 & w1 & Hv & Hrun).
  destruct rv0 as [errs | e0].
  2:{ destruct Hrun as (_ & _ & ->). in_cases Hin; subst ev; exact I. }
  destruct Hrun as (rw & w2 & Hw & Hrun).
  destruct rw as [ws0 | e0].
  2:{ destruct Hrun as (_ & _ & ->). in_cases Hin; subst ev; exact I. }
  cbv zeta in Hrun.
  destruct Hrun as (w3 & rest & -> & _ & _ & Hrest & _).
  in_cases Hin; try (subst ev; exact I).
  apply Hrest in Hin. destruct ev; try discriminate; exact I.
Qed.

Lemma forEach_hooks_exact d errs hs : forall w u w' tr,
  forEach (notifyHook d errs) hs w = (Returned u, w', tr) ->
  tr = map (fun h => EOnSubmitError h d errs (Returned tt))
         (filter hasSubmitErrorHook hs).
Proof.
  induction hs as [| h hs IH]; simpl; intros w u w' tr H.
  - unfold ret in H. now injection H as _ _ <-.
  - apply bind_run in H.
    destruct H as [(a & w1 & t1 & t2 & H1 & H2 & ->) | (e & _ & He)];
      [| discriminate].
    apply IH in H2. subst t2.
    unfold notifyHook in H1.
    destruct (hook_onSubmitError h) as [hook |] eqn:Hh.
    + assert (Hb : hasSubmitErrorHook h = true)
        by (unfold hasSubmitErrorHook; now rewrite Hh).
      rewrite Hb. apply call_run in H1. destruct H1 as [_ ->].
      destruct a. reflexivity.
    + assert (Hb : hasSubmitErrorHook h = false)
        by (unfold hasSubmitErrorHook; now rewrite Hh).
      rewrite Hb. unfold ret in H1. now injection H1 as _ _ <-.
Qed.

(** X8: at a validation failure from which the handler returns, each
    extender that was current and has an [onSubmitError] hook is called
    exactly once, in the order of the extenders, after the errors were
    stored and before [isSubmitting] is released; nothing else follows. *)
Theorem hooks_notified_once_in_order altConfig event w w' tr d fns errs :
  handleSubmit config altConfig event w = (Returned tt, w', tr) ->
  In (EExecuteValidation Validate d fns (Returned errs)) tr ->
  truthy errs = true ->
  deepSome errs truthy = true ->
  exists head hs,
    tr = head
         ++ EGetCurrentExtenders hs
            :: map (fun h => EOnSubmitError h d errs (Returned tt))
                 (filter hasSubmitErrorHook hs)
         ++ [ESetIsSubmitting false]
    /\ In (ESetErrors errs) head
    /\ forall ev, In ev head -> beforeDecision ev = true.
Proof.
  intros H Hin Terr Hsome.
  destruct (resolveOnSubmit config altConfig (formNode w)) as [act |] eqn:Hact.
  2:{ rewrite (handleSubmit_unresolved _ _ event _ Hact) in H.
      injection H as <- <-. destruct Hin. }
  destruct (handleSubmit_run _ _ _ _ _ _ _ _ H Hact) as (rv0 & w1 & Hv & Hrun).
  destruct rv0 as [errs0 | e0].
  2:{ destruct Hrun as (Hr & _). discriminate. }
  destruct Hrun as (rw & w2 & Hw & Hrun).
  destruct rw as [ws0 | e0].
  2:{ destruct Hrun as (Hr & _). discriminate. }
  cbv zeta in Hrun.
  destruct Hrun as (w3 & rest & -> & _ & _ & Hrest & Hrun).
  assert (Heq : d = data (stores w) /\ errs0 = errs).
  { in_cases Hin; try discriminate.
    - injection Hin as <- <- <-. auto.
    - apply Hrest in Hin. discriminate. }
  destruct Heq as [-> ->]. rewrite Terr, Hsome in *. simpl in Hrun.
  destruct Hrun as (rn & wn & tn & Hn & Hrn).
  destruct rn as [u | e0]; [| destruct Hrn as (Hr & _); discriminate].
  destruct Hrn as (_ & _ & ->).
  unfold notifySubmitError in Hn. apply bind_run in Hn.
  destruct Hn as [(hs & wa & ta & tb & Hg & Hf & ->) | (e0 & _ & He)];
    [| discriminate].
  unfold _getCurrentExtenders in Hg. injection Hg as <- <- <-.
  apply forEach_hooks_exact in Hf. subst tb.
  exists ((match event with Some _ => [EPreventDefault] | None => [] end
           ++ [ESetIsSubmitting true])
          ++ [EExecuteValidation Validate (data (stores w))
                (resolve config altConfig validate) (Returned errs);
              EExecuteValidation Warn (data (stores w))
                (resolve config altConfig warn) (Returned ws0)]
          ++ (if truthy ws0
              then [ESetWarnings (_merge (deepSet (data (stores w)) VNull) ws0)]
              else [])
          ++ [EUpdateTouched (touched (stores w2))
                (deepSet (touched (stores w2)) (VBool true));
              ESetErrors errs]),
    (currentExtenders w3).
  split.
  { rewrite <- !app_assoc. simpl. rewrite <- ?app_assoc. reflexivity. }
  split; [in_goal |].
  intros ev Hev. in_cases Hev; subst ev; reflexivity.
Qed.

End SubmitMore.

(** One key under [{...c, ...a}] and under [a.k ?? c.k]. *)
Section ContextShown.

Context {common : Common} {host : Host}.
Variable config : FormConfig.

(** One key of the configuration, read by the spread and by [??]. *)
Lemma merged_read {A} altConfig (k : FormConfig -> Property A) :
  (overriddenByUndefined altConfig k ->
   read (merged config altConfig k) = None
   /\ resolve config altConfig k = read (k config))
  /\ (~ overriddenByUndefined altConfig k ->
      read (merged config altConfig k) = resolve config altConfig k).
Proof.
  unfold overriddenByUndefined, merged, resolve, alt.
  destruct altConfig as [a |].
  - destruct (k a) as [| | x] eqn:Hk; split.
    + intros (b & [= <-] & Hu). congruence.
    + intros _. destruct (k config); reflexivity.
    + intros _. split; reflexivity.
    + intros Hn. destruct Hn. exists a. split; [reflexivity | exact Hk].
    + intros (b & [= <-] & Hu). congruence.
    + intros _. reflexivity.
  - split.
    + intros (b & [=] & _).
    + intros _. destruct (k config); reflexivity.
Qed.

(** X9: what one run of the submit handler calls, against what the
    configuration handed to the submit action shows.  The handler resolves
    each function with [??] ([altConfig?.k ?? config.k], and for the submit
    action the default handler of the form node after that), the context
    holds [{...config, ...altConfig}].  In a run that calls the action: a
    configured action is the one [??] resolves, and the context shows it
    unless the overrides hold [onSubmit] with the value [undefined]; the
    default handler runs only where [??] resolves nothing, and then the
    context shows no action; each validation set that ran is the one [??]
    resolves, and the context shows another one exactly when the overrides
    hold the key as [undefined] over a configured set; an error handler
    that ran is the one [??] resolves, shown under the same condition as
    the action. *)
Theorem context_config_against_resolved altConfig event w r w' tr act d ctx
  ro :
  handleSubmit config altConfig event w = (r, w', tr) ->
  In (EOnSubmit act d ctx ro) tr ->
  match act with
  | UserSubmit g =>
      resolve config altConfig onSubmit = Some g
      /\ (read (onSubmit (ctx_config ctx)) = Some g
          <-> ~ overriddenByUndefined altConfig onSubmit)
  | DefaultSubmit n =>
      formNode w = Some n
      /\ resolve config altConfig onSubmit = None
      /\ read (onSubmit (ctx_config ctx)) = None
  end
  /\ (forall site d' f rv,
        In (EExecuteValidation site d' f rv) tr ->
        match site with
        | Validate =>
            f = resolve config altConfig validate
            /\ (read (validate (ctx_config ctx)) = f
                <-> (overriddenByUndefined altConfig validate -> f = None))
        | Warn =>
            f = resolve config altConfig warn
            /\ (read (warn (ctx_config ctx)) = f
                <-> (overriddenByUndefined altConfig warn -> f = None))
        end)
  /\ (forall g e rs,
        In (EOnError g e rs) tr ->
        resolve config altConfig onError = Some g
        /\ (read (onError (ctx_config ctx)) = Some g
            <-> ~ overriddenByUndefined altConfig onError)).
Proof.
  intros H Hin.
  destruct (handleSubmit_reached _ _ _ _ _ _ _ _ _ _ _ H Hin)
    as (errs & ws & w2 & head0 & rest0 & Hact & _ & _ & _ & Hctx & _).
  assert (Hcfg : ctx_config ctx = mergeConfig config altConfig)
    by (rewrite Hctx; reflexivity).
  destruct (mergeConfig_merged config altConfig)
    as (Hs & Hv & Hw & He & _).
  rewrite Hcfg, Hs, Hv, Hw, He. clear Hctx Hcfg Hs Hv Hw He.
  assert (Hshown : forall {A} (k : FormConfig -> Property A) x,
             resolve config altConfig k = Some x ->
             read (merged config altConfig k) = Some x
             <-> ~ overriddenByUndefined altConfig k).
  { intros A k x Hx. destruct (merged_read altConfig k) as (Hu & Hn).
    split.
    - intros Hr Ho. destruct (Hu Ho) as (Hnone & _). congruence.
    - intros Hno. rewrite (Hn Hno). exact Hx. }
  assert (Hset : forall {A} (k : FormConfig -> Property A),
             read (merged config altConfig k) = resolve config altConfig k
             <-> (overriddenByUndefined altConfig k ->
                  resolve config altConfig k = None)).
  { intros A k. destruct (merged_read altConfig k) as (Hu & Hn).
    split.
    - intros Hr Ho. destruct (Hu Ho) as (Hnone & _). congruence.
    - intros Himp.
      destruct (alt altConfig k) as [x |] eqn:Halt.
      + apply Hn. intros (a & -> & Hk). simpl in Halt. rewrite Hk in Halt.
        discriminate.
      + destruct altConfig as [a |].
        * simpl in Halt. destruct (k a) as [| | y] eqn:Hk; try discriminate.
          -- apply Hn. intros (b & [= <-] & Hk'). congruence.
          -- assert (Ho : overriddenByUndefined (Some a) k)
               by (exists a; split; [reflexivity | exact Hk]).
             rewrite (Himp Ho). exact (proj1 (Hu Ho)).
        * apply Hn. intros (b & [=] & _). }
  split; [| split].
  - unfold resolveOnSubmit in Hact.
    destruct (resolve config altConfig onSubmit) as [g |] eqn:Hres.
    + simpl in Hact. injection Hact as <-.
      split; [reflexivity |]. apply Hshown. exact Hres.
    + simpl in Hact. unfold createDefaultSubmitHandler in Hact.
      destruct (formNode w) as [n |]; [| discriminate].
      injection Hact as <-.
      split; [reflexivity |]. split; [reflexivity |].
      destruct (merged_read altConfig onSubmit) as (Hu & Hn).
      destruct altConfig as [a |].
      * destruct (onSubmit a) as [| | x] eqn:Hk.
        -- rewrite <- Hres. apply Hn.
           intros (b & [= <-] & Hk'). congruence.
        -- apply Hu. exists a. split; [reflexivity | exact Hk].
        -- rewrite <- Hres. apply Hn.
           intros (b & [= <-] & Hk'). congruence.
      * rewrite <- Hres. apply Hn. intros (b & [=] & _).
  - intros site d' f rv Hev.
    assert (Hf : f = match site with
                     | Validate => resolve config altConfig validate
                     | Warn => resolve config altConfig warn
                     end).
    { destruct (handleSubmit_reaches_submit _ _ _ _ _ _ _ _ _ _ _ H Hin)
        as (head & body & wi & w1 & Htr & _).
      clear Htr.
      destruct (handleSubmit_run _ _ _ _ _ _ _ _ H Hact)
        as (rv0 & w1' & _ & Hrun).
      destruct rv0 as [errs0 | e0].
      2:{ destruct Hrun as (_ & _ & ->). in_cases Hev; try discriminate.
          injection Hev as <- <- <- <-. reflexivity. }
      destruct Hrun as (rw & w2' & _ & Hrun).
      destruct rw as [ws0 | e0].
      2:{ destruct Hrun as (_ & _ & ->). in_cases Hev; try discriminate;
            injection Hev as <- <- <- <-; reflexivity. }
      cbv zeta in Hrun.
      destruct Hrun as (w3 & rest & -> & _ & _ & Hrest & _).
      in_cases Hev; try discriminate;
        try (injection Hev as <- <- <- <-; reflexivity).
      apply Hrest in Hev. discriminate. }
    destruct site; (split; [exact Hf |]); rewrite Hf; apply Hset.
  - intros g e rs Hev.
    assert (Hg : resolve config altConfig onError = Some g).
    { destruct (handleSubmit_reaches_submit _ _ _ _ _ _ _ _ _ _ _ H Hin)
        as (head & body & wi & w1 & -> & Hhead & _ & _ & _ & Hbody).
      apply in_app_or in Hev. destruct Hev as [Hev | Hev].
      { apply Hhead in Hev. discriminate. }
      destruct Hev as [Hev | Hev]; [discriminate |].
      apply in_app_or in Hev. destruct Hev as [Hev | Hev].
      2:{ destruct Hev as [Hev | []]. discriminate. }
      destruct ro as [u | e0].
      { destruct Hbody as (_ & ->). destruct Hev. }
      destruct (resolve config altConfig onError) as [g0 |].
      2:{ destruct Hbody as (_ & ->). destruct Hev. }
      destruct Hbody as (rs0 & w2' & _ & Hbody).
      destruct rs0 as [se | e2].
      - destruct (truthy se).
        + destruct Hbody as (wn & tn & Hn & ->).
          destruct Hev as [Hev | [Hev | Hev]]; try discriminate.
          * injection Hev as <- _ _. reflexivity.
          * apply (notify_events _ _ _ _ _ _ Hn) in Hev. discriminate.
        + destruct Hbody as (_ & ->).
          destruct Hev as [Hev | []]. injection Hev as <- _ _. reflexivity.
      - destruct Hbody as (_ & ->).
        destruct Hev as [Hev | []]. injection Hev as <- _ _. reflexivity. }
    split; [exact Hg |]. apply Hshown. exact Hg.
Qed.

End ContextShown.

(** The overrides of one submission hold [onSubmit: undefined]: the
    configured action 10 runs, and the configuration it is handed shows no
    action. *)
Lemma context_config_against_resolved_witness :
  let run := handleSubmit (common := Demo.common) (host := Demo.host)
               Scenes.cfgPlain (Some Scenes.undefinedAction) None
               (Demo.world Demo.filled) in
  exists d ctx ro,
    In (EOnSubmit (UserSubmit 10) d ctx ro) (snd run)
    /\ resolve Scenes.cfgPlain (Some Scenes.undefinedAction) onSubmit
       = Some 10
    /\ read (onSubmit (ctx_config ctx)) <> Some 10.
Proof.
  intros run.
  assert (Hex : exists d ctx ro,
             In (EOnSubmit (UserSubmit 10) d ctx ro) (snd run)).
  { vm_compute. do 3 eexists.
    repeat (first [left; reflexivity | right]). }
  destruct Hex as (d & ctx & ro & Hin).
  exists d, ctx, ro. split; [exact Hin |].
  destruct (context_config_against_resolved
              (common := Demo.common) (host := Demo.host)
              Scenes.cfgPlain (Some Scenes.undefinedAction) None
              (Demo.world Demo.filled)
              (fst (fst run)) (snd (fst run)) (snd run)
              (UserSubmit 10) d ctx ro (triple_eta run) Hin)
    as ((Hres & Hshown) & _).
  split; [exact Hres |].
  intros Hctx. apply (proj1 Hshown Hctx).
  exists Scenes.undefinedAction. split; reflexivity.
Defined.

(** ** Input, change and blur *)

Section HandlersMore.

Context {common : Common} {host : Host}.
Variable config : FormConfig.
Variable node : FormNode.
Variable getInputTextOrNumber : Element -> JsValue.

(** X10: an input event is taken up only for a named form control that is
    neither ignored, nor a select, nor of type checkbox, radio or file;
    for any other target the handler does nothing.  For such a target
    (the touch helper returning) the dirty flag ends true and the data
    store ends with the input's text or number at its path. *)
Theorem handleInput_writes_text_only e w r w' tr :
  handleInput config getInputTextOrNumber e w = (r, w', tr) ->
  match target e with
  | Some t =>
      if textTarget t then
        r = Returned tt ->
        exists d0,
          In (EUpdateData d0 (_set d0 (getPath t) (getInputTextOrNumber t)))
            tr
          /\ data (stores w')
             = _set d0 (getPath t) (getInputTextOrNumber t)
          /\ isDirty (stores w') = true
      else r = Returned tt /\ w' = w /\ tr = []
  | None => r = Returned tt /\ w' = w /\ tr = []
  end.
Proof.
  unfold handleInput, textTarget. intros H.
  destruct (target e) as [t |];
    [| unfold ret in H; injection H as <- <- <-; auto].
  destruct (isFormControl t); simpl in *;
    [| unfold ret in H; injection H as <- <- <-; auto].
  destruct (isSelectElement t); simpl in *;
    [unfold ret in H; injection H as <- <- <-; auto |].
  destruct (shouldIgnore t); simpl in *;
    [unfold ret in H; injection H as <- <- <-; auto |].
  destruct (is_checkbox_radio_file (type t)); simpl in *;
    [unfold ret in H; injection H as <- <- <-; auto |].
  destruct (String.eqb (name t) EmptyString); simpl in *;
    [unfold ret in H; injection H as <- <- <-; auto |].
  intros Hr. apply bind_run in H.
  destruct H as [(u & w1 & t1 & t2 & H1 & H & ->) | (x & _ & Hx)];
    [| congruence].
  apply bind_run in H.
  destruct H as [(u2 & w2 & t3 & t4 & H2 & H & ->) | (x & H2 & _)];
    [| discriminate].
  unfold isDirty_set in H2. injection H2 as <- <- <-.
  unfold data_update in H. injection H as _ <- <-.
  exists (data (stores w1)). split; [in_goal |]. split; reflexivity.
Qed.

(** X11: blur never writes a store by itself: at most it calls the touch
    helper, once, for a named form control that is not ignored and only
    when touching on blur is configured. *)
Theorem handleBlur_only_touches e w r w' tr :
  handleBlur config e w = (r, w', tr) ->
  (r = Returned tt /\ w' = w /\ tr = [])
  \/ (exists t b,
        target e = Some t /\ boundTarget t = true
        /\ read (touchTriggerEvents config) = Some b /\ blur b = true
        /\ helpers_setTouched (getPath t) true w = (r, w')
        /\ tr = [EHelperSetTouched (getPath t) true r]).
Proof.
  unfold handleBlur, boundTarget. intros H.
  destruct (target e) as [t |];
    [| unfold ret in H; injection H as <- <- <-; left; repeat split].
  destruct (isFormControl t) eqn:Hfc; simpl in H;
    [| unfold ret in H; injection H as <- <- <-; left; repeat split].
  destruct (shouldIgnore t) eqn:Hig; simpl in H;
    [unfold ret in H; injection H as <- <- <-; left; repeat split |].
  destruct (String.eqb (name t) EmptyString) eqn:Hname; simpl in H;
    [unfold ret in H; injection H as <- <- <-; left; repeat split |].
  destruct (read (touchTriggerEvents config)) as [b |];
    [| unfold ret in H; injection H as <- <- <-; left; repeat split].
  destruct (blur b) eqn:Hb; simpl in H;
    [| unfold ret in H; injection H as <- <- <-; left; repeat split].
  apply call_run in H. destruct H as [H ->].
  right. exists t, b. rewrite Hfc, Hig, Hname. repeat split; auto.
Qed.

Lemma is_checkbox_radio_file_false ty :
  is_checkbox_radio_file ty = false ->
  String.eqb ty "checkbox" = false /\ String.eqb ty "radio" = false
  /\ String.eqb ty "file" = false.
Proof.
  unfold is_checkbox_radio_file. simpl. rewrite !orb_false_iff.
  intros (H1 & H2 & H3 & _). auto.
Qed.

Lemma dataOnly_ret : dataOnly (ret tt).
Proof.
  intros w r w' tr [= <- <- <-]. repeat split. intros ev [].
Qed.

Lemma dataOnly_update f : dataOnly (data_update f).
Proof.
  intros w r w' tr [= <- <- <-]. repeat split.
  intros ev [<- | []]. eauto.
Qed.

Lemma dataOnly_bind (m k : M unit) :
  dataOnly m -> dataOnly k -> dataOnly (m ;; k).
Proof.
  intros Hm Hk w r w' tr H. apply bind_run in H.
  destruct H as [(u & w1 & t1 & t2 & H1 & H2 & ->) | (x & H1 & ->)].
  - destruct (Hm _ _ _ _ H1) as (_ & Hd1 & He1).
    destruct (Hk _ _ _ _ H2) as (Hr & Hd2 & He2).
    split; [exact Hr |]. split; [congruence |].
    intros ev Hev. apply in_app_or in Hev. destruct Hev; auto.
  - destruct (Hm _ _ _ _ H1) as (Hr & _). discriminate.
Qed.

Lemma dataOnly_when b m : dataOnly m -> dataOnly (when b m).
Proof. destruct b; simpl; [auto | intros _; apply dataOnly_ret]. Qed.

Lemma dataOnly_setCheckboxValues t : dataOnly (setCheckboxValues node t).
Proof.
  intros w r w' tr H.
  unfold setCheckboxValues, bind, querySelectorAll in H.
  destruct (List.length _) as [| [| n]]; injection H as <- <- <-;
    repeat split; intros ev Hev; in_cases Hev; subst; eauto.
Qed.

Lemma dataOnly_setRadioValues t : dataOnly (setRadioValues node t).
Proof.
  intros w r w' tr H.
  unfold setRadioValues, bind, querySelectorAll in H.
  injection H as <- <- <-.
  repeat split; intros ev Hev; in_cases Hev; subst; eauto.
Qed.

Lemma dataOnly_setFileValue t : dataOnly (setFileValue t).
Proof. apply dataOnly_update. Qed.

(** Every run of the change handler on a target it looks at: the touch
    helper (if configured), the dirty flag for selects and for checkbox,
    radio and file inputs, then data updates only. *)
Lemma handleChange_run e t w r w' tr :
  target e = Some t ->
  boundTarget t = true ->
  handleChange config node e w = (r, w', tr) ->
  exists (r1 : Outcome unit) w1 t1,
    (forall ev, In ev t1 ->
       exists rr, ev = EHelperSetTouched (getPath t) true rr)
    /\ (read (touchTriggerEvents config) = None ->
        t1 = [] /\ w1 = w /\ r1 = Returned tt)
    /\ match r1 with
       | Raised x => r = Raised x /\ w' = w1 /\ tr = t1
       | Returned _ =>
           let marks := isSelectElement t
                        || is_checkbox_radio_file (type t) in
           exists t2,
             r = Returned tt
             /\ tr = t1 ++ (if marks then [ESetIsDirty true] else []) ++ t2
             /\ (forall ev, In ev t2 -> exists o n, ev = EUpdateData o n)
             /\ isDirty (stores w')
                = (if marks then true else isDirty (stores w1))
             /\ (marks = false -> t2 = [] /\ w' = w1)
       end.
Proof.
  intros Ht Hb H. unfold boundTarget in Hb.
  apply andb_true_iff in Hb. destruct Hb as [Hb Hname].
  apply andb_true_iff in Hb. destruct Hb as [Hfc Hig].
  apply negb_true_iff in Hig, Hname.
  unfold handleChange in H. rewrite Ht, Hfc, Hig, Hname in H. simpl in H.
  apply bind_run in H.
  destruct H as [(u & w1 & t1 & t2 & H1 & H & ->) | (x & H1 & ->)].
  - exists (Returned u), w1, t1.
    assert (Ht1 : (forall ev, In ev t1 ->
                     exists rr, ev = EHelperSetTouched (getPath t) true rr)
                  /\ (read (touchTriggerEvents config) = None ->
                      t1 = [] /\ w1 = w /\ Returned u = Returned tt)).
    { destruct u. apply when_run in H1.
      destruct H1 as [[Hc H1] | (Hc & _ & -> & ->)].
      - apply call_run in H1. destruct H1 as [_ ->]. split.
        + intros ev [<- | []]. eauto.
        + intros Hn. rewrite Hn in Hc. discriminate.
      - split; [intros ev [] | auto]. }
    destruct Ht1 as [Ht1 Ht1']. split; [exact Ht1 |]. split; [exact Ht1' |].
    cbv zeta.
    apply bind_run in H.
    destruct H as [(u2 & w2 & t3 & t4 & H2 & H & ->) | (x & H2 & _)].
    2:{ destruct (_ || _); discriminate. }
    assert (Htail : dataOnly
              (when (isSelectElement t)
                 (data_update (fun d => _set d (getPath t) (VStr (value t))));;
               (if negb (isInputElement t) then ret tt
                else
                  when (String.eqb (type t) "checkbox")
                    (setCheckboxValues node t);;
                  when (String.eqb (type t) "radio") (setRadioValues node t);;
                  when (String.eqb (type t) "file") (setFileValue t)))).
    { apply dataOnly_bind; [apply dataOnly_when, dataOnly_update |].
      destruct (negb (isInputElement t)); [apply dataOnly_ret |].
      apply dataOnly_bind; [apply dataOnly_when, dataOnly_setCheckboxValues |].
      apply dataOnly_bind; [apply dataOnly_when, dataOnly_setRadioValues |].
      apply dataOnly_when, dataOnly_setFileValue. }
    destruct (Htail _ _ _ _ H) as (Hr & Hd & He).
    exists t4. split; [exact Hr |].
    apply when_run in H2.
    destruct H2 as [[Hm H2] | (Hm & _ & -> & ->)]; rewrite Hm.
    + unfold isDirty_set in H2. inversion H2; subst; clear H2.
      split; [reflexivity |]. split; [exact He |].
      split; [exact Hd | discriminate].
    + split; [reflexivity |]. split; [exact He |]. split; [exact Hd |].
      intros _. apply orb_false_iff in Hm. destruct Hm as [Hsel Hcrf].
      destruct (is_checkbox_radio_file_false _ Hcrf) as (Hc & Hra & Hf).
      rewrite Hsel, Hc, Hra, Hf in H.
      destruct (negb (isInputElement t));
        cbv [bind ret when] in H; simpl in H; injection H as _ <- <-; auto.
  - exists (Raised x), w', tr. split.
    + apply when_run in H1. destruct H1 as [[Hc H1] | (_ & Hr & _)];
        [| discriminate].
      apply call_run in H1. destruct H1 as [_ ->].
      intros ev [<- | []]. eauto.
    + split; [| auto].
      intros Hn. rewrite Hn in H1. discriminate.
Qed.

(** X12: whatever the target, the change handler itself only calls the
    touch helper, sets the dirty flag and updates the data store: it never
    writes the touched, errors or warnings stores nor [isSubmitting]. *)
Theorem handleChange_writes_only_dirty_and_data e w r w' tr :
  handleChange config node e w = (r, w', tr) ->
  forall ev, In ev tr -> changeEvent ev = true.
Proof.
  intros H ev Hev.
  destruct (target e) as [t |] eqn:Ht.
  2:{ unfold handleChange in H. rewrite Ht in H.
      injection H as _ _ <-. destruct Hev. }
  destruct (boundTarget t) eqn:Hb.
  - destruct (handleChange_run _ _ _ _ _ _ Ht Hb H)
      as (r1 & w1 & t1 & Ht1 & _ & Hrun).
    destruct r1 as [u | x].
    + destruct Hrun as (t2 & _ & -> & Ht2 & _).
      in_cases Hev.
      * destruct (Ht1 _ Hev) as (rr & ->). reflexivity.
      * subst ev. reflexivity.
      * destruct (Ht2 _ Hev) as (o & n & ->). reflexivity.
    + destruct Hrun as (_ & _ & ->).
      destruct (Ht1 _ Hev) as (rr & ->). reflexivity.
  - exfalso. unfold handleChange, boundTarget in *. rewrite Ht in H.
    destruct (isFormControl t); simpl in *;
      [| injection H as _ _ <-; destruct Hev].
    destruct (shouldIgnore t); simpl in *;
      [injection H as _ _ <-; destruct Hev |].
    destruct (String.eqb (name t) EmptyString); simpl in *;
      [injection H as _ _ <-; destruct Hev | discriminate].
Qed.

(** X13: a change event on a control that is neither a select nor of type
    checkbox, radio or file writes nothing: the text of such a control
    reaches the data store through the input handler only.  Without
    touching on change configured the handler does nothing at all. *)
Theorem handleChange_leaves_text_alone e t w r w' tr :
  target e = Some t ->
  isSelectElement t = false ->
  is_checkbox_radio_file (type t) = false ->
  handleChange config node e w = (r, w', tr) ->
  (forall ev, In ev tr -> exists rr, ev = EHelperSetTouched (getPath t) true rr)
  /\ (read (touchTriggerEvents config) = None ->
      r = Returned tt /\ w' = w /\ tr = []).
Proof.
  intros Ht Hsel Hcrf H.
  destruct (boundTarget t) eqn:Hb.
  - destruct (handleChange_run _ _ _ _ _ _ Ht Hb H)
      as (r1 & w1 & t1 & Ht1 & Hnone & Hrun).
    rewrite Hsel, Hcrf in Hrun. simpl in Hrun.
    destruct r1 as [u | x].
    + destruct Hrun as (t2 & -> & -> & _ & _ & Hnil).
      destruct (Hnil eq_refl) as [-> ->]. rewrite app_nil_r. split.
      * exact Ht1.
      * intros Hn. destruct (Hnone Hn) as (-> & -> & _). auto.
    + destruct Hrun as (-> & -> & ->). split; [exact Ht1 |].
      intros Hn. destruct (Hnone Hn) as (_ & _ & Hr). discriminate.
  - unfold handleChange, boundTarget in *. rewrite Ht in H.
    destruct (isFormControl t); simpl in *;
      [| injection H as <- <- <-; split; [intros ev [] | auto]].
    destruct (shouldIgnore t); simpl in *;
      [injection H as <- <- <-; split; [intros ev [] | auto] |].
    destruct (String.eqb (name t) EmptyString); simpl in *;
      [injection H as <- <- <-; split; [intros ev [] | auto]
      | discriminate].
Qed.

(** X14: a change event on a named, not ignored select or checkbox, radio
    or file input leaves the form dirty (the touch helper returning). *)
Theorem handleChange_marks_dirty e t w w' tr :
  target e = Some t ->
  boundTarget t = true ->
  isSelectElement t || is_checkbox_radio_file (type t) = true ->
  handleChange config node e w = (Returned tt, w', tr) ->
  isDirty (stores w') = true /\ In (ESetIsDirty true) tr.
Proof.
  intros Ht Hb Hm H.
  destruct (handleChange_run _ _ _ _ _ _ Ht Hb H)
    as (r1 & w1 & t1 & _ & _ & Hrun).
  rewrite Hm in Hrun.
  destruct r1 as [u | x]; [| destruct Hrun as (Hr & _); discriminate].
  destruct Hrun as (t2 & _ & -> & _ & Hd & _).
  split; [exact Hd |].
  apply in_or_app. right. left. reflexivity.
Qed.

Lemma strict_eq_number_NaN n : strict_eq_number n NaN = false.
Proof. destruct n; reflexivity. Qed.

(** X15: when the index of the target is not a number (its
    [data-felte-index] does not parse), no element passes
    [felteIndex === index], the group is empty and nothing is written,
    not even for the target itself. *)
Theorem checkbox_nan_index_writes_nothing t w :
  getIndex t = Some NaN ->
  setCheckboxValues node t w = (Returned tt, w, []).
Proof.
  intros Hidx. unfold setCheckboxValues, bind, querySelectorAll.
  assert (Hg : forall named, checkboxGroup t named = []).
  { intros named. unfold checkboxGroup. rewrite Hidx.
    apply filter_none. intros c _.
    destruct (negb (isFormControl c));
      [reflexivity | apply strict_eq_number_NaN]. }
  rewrite Hg. reflexivity.
Qed.

(** X16: a file input with no file selected writes an empty array when it
    is [multiple] and [undefined] otherwise. *)
Theorem file_input_without_selection t w :
  files t = None \/ files t = Some [] ->
  let d := data (stores w) in
  let v := if multiple t then VArr [] else VUndefined in
  setFileValue t w
  = (Returned tt, with_stores (put_data (_set d (getPath t) v)) w,
     [EUpdateData d (_set d (getPath t) v)]).
Proof.
  intros [Hf | Hf]; cbv zeta; unfold setFileValue, data_update;
    rewrite Hf; destruct (multiple t); reflexivity.
Qed.

End HandlersMore.

(** ** More on the mutation callback *)

Section MutationMore.

Context {common : Common} {host : Host}.
Variable config : FormConfig.
Variable extender : list Extender.
Variable node : FormNode.

Lemma forEach_unsetControl l : forall w r w' tr,
  forEach unsetControl l w = (r, w', tr) ->
  r = Returned tt
  /\ stores w'
     = fold_left (fun s c => unsetAll (getPathFromDataset c) s)
         (filter (fun c => negb (keepOnRemove c)) l) (stores w)
  /\ currentExtenders w' = currentExtenders w
  /\ dom w' = dom w
  /\ List.length tr
     = 4 * List.length (filter (fun c => negb (keepOnRemove c)) l).
Proof.
  induction l as [| c l IH]; intros w r w' tr H; simpl in H.
  - unfold ret in H. injection H as <- <- <-. repeat split.
  - unfold bind in H. rewrite unsetControl_run in H.
    simpl filter. destruct (keepOnRemove c); cbv beta iota zeta in H;
      simpl negb; cbv iota.
    + destruct (forEach unsetControl l w) as [[r2 w2] t2] eqn:Hl.
      cbv beta iota zeta in H. injection H as <- <- <-.
      apply IH in Hl. exact Hl.
    + destruct (forEach unsetControl l
                  (with_stores (unsetAll (getPathFromDataset c)) w))
        as [[r2 w2] t2] eqn:Hl.
      cbv beta iota zeta in H. injection H as <- <- <-. apply IH in Hl.
      destruct Hl as (Hr & Hs & Hx & Hd & Hn).
      split; [exact Hr |]. split; [exact Hs |].
      split; [exact Hx |]. split; [exact Hd |].
      simpl. rewrite Hn. lia.
Qed.

(** X17: [unsetTaggedForRemove] never raises and leaves the extenders
    alone; the stores end as they are after unsetting the path of each
    control that is not to be kept, the last control of the list first,
    with four store updates for each. *)
Theorem unsetTaggedForRemove_unsets_last_first formControls w r w' tr :
  unsetTaggedForRemove formControls w = (r, w', tr) ->
  r = Returned tt
  /\ stores w'
     = fold_left (fun s c => unsetAll (getPathFromDataset c) s)
         (rev (filter (fun c => negb (keepOnRemove c)) formControls))
         (stores w)
  /\ currentExtenders w' = currentExtenders w
  /\ List.length tr
     = 4 * List.length
             (filter (fun c => negb (keepOnRemove c)) formControls).
Proof.
  unfold unsetTaggedForRemove. intros H.
  apply forEach_unsetControl in H. rewrite filter_rev in H.
  destruct H as (Hr & Hs & Hx & _ & Hn).
  rewrite length_rev in Hn. auto.
Qed.

Lemma forEach_noop {A} (f : A -> M unit) (l : list A) w :
  (forall x, In x l -> f x w = (Returned tt, w, [])) ->
  forEach f l w = (Returned tt, w, []).
Proof.
  induction l as [| a l IH]; intros H; simpl; [reflexivity |].
  unfold bind. rewrite (H a (or_introl eq_refl)).
  rewrite IH; [reflexivity |]. intros x Hx. apply H. now right.
Qed.

(** X18: a batch made of records the callback passes over changes
    nothing: no store is written and the extenders are neither destroyed
    nor mounted again.  This includes a record that adds nodes without
    form controls, whatever it removes. *)
Theorem inert_batch_changes_nothing mutationList w :
  forallb inert mutationList = true ->
  mutationCallback config extender node mutationList w = (Returned tt, w, []).
Proof.
  intros Hall. unfold mutationCallback. apply forEach_noop.
  intros m Hm. rewrite forallb_forall in Hall. specialize (Hall m Hm).
  unfold inert in Hall. unfold processMutation.
  destruct (String.eqb (mutation_type m) "childList"); simpl in *;
    [| reflexivity].
  destruct (addedNodes m) as [| a added] eqn:Ha; simpl in *.
  - unfold processRemoved.
    destruct (removedNodes m) as [| n removed] eqn:Hrm; [reflexivity |].
    change (Nat.ltb 0 (List.length (n :: removed))) with true.
    cbv [when]. apply forEach_noop.
    intros x Hx. rewrite forallb_forall in Hall. specialize (Hall x Hx).
    destruct (negb (isElement x)); [reflexivity |].
    simpl in Hall. rewrite Hall. reflexivity.
  - rewrite orb_false_r in Hall. apply negb_true_iff in Hall.
    simpl in Hall. rewrite Hall. reflexivity.
Qed.

Lemma forEach_destroy hs : forall w r w' tr,
  forEach destroyHook hs w = (r, w', tr) ->
  (forall ev, In ev tr -> exists h rr, ev = EDestroy h rr)
  /\ (r = Returned tt ->
      tr = map (fun h => EDestroy h (Returned tt))
             (filter hasDestroyHook hs)).
Proof.
  induction hs as [| h hs IH]; simpl; intros w r w' tr H.
  - unfold ret in H. injection H as <- <- <-. split; [intros ev [] | auto].
  - apply bind_run in H.
    destruct H as [(a & w1 & t1 & t2 & H1 & H2 & ->) | (e & H1 & ->)].
    + apply IH in H2. destruct H2 as [Hev Hr].
      unfold destroyHook in H1.
      destruct (hook_destroy h) as [hook |] eqn:Hh.
      * assert (Hb : hasDestroyHook h = true)
          by (unfold hasDestroyHook; now rewrite Hh).
        rewrite Hb. apply call_run in H1. destruct H1 as [_ ->]. split.
        -- intros ev [<- | Hin]; eauto.
        -- intros Hret. rewrite (Hr Hret). destruct a. reflexivity.
      * assert (Hb : hasDestroyHook h = false)
          by (unfold hasDestroyHook; now rewrite Hh).
        rewrite Hb. unfold ret in H1. injection H1 as _ _ <-. split.
        -- exact Hev.
        -- exact Hr.
    + unfold destroyHook in H1.
      destruct (hook_destroy h) as [hook |]; [| discriminate].
      apply call_run in H1. destruct H1 as [_ ->]. split.
      * intros ev [<- | []]. eauto.
      * discriminate.
Qed.

Lemma destroyExtenders_run w r w' tr :
  destroyExtenders w = (r, w', tr) ->
  exists rest,
    tr = EGetCurrentExtenders (currentExtenders w) :: rest
    /\ (forall ev, In ev rest -> exists h rr, ev = EDestroy h rr)
    /\ (r = Returned tt ->
        rest = map (fun h => EDestroy h (Returned tt))
                 (filter hasDestroyHook (currentExtenders w))).
Proof.
  unfold destroyExtenders. intros H. apply bind_run in H.
  destruct H as [(hs & w1 & t1 & t2 & H1 & H2 & ->) | (e & H1 & _)];
    [| discriminate].
  unfold _getCurrentExtenders in H1. injection H1 as <- <- <-.
  exists t2. split; [reflexivity |]. apply forEach_destroy in H2. exact H2.
Qed.

(** The factories are called in order, each with the form, the stage
    UPDATE and the configuration; the first that raises ends the loop. *)
Lemma mapM_callExtender xs : forall w r w' tr,
  mapM (callExtender config node UPDATE) xs w = (r, w', tr) ->
  (forall ev, In ev tr -> exists x c rr, ev = EExtender x c rr)
  /\ (forall x c e, In (EExtender x c (Raised e)) tr -> r = Raised e)
  /\ (forall hs, r = Returned hs ->
      Forall2 (fun x h =>
                 exists c, In (EExtender x c (Returned h)) tr
                           /\ ec_form c = node /\ ec_stage c = UPDATE
                           /\ ec_config c = config) xs hs).
Proof.
  induction xs as [| x xs IH]; simpl; intros w r w' tr H.
  - unfold ret in H. injection H as <- <- <-.
    split; [intros ev [] |]. split; [intros x c e [] |].
    intros hs [= <-]. constructor.
  - apply bind_run in H.
    destruct H as [(h & w1 & t1 & t2 & H1 & H & ->) | (e & H1 & ->)].
    + unfold callExtender in H1. apply bind_run in H1.
      destruct H1 as [(els & wa & ta & tb & Ha & Hc & ->) | (e & Ha & _)];
        [| discriminate].
      unfold form_elements in Ha. injection Ha as <- <- <-.
      apply call_run in Hc. destruct Hc as [_ ->]. simpl.
      apply bind_run in H.
      destruct H as [(hs & w2 & t3 & t4 & H2 & H & ->) | (e & H2 & ->)].
      * unfold ret in H. injection H as <- <- <-. rewrite app_nil_r.
        apply IH in H2. destruct H2 as (Hev & Hraise & Hall).
        split.
        { intros ev [<- | Hin]; eauto. }
        split.
        { intros x0 c e [Heq | Hin]; [discriminate |].
          specialize (Hraise _ _ _ Hin). discriminate. }
        intros hs0 [= <-]. constructor.
        -- eexists. split; [left; reflexivity |]. auto.
        -- eapply Forall2_impl; [| exact (Hall hs eq_refl)].
           intros x0 h0 (c & Hin & Hc). exists c. split; [now right | exact Hc].
      * apply IH in H2. destruct H2 as (Hev & Hraise & _). split.
        { intros ev [<- | Hin]; eauto. }
        split; [| discriminate].
        intros x0 c e0 [Heq | Hin]; [discriminate |].
        exact (Hraise _ _ _ Hin).
    + unfold callExtender in H1. apply bind_run in H1.
      destruct H1 as [(els & wa & ta & tb & Ha & Hc & ->) | (e0 & Ha & _)];
        [| discriminate].
      unfold form_elements in Ha. injection Ha as <- <- <-.
      apply call_run in Hc. destruct Hc as [_ ->]. simpl. split.
      { intros ev [<- | []]. eauto. }
      split; [| discriminate].
      intros x0 c e0 [[= _ _ <-] | []]. reflexivity.
Qed.

(** X19: when an extender factory raises while a record that adds a
    control (and removes nothing) is processed, the callback raises that
    exception; the old extenders have been destroyed by then, but
    [_setCurrentExtenders] is never called and neither store is merged. *)
Theorem failed_remount_leaves_form_unmerged mutation w r w' tr x c e :
  processMutation config extender node mutation w = (r, w', tr) ->
  mutation_type mutation = "childList" ->
  existsb addsControl (addedNodes mutation) = true ->
  removedNodes mutation = [] ->
  In (EExtender x c (Raised e)) tr ->
  r = Raised e
  /\ In (EGetCurrentExtenders (currentExtenders w)) tr
  /\ (forall hs, ~ In (ESetCurrentExtenders hs) tr)
  /\ (forall o n, ~ In (EUpdateData o n) tr)
  /\ (forall o n, ~ In (EUpdateTouched o n) tr).
Proof.
  intros H Hty Hadd Hrm Hin. unfold processMutation in H.
  rewrite Hty, (existsb_nonempty _ _ Hadd), Hadd in H. simpl in H.
  apply bind_run in H.
  destruct H as [(u1 & w1 & t1 & t1' & H1 & H & ->) | (e0 & H1 & ->)].
  2:{ apply destroyExtenders_run in H1.
      destruct H1 as (rest & -> & Hev & _).
      destruct Hin as [Hin | Hin]; [discriminate |].
      destruct (Hev _ Hin) as (h & rr & Heq). discriminate. }
  apply destroyExtenders_run in H1. destruct H1 as (rest & -> & Hev & _).
  assert (Hin' : In (EExtender x c (Raised e)) t1').
  { in_cases Hin; try discriminate; [| exact Hin].
    destruct (Hev _ Hin) as (h & rr & Heq). discriminate. }
  clear Hin. apply bind_run in H.
  destruct H as [(u2 & w2 & t2 & t2' & H2 & H & ->) | (e0 & H2 & ->)].
  - exfalso. unfold remountExtenders in H2. apply bind_run in H2.
    destruct H2 as [(hs & wa & ta & tb & Hm & Hs & ->) | (e0 & _ & Hx)];
      [| discriminate].
    apply mapM_callExtender in Hm. destruct Hm as (Hmev & Hraise & _).
    unfold _setCurrentExtenders in Hs. inversion Hs; subst; clear Hs.
    apply bind_run in H.
    destruct H as [(dflt & w3 & t3 & t3' & H3 & H & ->) | (e0 & H3 & _)];
      [| discriminate].
    inversion H3; subst; clear H3.
    apply bind_run in H.
    destruct H as [(u4 & w4 & t4 & t4' & H4 & H & ->) | (e0 & H4 & _)];
      [| discriminate].
    unfold data_update in H4. inversion H4; subst; clear H4.
    apply bind_run in H.
    destruct H as [(u5 & w5 & t5 & t5' & H5 & H & ->) | (e0 & H5 & _)];
      [| discriminate].
    unfold touched_update in H5. inversion H5; subst; clear H5.
    unfold processRemoved in H. rewrite Hrm in H. simpl in H.
    unfold ret in H. inversion H; subst; clear H.
    in_cases Hin'; try discriminate.
    specialize (Hraise _ _ _ Hin'). discriminate.
  - unfold remountExtenders in H2. apply bind_run in H2.
    destruct H2 as [(hs & wa & ta & tb & Hm & Hs & ->) | (e1 & Hm & ->)].
    + unfold _setCurrentExtenders in Hs. discriminate.
    + apply mapM_callExtender in Hm. destruct Hm as (Hmev & Hraise & _).
      split; [specialize (Hraise _ _ _ Hin'); congruence |].
      split; [now left |].
      repeat split; intros; intros Hf; in_cases Hf; try discriminate;
        try (destruct (Hev _ Hf) as (h & rr & Heq); discriminate);
        destruct (Hmev _ Hf) as (x0 & c0 & rr & Heq); discriminate.
Qed.


End MutationMore.

(** ** Errors shown on the controls *)

Lemma getAttribute_setAttribute k v attrs :
  getAttribute k (setAttribute k v attrs) = Some v.
Proof.
  induction attrs as [| [k' v'] rest IH]; simpl.
  - now rewrite String.eqb_refl.
  - destruct (String.eqb k k') eqn:E; simpl; rewrite E; auto.
Qed.

Lemma getAttribute_setAttribute_other k k' v attrs :
  k <> k' ->
  getAttribute k (setAttribute k' v attrs) = getAttribute k attrs.
Proof.
  intros Hne. apply String.eqb_neq in Hne.
  induction attrs as [| [k0 v0] rest IH]; simpl.
  - now rewrite Hne.
  - destruct (String.eqb_spec k' k0) as [<- | Hk]; simpl.
    + now rewrite Hne.
    + destruct (String.eqb k k0); auto.
Qed.

Lemma getAttribute_removeAttribute k attrs :
  getAttribute k (removeAttribute k attrs) = None.
Proof.
  unfold removeAttribute.
  induction attrs as [| [k' v'] rest IH]; simpl; [reflexivity |].
  destruct (String.eqb k k') eqn:E; simpl; [exact IH |].
  now rewrite E.
Qed.

Lemma getAttribute_removeAttribute_other k k' attrs :
  k <> k' ->
  getAttribute k (removeAttribute k' attrs) = getAttribute k attrs.
Proof.
  intros Hne. unfold removeAttribute.
  induction attrs as [| [k0 v0] rest IH]; simpl; [reflexivity |].
  destruct (String.eqb_spec k' k0) as [<- | Hk]; simpl.
  - apply String.eqb_neq in Hne. now rewrite Hne.
  - destruct (String.eqb k k0); auto.
Qed.

Lemma removeAttribute_twice k k' attrs :
  removeAttribute k (removeAttribute k'
    (removeAttribute k (removeAttribute k' attrs)))
  = removeAttribute k (removeAttribute k' attrs).
Proof.
  unfold removeAttribute.
  induction attrs as [| [k0 v0] rest IH]; simpl; [reflexivity |].
  destruct (String.eqb k' k0) eqn:E'; simpl; [exact IH |].
  destruct (String.eqb k k0) eqn:E; simpl; [exact IH |].
  rewrite E'. simpl. rewrite E. simpl. now rewrite IH.
Qed.

Lemma sameMessage_eq a b : sameMessage a b = true <-> a = b.
Proof.
  destruct a as [x |], b as [y |]; simpl; split; try congruence.
  - intros H. apply String.eqb_eq in H. congruence.
  - intros [= ->]. apply String.eqb_refl.
Qed.

Section ReflectionFacts.

Context {common : Common}.
Variable _get : JsValue -> Path -> JsValue.

(** What the subscriber does to an element it takes up: nothing when the
    message is the one the element carries; otherwise a message that is
    not empty is set together with [aria-invalid], and for any other the
    two attributes are removed. *)
Lemma reflectError_cases errs el :
  isFormControl el = true -> name el <> EmptyString ->
  let message := validationMessage (_get errs (getPath el)) in
  (message = dataset_felteValidationMessage el
   /\ reflectError _get errs el = el)
  \/ (message <> dataset_felteValidationMessage el
      /\ exists c rest,
           message = Some (String c rest)
           /\ reflectError _get errs el
              = withAttributes el
                  (setAttribute "aria-invalid" "true"
                     (setAttribute "data-felte-validation-message"
                        (String c rest) (attributes el))))
  \/ (message <> dataset_felteValidationMessage el
      /\ (message = None \/ message = Some EmptyString)
      /\ reflectError _get errs el
         = withAttributes el
             (removeAttribute "aria-invalid"
                (removeAttribute "data-felte-validation-message"
                   (attributes el)))).
Proof.
  intros Hfc Hname. cbv zeta. unfold reflectError.
  apply String.eqb_neq in Hname. rewrite Hfc, Hname. simpl.
  destruct (sameMessage _ _) eqn:Hs.
  - left. apply sameMessage_eq in Hs. auto.
  - assert (Hne : validationMessage (_get errs (getPath el))
                  <> dataset_felteValidationMessage el).
    { intros Heq. apply sameMessage_eq in Heq. congruence. }
    destruct (validationMessage (_get errs (getPath el)))
      as [[| c rest] |] eqn:Hm.
    + right. right. auto.
    + right. left. split; [exact Hne |]. exists c, rest. auto.
    + right. right. auto.
Qed.

(** Whatever it does, the subscriber writes those two attributes only. *)
Lemma reflectError_attributes errs el :
  sameOtherAttributes (attributes (reflectError _get errs el))
    (attributes el).
Proof.
  destruct (isFormControl el) eqn:Hfc.
  2:{ assert (H : reflectError _get errs el = el)
        by (unfold reflectError; rewrite Hfc; reflexivity).
      rewrite H. intros k _ _. reflexivity. }
  destruct (String.eqb_spec (name el) EmptyString) as [Hn | Hn].
  { assert (H : reflectError _get errs el = el)
      by (unfold reflectError; rewrite Hfc, Hn; reflexivity).
    rewrite H. intros k _ _. reflexivity. }
  destruct (reflectError_cases errs el Hfc Hn)
    as [[_ ->] | [(_ & c & rest & _ & ->) | (_ & _ & ->)]].
  - intros k _ _. reflexivity.
  - intros k Hk1 Hk2. simpl.
    rewrite getAttribute_setAttribute_other by exact Hk2.
    apply getAttribute_setAttribute_other. exact Hk1.
  - intros k Hk1 Hk2. simpl.
    rewrite getAttribute_removeAttribute_other by exact Hk2.
    apply getAttribute_removeAttribute_other. exact Hk1.
Qed.

(** X21: the subscriber changes nothing on an element that is no form
    control or has no name; on any element it leaves the node name, type,
    name, value and checked state and every attribute other than the
    validation message and [aria-invalid] as they are. *)
Theorem reflectError_frame errs el :
  (isFormControl el = false \/ name el = EmptyString ->
   reflectError _get errs el = el)
  /\ sameOtherAttributes (attributes (reflectError _get errs el))
       (attributes el)
  /\ nodeName (reflectError _get errs el) = nodeName el
  /\ type (reflectError _get errs el) = type el
  /\ name (reflectError _get errs el) = name el
  /\ value (reflectError _get errs el) = value el
  /\ checked (reflectError _get errs el) = checked el.
Proof.
  split.
  { intros [H | H]; unfold reflectError; rewrite H; simpl;
      [reflexivity | now rewrite orb_true_r]. }
  split; [apply reflectError_attributes |].
  destruct (isFormControl el) eqn:Hfc.
  2:{ assert (H : reflectError _get errs el = el)
        by (unfold reflectError; rewrite Hfc; reflexivity).
      rewrite H. repeat split. }
  destruct (String.eqb_spec (name el) EmptyString) as [Hn | Hn].
  { assert (H : reflectError _get errs el = el)
      by (unfold reflectError; rewrite Hfc, Hn; reflexivity).
    rewrite H. repeat split. }
  destruct (reflectError_cases errs el Hfc Hn)
    as [[_ ->] | [(_ & c & rest & _ & ->) | (_ & _ & ->)]];
    repeat split.
Qed.

(** X22: after the subscriber, a named form control whose field has a
    message that is not empty carries that message, and [aria-invalid] is
    "true" if the message is new; one whose field has no message, or an
    empty one, where it carried something else, carries neither the
    message nor [aria-invalid]; one whose message is unchanged is not
    touched. *)
Theorem reflectError_shows_message errs el :
  isFormControl el = true -> name el <> EmptyString ->
  let message := validationMessage (_get errs (getPath el)) in
  let el' := reflectError _get errs el in
  (message = dataset_felteValidationMessage el -> el' = el)
  /\ match message with
     | Some (String c rest) =>
         dataset_felteValidationMessage el' = message
         /\ (message <> dataset_felteValidationMessage el ->
             aria_invalid el' = Some "true")
     | _ =>
         message <> dataset_felteValidationMessage el ->
         dataset_felteValidationMessage el' = None
         /\ aria_invalid el' = None
     end.
Proof.
  intros Hfc Hn. cbv zeta.
  destruct (reflectError_cases errs el Hfc Hn)
    as [[Heq ->] | [(Hne & c & rest & Hm & ->) | (Hne & Hm & ->)]].
  - split; [reflexivity |]. rewrite Heq.
    destruct (dataset_felteValidationMessage el) as [[| c rest] |];
      try congruence.
    split; [reflexivity | congruence].
  - split; [congruence |]. rewrite Hm.
    unfold dataset_felteValidationMessage, aria_invalid. simpl. split.
    + rewrite getAttribute_setAttribute_other by discriminate.
      apply getAttribute_setAttribute.
    + intros _. apply getAttribute_setAttribute.
  - split; [congruence |].
    assert (Hgoal : dataset_felteValidationMessage
                      (withAttributes el
                         (removeAttribute "aria-invalid"
                            (removeAttribute "data-felte-validation-message"
                               (attributes el)))) = None
                    /\ aria_invalid
                         (withAttributes el
                            (removeAttribute "aria-invalid"
                               (removeAttribute
                                  "data-felte-validation-message"
                                  (attributes el)))) = None).
    { unfold dataset_felteValidationMessage, aria_invalid. simpl. split.
      - rewrite getAttribute_removeAttribute_other by discriminate.
        apply getAttribute_removeAttribute.
      - apply getAttribute_removeAttribute. }
    destruct Hm as [Hm | Hm]; rewrite Hm; intros _; exact Hgoal.
Qed.

(** X23: running the subscriber again on what it produced changes nothing
    more, as long as the helpers do not read the two attributes it
    writes. *)
Theorem reflectError_idempotent errs el :
  (forall a, sameOtherAttributes a (attributes el) ->
             isFormControl (withAttributes el a) = isFormControl el) ->
  (forall a, sameOtherAttributes a (attributes el) ->
             getPath (withAttributes el a) = getPath el) ->
  reflectError _get errs (reflectError _get errs el)
  = reflectError _get errs el.
Proof.
  intros Hfc' Hpath'.
  destruct (isFormControl el) eqn:Hfc.
  2:{ assert (H : reflectError _get errs el = el)
        by (unfold reflectError; rewrite Hfc; reflexivity).
      now rewrite !H. }
  destruct (String.eqb_spec (name el) EmptyString) as [Hn | Hn].
  { assert (H : reflectError _get errs el = el)
      by (unfold reflectError; rewrite Hfc, Hn; reflexivity).
    now rewrite !H. }
  assert (Hsame := reflectError_attributes errs el).
  destruct (reflectError_cases errs el Hfc Hn)
    as [[_ Heq] | [(_ & c & rest & Hm & Heq) | (_ & Hm & Heq)]].
  - now rewrite !Heq.
  - rewrite Heq in Hsame |- *. simpl in Hsame.
    set (a := setAttribute "aria-invalid" "true"
                (setAttribute "data-felte-validation-message"
                   (String c rest) (attributes el))) in *.
    unfold reflectError at 1.
    rewrite (Hfc' a Hsame), (Hpath' a Hsame). simpl name.
    apply String.eqb_neq in Hn. rewrite Hn. simpl. rewrite Hm.
    unfold dataset_felteValidationMessage. simpl attributes. unfold a.
    rewrite getAttribute_setAttribute_other by discriminate.
    rewrite getAttribute_setAttribute. unfold sameMessage.
    now rewrite String.eqb_refl.
  - rewrite Heq in Hsame |- *. simpl in Hsame.
    set (a := removeAttribute "aria-invalid"
                (removeAttribute "data-felte-validation-message"
                   (attributes el))) in *.
    unfold reflectError at 1.
    rewrite (Hfc' a Hsame), (Hpath' a Hsame). simpl name.
    apply String.eqb_neq in Hn. rewrite Hn. simpl.
    unfold dataset_felteValidationMessage. simpl attributes.
    assert (Hd : getAttribute "data-felte-validation-message" a = None).
    { unfold a. rewrite getAttribute_removeAttribute_other by discriminate.
      apply getAttribute_removeAttribute. }
    rewrite Hd.
    destruct Hm as [Hm | Hm]; rewrite Hm; simpl; [reflexivity |].
    unfold withAttributes. simpl. unfold a.
    now rewrite removeAttribute_twice.
Qed.

End ReflectionFacts.

(** ** The default submit action *)

Section DefaultSubmitFacts.

Context {common : Common}.
Variable host : Host.
Variable fetch : Request -> Ext JsValue.
Variable searchParam : option string -> string -> option string.
Variable formOf : World -> FormNode -> HTMLFormElement.
Variable config : FormConfig.

(** The action the handler calls is the one it resolved at the start. *)
Lemma handleSubmit_action (h : Host) altConfig event w r w' tr act d ctx ro :
  handleSubmit (host := h) config altConfig event w = (r, w', tr) ->
  In (EOnSubmit act d ctx ro) tr ->
  resolveOnSubmit config altConfig (formNode w) = Some act.
Proof.
  intros H Hin.
  destruct (resolveOnSubmit config altConfig (formNode w)) as [act0 |] eqn:Hact.
  2:{ rewrite (handleSubmit_unresolved _ _ event _ Hact) in H.
      injection H as <- <- <-. destruct Hin. }
  destruct (handleSubmit_run _ _ _ _ _ _ _ _ H Hact) as (rv & w1 & Hv & Hrun).
  destruct rv as [errs | e0].
  2:{ destruct Hrun as (_ & _ & ->). in_cases Hin; discriminate. }
  destruct Hrun as (rw & w2 & Hw & Hrun).
  destruct rw as [ws | e0].
  2:{ destruct Hrun as (_ & _ & ->). in_cases Hin; discriminate. }
  cbv zeta in Hrun.
  destruct Hrun as (w3 & rest & -> & _ & _ & Hrest & Hrun).
  assert (Hin' : In (EOnSubmit act d ctx ro) rest).
  { in_cases Hin; try discriminate. exact Hin. }
  clear Hin.
  destruct (truthy errs && deepSome errs truthy).
  { destruct Hrun as (rn & wn & tn & Hn & Hrn).
    assert (Htn := notify_events _ _ _ _ _ _ Hn).
    destruct rn as [u | e0]; destruct Hrn as (_ & _ & ->);
      in_cases Hin'; try discriminate; apply Htn in Hin'; discriminate. }
  apply submit_run in Hrun.
  destruct Hrun as (_ & ro0 & wa & body & _ & -> & Hbody & _).
  in_cases Hin'; try discriminate.
  - injection Hin' as -> _ _ _. reflexivity.
  - apply Hbody in Hin'. discriminate.
Qed.

(** X24: with no [onSubmit] configured or passed, the action the handler
    runs is the default one for the bound form: it fetches the form's
    action once.  A response that is ok makes the handler return; one
    that is not makes the action raise a [FelteSubmitError] that carries
    the response, and a rejected fetch raises its own reason; with no
    [onError] either is what the handler raises. *)
Theorem default_submit_posts_form altConfig event w r w' tr act d ctx ro :
  handleSubmit (host := withDefaultSubmit host fetch searchParam formOf)
    config altConfig event w = (r, w', tr) ->
  resolve config altConfig onSubmit = None ->
  In (EOnSubmit act d ctx ro) tr ->
  exists n wi,
    formNode w = Some n /\ act = DefaultSubmit n
    /\ url (requestOf searchParam (formOf wi n)) = action (formOf wi n)
    /\ match fetch (requestOf searchParam (formOf wi n)) wi with
       | (Returned response, _) =>
           if response_ok response then ro = Returned tt /\ r = Returned tt
           else
             let e := FelteSubmitError
                        "An error occurred while submitting the form"
                        response in
             ro = Raised e
             /\ (resolve config altConfig onError = None -> r = Raised e)
       | (Raised e, _) =>
           ro = Raised e
           /\ (resolve config altConfig onError = None -> r = Raised e)
       end.
Proof.
  intros H Hnone Hin.
  assert (Hact := handleSubmit_action _ _ _ _ _ _ _ _ _ _ _ H Hin).
  unfold resolveOnSubmit in Hact. rewrite Hnone in Hact. simpl in Hact.
  destruct (formNode w) as [n |] eqn:Hn; [| discriminate].
  simpl in Hact. injection Hact as <-.
  destruct (handleSubmit_reaches_submit
              (host := withDefaultSubmit host fetch searchParam formOf)
              _ _ _ _ _ _ _ _ _ _ _ H Hin)
    as (head & body & wi & w1 & _ & _ & _ & Hcall & _ & Hro).
  exists n, wi. split; [reflexivity |]. split; [reflexivity |].
  split; [reflexivity |].
  simpl in Hcall. unfold defaultOnSubmit in Hcall.
  destruct (fetch (requestOf searchParam (formOf wi n)) wi)
    as [[response | e] w2].
  - destruct (response_ok response).
    + injection Hcall as <- _. split; [reflexivity | apply Hro].
    + injection Hcall as <- _. cbv zeta. split; [reflexivity |].
      intros Hno. rewrite Hno in Hro. apply Hro.
  - injection Hcall as <- _. split; [reflexivity |].
    intros Hno. rewrite Hno in Hro. apply Hro.
Qed.

(** X25: the request of the default action.  A form that holds a file
    input is sent as [multipart/form-data] with a [FormData] body whatever
    its [enctype]; any form is sent with a [URLSearchParams] body exactly
    when it holds no file input and its [enctype] is
    [application/x-www-form-urlencoded].  The method is the [_method] of
    the action's query when that is not empty, the form's method
    otherwise. *)
Theorem default_request_encoding form :
  let request := requestOf searchParam form in
  (hasFileInput form = true ->
   contentType request = "multipart/form-data"
   /\ body request = FormDataBody form)
  /\ (body request = URLSearchParamsBody form
      <-> hasFileInput form = false
          /\ enctype form = "application/x-www-form-urlencoded")
  /\ (hasFileInput form = false -> contentType request = enctype form)
  /\ (forall m,
        searchParam (nth_error (split "?"%char EmptyString (action form)) 1)
          "_method" = Some m ->
        request_method request
        = if String.eqb m EmptyString then method form else m)
  /\ (searchParam (nth_error (split "?"%char EmptyString (action form)) 1)
        "_method" = None ->
      request_method request = method form).
Proof.
  cbv zeta. unfold requestOf. simpl.
  split; [| split; [| split; [| split]]].
  - intros ->. simpl. auto.
  - destruct (hasFileInput form); simpl.
    + split; [discriminate | intros [? _]; discriminate].
    + destruct (String.eqb_spec (enctype form)
                  "application/x-www-form-urlencoded") as [He | He].
      * split; auto.
      * split; [discriminate | intros [_ ?]; contradiction].
  - intros ->. reflexivity.
  - intros m ->. destruct m; reflexivity.
  - intros ->. reflexivity.
Qed.

End DefaultSubmitFacts.

(** ** The runs above, on the sign-up form *)

(** A submit event on the sign-up form is prevented. *)
Lemma preventDefault_iff_resolved_witness :
  let run := handleSubmit (common := Demo.common) (host := Demo.host)
               Demo.cfgRequired None (Some Demo.submitEvent)
               (Demo.world Demo.blank) in
  In EPreventDefault (snd run).
Proof.
  intros run.
  apply (proj1 (preventDefault_iff_resolved
                  (common := Demo.common) (host := Demo.host)
                  Demo.cfgRequired None (Some Demo.submitEvent)
                  (Demo.world Demo.blank)
                  (fst (fst run)) (snd (fst run)) (snd run)
                  (triple_eta run))).
  split; [discriminate | vm_compute; discriminate].
Defined.

(** The warning set of the sign-up form runs on the filled form, after the
    validation, which found nothing. *)
Lemma validations_run_on_snapshot_witness :
  let run := handleSubmit (common := Scenes.common) (host := Demo.host)
               Scenes.cfgWarned None None (Demo.world Demo.filled) in
  exists errs,
    In (EExecuteValidation Validate Demo.filled None (Returned errs))
      (snd run).
Proof.
  intros run.
  assert (Hin : In (EExecuteValidation Warn Demo.filled (Some 4)
                      (Returned (VObj [("name", VStr "rather short")])))
                  (snd run))
    by (vm_compute; tauto).
  exact (proj2 (proj2 (validations_run_on_snapshot
                         (common := Scenes.common) (host := Demo.host)
                         Scenes.cfgWarned None None (Demo.world Demo.filled)
                         (fst (fst run)) (snd (fst run)) (snd run)
                         Warn Demo.filled (Some 4) _
                         (triple_eta run) Hin)) eq_refl).
Defined.


(** [onError] 21 returns [undefined]: the network failure goes unnoticed. *)
Lemma falsy_onError_swallows_failure_witness :
  let run := handleSubmit (common := Demo.common) (host := Demo.host)
               Scenes.cfgSwallowed None None (Demo.world Demo.filled) in
  fst (fst run) = Returned tt
  /\ isSubmitting (stores (snd (fst run))) = false.
Proof.
  intros run.
  assert (Hin : In (EOnSubmit (UserSubmit 11) Demo.filled
                      (contextAt (common := Demo.common) Scenes.cfgSwallowed
                         (Demo.world Demo.filled) (Some 0) None)
                      (Raised (VStr "network down"))) (snd run))
    by (vm_compute; tauto).
  assert (Herr : In (EOnError 21 (VStr "network down") (Returned VUndefined))
                   (snd run))
    by (vm_compute; tauto).
  destruct (falsy_onError_swallows_failure
              (common := Demo.common) (host := Demo.host)
              Scenes.cfgSwallowed None None (Demo.world Demo.filled)
              (fst (fst run)) (snd (fst run)) (snd run)
              (UserSubmit 11) Demo.filled _ (VStr "network down")
              21 VUndefined
              (triple_eta run) Hin Herr eq_refl) as (Hr & Hs & _).
  split; assumption.
Defined.

(** [onError] 22 fails: its failure is what the caller sees. *)
Lemma onError_raise_replaces_failure_witness :
  let run := handleSubmit (common := Demo.common) (host := Scenes.host)
               Scenes.cfgBroken None None (Demo.world Demo.filled) in
  fst (fst run) = Raised (VStr "handler failed")
  /\ isSubmitting (stores (snd (fst run))) = false.
Proof.
  intros run.
  assert (Hin : In (EOnSubmit (UserSubmit 11) Demo.filled
                      (contextAt (common := Demo.common) Scenes.cfgBroken
                         (Demo.world Demo.filled) (Some 0) None)
                      (Raised (VStr "network down"))) (snd run))
    by (vm_compute; tauto).
  assert (Herr : In (EOnError 22 (VStr "network down")
                       (Raised (VStr "handler failed"))) (snd run))
    by (vm_compute; tauto).
  exact (onError_raise_replaces_failure
           (common := Demo.common) (host := Scenes.host)
           Scenes.cfgBroken None None (Demo.world Demo.filled)
           (fst (fst run)) (snd (fst run)) (snd run)
           (UserSubmit 11) Demo.filled _ (VStr "network down")
           22 (VStr "handler failed")
           (triple_eta run) Hin Herr).
Defined.

(** Submit action 10 succeeds. *)
Lemma successful_submit_only_releases_witness :
  let run := handleSubmit (common := Demo.common) (host := Demo.host)
               Scenes.cfgPlain None None (Demo.world Demo.filled) in
  fst (fst run) = Returned tt
  /\ isSubmitting (stores (snd (fst run))) = false.
Proof.
  intros run.
  assert (Hin : In (EOnSubmit (UserSubmit 10) Demo.filled
                      (contextAt (common := Demo.common) Scenes.cfgPlain
                         (Demo.world Demo.filled) (Some 0) None)
                      (Returned tt)) (snd run))
    by (vm_compute; tauto).
  destruct (successful_submit_only_releases
              (common := Demo.common) (host := Demo.host)
              Scenes.cfgPlain None None (Demo.world Demo.filled)
              (fst (fst run)) (snd (fst run)) (snd run)
              (UserSubmit 10) Demo.filled _ tt
              (triple_eta run) Hin) as (Hr & Hs & _).
  split; assumption.
Defined.

(** The failing submission sets [isSubmitting] and never the dirty flag. *)
Lemma submit_leaves_data_and_extenders_witness :
  let run := handleSubmit (common := Demo.common) (host := Demo.host)
               Demo.cfgRecovering None None (Demo.world Demo.filled) in
  In (ESetIsSubmitting true) (snd run)
  /\ ~ In (ESetIsDirty true) (snd run).
Proof.
  intros run. split; [vm_compute; tauto |].
  intros Hin.
  exact (submit_leaves_data_and_extenders
           (common := Demo.common) (host := Demo.host)
           Demo.cfgRecovering None None (Demo.world Demo.filled)
           (fst (fst run)) (snd (fst run)) (snd run)
           (triple_eta run) (ESetIsDirty true) Hin).
Defined.

(** The blank name is refused: the hooks of 30 and 31 are called, in that
    order, and nothing but the release follows. *)
Lemma hooks_notified_once_in_order_witness :
  let run := handleSubmit (common := Demo.common) (host := Demo.host)
               Demo.cfgRequired None (Some Demo.submitEvent)
               (Demo.world Demo.blank) in
  let errs := VObj [("name", VStr "required")] in
  exists head hs,
    snd run
    = head
      ++ EGetCurrentExtenders hs
         :: map (fun h => EOnSubmitError h Demo.blank errs (Returned tt))
              (filter (hasSubmitErrorHook (host := Demo.host)) hs)
      ++ [ESetIsSubmitting false]
    /\ In (ESetErrors errs) head
    /\ forall ev, In ev head -> beforeDecision ev = true.
Proof.
  intros run errs.
  assert (Hrun : run = (Returned tt, snd (fst run), snd run))
    by (vm_compute; reflexivity).
  assert (Hin : In (EExecuteValidation Validate Demo.blank (Some 1)
                      (Returned errs)) (snd run))
    by (vm_compute; tauto).
  exact (hooks_notified_once_in_order
           (common := Demo.common) (host := Demo.host)
           Demo.cfgRequired None (Some Demo.submitEvent)
           (Demo.world Demo.blank) (snd (fst run)) (snd run)
           Demo.blank (Some 1) errs Hrun Hin eq_refl eq_refl).
Defined.

(** Typing "Ada" into the name input. *)
Lemma handleInput_writes_text_only_witness :
  let run := handleInput (common := Demo.common) (host := Demo.host)
               Demo.cfgEmpty Scenes.getInputTextOrNumber Scenes.typing
               (Demo.world Demo.blank) in
  exists d0,
    data (stores (snd (fst run)))
    = _set (Common := Demo.common) d0 ["name"] (VStr "Ada")
    /\ isDirty (stores (snd (fst run))) = true.
Proof.
  intros run.
  assert (Hrun := handleInput_writes_text_only
                    (common := Demo.common) (host := Demo.host)
                    Demo.cfgEmpty Scenes.getInputTextOrNumber Scenes.typing
                    (Demo.world Demo.blank)
                    (fst (fst run)) (snd (fst run)) (snd run)
                    (triple_eta run)).
  destruct (Hrun eq_refl) as (d0 & _ & Hd & Hdirty).
  exists d0. split; assumption.
Defined.

(** Leaving the name input, with touching on blur configured. *)
Lemma handleBlur_only_touches_witness :
  let w := Demo.world Demo.blank in
  let run := handleBlur (common := Demo.common) (host := Demo.host)
               Scenes.cfgTouching Scenes.typing w in
  (fst (fst run) = Returned tt /\ snd (fst run) = w /\ snd run = [])
  \/ (exists t b,
        target Scenes.typing = Some t
        /\ boundTarget (common := Demo.common) t = true
        /\ read (touchTriggerEvents Scenes.cfgTouching) = Some b
        /\ blur b = true
        /\ helpers_setTouched (Host := Demo.host)
             (getPath (Common := Demo.common) t) true w
           = (fst (fst run), snd (fst run))
        /\ snd run
           = [EHelperSetTouched (getPath (Common := Demo.common) t) true
                (fst (fst run))]).
Proof.
  intros w run.
  exact (handleBlur_only_touches
           (common := Demo.common) (host := Demo.host)
           Scenes.cfgTouching Scenes.typing w
           (fst (fst run)) (snd (fst run)) (snd run) (triple_eta run)).
Defined.

(** Ticking the lone checkbox marks the form dirty and does not touch
    [isSubmitting]. *)
Lemma handleChange_writes_only_dirty_and_data_witness :
  let run := handleChange (common := Demo.common) (host := Demo.host)
               Scenes.cfgTouching 0 Scenes.ticking (Demo.world Demo.blank) in
  In (ESetIsDirty true) (snd run)
  /\ ~ In (ESetIsSubmitting true) (snd run).
Proof.
  intros run. split; [vm_compute; tauto |].
  intros Hin.
  apply (handleChange_writes_only_dirty_and_data
           (common := Demo.common) (host := Demo.host)
           Scenes.cfgTouching 0 Scenes.ticking (Demo.world Demo.blank)
           (fst (fst run)) (snd (fst run)) (snd run) (triple_eta run))
    in Hin.
  discriminate Hin.
Defined.

(** A change event on the name input, nothing being configured. *)
Lemma handleChange_leaves_text_alone_witness :
  let run := handleChange (common := Demo.common) (host := Demo.host)
               Demo.cfgEmpty 0 Scenes.typing (Demo.world Demo.blank) in
  fst (fst run) = Returned tt
  /\ snd (fst run) = Demo.world Demo.blank
  /\ snd run = [].
Proof.
  intros run.
  exact (proj2 (handleChange_leaves_text_alone
                  (common := Demo.common) (host := Demo.host)
                  Demo.cfgEmpty 0 Scenes.typing Scenes.typed
                  (Demo.world Demo.blank)
                  (fst (fst run)) (snd (fst run)) (snd run)
                  eq_refl eq_refl eq_refl (triple_eta run)) eq_refl).
Defined.

(** Ticking the lone checkbox. *)
Lemma handleChange_marks_dirty_witness :
  let run := handleChange (common := Demo.common) (host := Demo.host)
               Scenes.cfgTouching 0 Scenes.ticking (Demo.world Demo.blank) in
  isDirty (stores (snd (fst run))) = true
  /\ In (ESetIsDirty true) (snd run).
Proof.
  intros run.
  assert (Hrun : run = (Returned tt, snd (fst run), snd run))
    by (vm_compute; reflexivity).
  exact (handleChange_marks_dirty
           (common := Demo.common) (host := Demo.host)
           Scenes.cfgTouching 0 Scenes.ticking Demo.subscribe
           (Demo.world Demo.blank) (snd (fst run)) (snd run)
           eq_refl eq_refl eq_refl Hrun).
Defined.

(** A checkbox whose index reads "first". *)
Lemma checkbox_nan_index_writes_nothing_witness :
  setCheckboxValues (common := Demo.common) 0 Scenes.misindexed
    (Demo.world Demo.blank)
  = (Returned tt, Demo.world Demo.blank, []).
Proof.
  exact (checkbox_nan_index_writes_nothing
           (common := Demo.common) 0 Scenes.misindexed
           (Demo.world Demo.blank) eq_refl).
Defined.

(** An upload for several files, none chosen. *)
Lemma file_input_without_selection_witness :
  let w := Demo.world Demo.blank in
  let d := _set (Common := Demo.common) Demo.blank ["avatar"] (VArr []) in
  setFileValue (common := Demo.common) Scenes.upload w
  = (Returned tt, with_stores (put_data d) w, [EUpdateData Demo.blank d]).
Proof.
  exact (file_input_without_selection
           (common := Demo.common) Scenes.upload (Demo.world Demo.blank)
           (or_introl eq_refl)).
Defined.

(** The e-mail input goes, the nickname is to be kept. *)
Lemma unsetTaggedForRemove_unsets_last_first_witness :
  let run := unsetTaggedForRemove (common := Demo.common)
               [Demo.email; Demo.nickname] (Demo.world Demo.filled) in
  fst (fst run) = Returned tt
  /\ currentExtenders (snd (fst run)) = [30; 32; 31]
  /\ List.length (snd run) = 4.
Proof.
  intros run.
  destruct (unsetTaggedForRemove_unsets_last_first
              (common := Demo.common)
              [Demo.email; Demo.nickname] (Demo.world Demo.filled)
              (fst (fst run)) (snd (fst run)) (snd run) (triple_eta run))
    as (Hr & _ & He & Hl).
  split; [exact Hr |]. split; [exact He | exact Hl].
Defined.

(** An attribute change, and the e-mail row replaced by a hint. *)
Lemma inert_batch_changes_nothing_witness :
  mutationCallback (common := Demo.common) (host := Demo.host)
    Demo.cfgEmpty [40] 0 [Scenes.attributeChanged; Scenes.hintAdded]
    (Demo.world Demo.filled)
  = (Returned tt, Demo.world Demo.filled, []).
Proof.
  exact (inert_batch_changes_nothing
           (common := Demo.common) (host := Demo.host)
           Demo.cfgEmpty [40] 0 [Scenes.attributeChanged; Scenes.hintAdded]
           (Demo.world Demo.filled) eq_refl).
Defined.

(** The e-mail row is added and factory 41 fails. *)
Lemma failed_remount_leaves_form_unmerged_witness :
  let run := processMutation (common := Demo.common) (host := Scenes.host)
               Demo.cfgEmpty [40; 41] 0 Demo.rowAdded
               (Demo.world Demo.filled) in
  fst (fst run) = Raised (VStr "extender failed")
  /\ In (EGetCurrentExtenders [30; 32; 31]) (snd run).
Proof.
  intros run.
  assert (Hin : In (EExtender 41
                      (mkExtenderContext 0 UPDATE
                         (filter (isFormControl (Common := Demo.common))
                            (elements Demo.signup))
                         Demo.cfgEmpty)
                      (Raised (VStr "extender failed"))) (snd run))
    by (vm_compute; tauto).
  destruct (failed_remount_leaves_form_unmerged
              (common := Demo.common) (host := Scenes.host)
              Demo.cfgEmpty [40; 41] 0 Demo.rowAdded (Demo.world Demo.filled)
              (fst (fst run)) (snd (fst run)) (snd run) 41 _
              (VStr "extender failed")
              (triple_eta run) eq_refl eq_refl eq_refl Hin)
    as (Hr & Hg & _).
  split; [exact Hr | exact Hg].
Defined.


(** The name input gets the message of its field. *)
Lemma reflectError_shows_message_witness :
  let errs := VObj [("name", VStr "required")] in
  let el' := reflectError (common := Demo.common) Scenes.get errs
               Scenes.typed in
  dataset_felteValidationMessage el' = Some "required"
  /\ aria_invalid el' = Some "true".
Proof.
  intros errs el'.
  assert (Hname : name Scenes.typed <> EmptyString)
    by (vm_compute; discriminate).
  destruct (proj2 (reflectError_shows_message
                     (common := Demo.common) Scenes.get errs Scenes.typed
                     eq_refl Hname)) as [Hd Ha].
  split; [exact Hd |].
  apply Ha. vm_compute. discriminate.
Defined.

(** The message of the name input is withdrawn, once. *)
Lemma reflectError_idempotent_witness :
  let once := reflectError (common := Demo.common) Scenes.get (VObj [])
                Scenes.flagged in
  reflectError (common := Demo.common) Scenes.get (VObj []) once = once.
Proof.
  apply (reflectError_idempotent
           (common := Demo.common) Scenes.get (VObj []) Scenes.flagged
           (fun a _ => eq_refl)).
  intros a Hsame.
  assert (Hindex : getAttribute "data-felte-index" a
                   = getAttribute "data-felte-index"
                       (attributes Scenes.flagged))
    by (apply Hsame; discriminate).
  cbv [getPath Demo.common FelteCommon.common FelteCommon.getPath
       FelteCommon.getIndex hasAttribute dataset_felteIndex
       withAttributes attributes name].
  rewrite Hindex. reflexivity.
Defined.

(** The sign-up form has no [onSubmit]: it is posted, the server answers
    500 and the handler raises the error that carries the answer. *)
Lemma default_submit_posts_form_witness :
  let run := handleSubmit (common := Demo.common) (host := Scenes.posting)
               Demo.cfgEmpty None None (Demo.world Demo.filled) in
  fst (fst run)
  = Raised (FelteSubmitError "An error occurred while submitting the form"
              Scenes.serverError).
Proof.
  intros run.
  assert (Hin : In (EOnSubmit (DefaultSubmit 0) Demo.filled
                      (contextAt (common := Demo.common) Demo.cfgEmpty
                         (Demo.world Demo.filled) (Some 0) None)
                      (Raised
                         (FelteSubmitError
                            "An error occurred while submitting the form"
                            Scenes.serverError))) (snd run))
    by (vm_compute; tauto).
  destruct (default_submit_posts_form
              (common := Demo.common) Demo.host Scenes.fetch
              Scenes.searchParam (fun _ _ => Scenes.signupForm)
              Demo.cfgEmpty None None (Demo.world Demo.filled)
              (fst (fst run)) (snd (fst run)) (snd run)
              (DefaultSubmit 0) Demo.filled _ _
              (triple_eta run) eq_refl Hin)
    as (n & wi & _ & _ & _ & Hf).
  destruct Hf as [_ Hr]. exact (Hr eq_refl).
Defined.

(** ** Destroying the extenders *)

Section DestroyMore.

Context {common : Common} {host : Host}.

Lemma forEach_destroy_raised hs : forall w e w' tr,
  forEach destroyHook hs w = (Raised e, w', tr) ->
  exists before h after,
    hs = before ++ h :: after
    /\ tr = map (fun h => EDestroy h (Returned tt))
              (filter hasDestroyHook before)
            ++ [EDestroy h (Raised e)].
Proof.
  induction hs as [| h hs IH]; simpl; intros w e w' tr H.
  - unfold ret in H. discriminate.
  - apply bind_run in H.
    destruct H as [(a & w1 & t1 & t2 & H1 & H2 & ->) | (x & H1 & Hx)].
    + apply IH in H2. destruct H2 as (before & h' & after & -> & ->).
      exists (h :: before), h', after. split; [reflexivity |].
      unfold destroyHook in H1. simpl.
      destruct (hook_destroy h) as [hook |] eqn:Hh.
      * assert (Hb : hasDestroyHook h = true)
          by (unfold hasDestroyHook; now rewrite Hh).
        rewrite Hb. apply call_run in H1. destruct H1 as [_ ->].
        destruct a. reflexivity.
      * assert (Hb : hasDestroyHook h = false)
          by (unfold hasDestroyHook; now rewrite Hh).
        rewrite Hb. unfold ret in H1. injection H1 as _ _ <-. reflexivity.
    + injection Hx as <-. exists [], h, hs. split; [reflexivity |].
      unfold destroyHook in H1.
      destruct (hook_destroy h) as [hook |]; [| discriminate].
      apply call_run in H1. destruct H1 as [_ ->]. reflexivity.
Qed.

(** X26: destroying the extenders (when the action is destroyed, and
    before each remount) calls the [destroy] hook of each current extender
    that has one, once, in order.  A hook that raises ends the loop: its
    exception is what the caller gets and the extenders after it are not
    destroyed. *)
Theorem destroy_stops_at_first_failure w r w' tr :
  destroyExtenders w = (r, w', tr) ->
  match r with
  | Returned _ =>
      tr = EGetCurrentExtenders (currentExtenders w)
           :: map (fun h => EDestroy h (Returned tt))
                (filter hasDestroyHook (currentExtenders w))
  | Raised e =>
      exists before h after,
        currentExtenders w = before ++ h :: after
        /\ tr = EGetCurrentExtenders (currentExtenders w)
                :: map (fun h => EDestroy h (Returned tt))
                     (filter hasDestroyHook before)
                ++ [EDestroy h (Raised e)]
  end.
Proof.
  unfold destroyExtenders. intros H. apply bind_run in H.
  destruct H as [(hs & w1 & t1 & t2 & H1 & H2 & ->) | (e & H1 & _)];
    [| discriminate].
  unfold _getCurrentExtenders in H1. injection H1 as <- <- <-.
  destruct r as [u | e].
  - destruct u. apply forEach_destroy in H2.
    destruct H2 as [_ Hr]. rewrite (Hr eq_refl). reflexivity.
  - apply forEach_destroy_raised in H2.
    destruct H2 as (before & h & after & Hhs & ->).
    exists before, h, after. split; [exact Hhs | reflexivity].
Qed.

End DestroyMore.

(** Instance 30 is destroyed, 32 refuses, 31 is never asked. *)
Lemma destroy_stops_at_first_failure_witness :
  let run := destroyExtenders (host := Scenes.stubborn)
               (Demo.world Demo.filled) in
  fst (fst run) = Raised (VStr "still busy")
  /\ exists before h after,
       [30; 32; 31] = before ++ h :: after
       /\ snd run
          = EGetCurrentExtenders [30; 32; 31]
            :: map (fun h => EDestroy h (Returned tt))
                 (filter (hasDestroyHook (host := Scenes.stubborn)) before)
            ++ [EDestroy h (Raised (VStr "still busy"))].
Proof.
  intros run.
  assert (Hr : fst (fst run) = Raised (VStr "still busy"))
    by (vm_compute; reflexivity).
  split; [exact Hr |].
  assert (Hrun : run = (Raised (VStr "still busy"), snd (fst run), snd run))
    by (vm_compute; reflexivity).
  exact (destroy_stops_at_first_failure
           (host := Scenes.stubborn) (Demo.world Demo.filled)
           (Raised (VStr "still busy")) (snd (fst run)) (snd run) Hrun).
Defined.
